(** * Turn-processing pipeline of the pharmalist chatbot

    A shallow embedding of [backend/app/chatbot/nodes.py],
    [backend/app/chatbot/state_machine.py] and
    [backend/app/routes/chatbot.py], followed by the properties of the
    pipeline that the specification states.

    Conventions of the embedding.
    - A Python [str] is a [string]: every [ascii] stands for the character
      with the same code point, so the texts covered are those whose
      characters lie below U+0100.  White space, word characters, cased
      characters and [str.lower] are those of Python on that whole range.
      Three characters of the range have no capital in it (the capitals of
      U+00B5 and U+00FF lie beyond it, that of U+00DF is two letters);
      [str.upper] and [str.title] leave those three in place and are
      those of Python everywhere else.  Two literals of the source hold a
      character beyond the range (the arrow of the summary line and the
      warning sign of the prompt); they are written as the bytes of their
      UTF-8 encoding, and the texts built from them are only concatenated
      and handed on, never measured, trimmed, sliced or case-mapped.
    - A Python [int] is a [Z].
    - A [dict] used as a map is a [gmap]; a [dict] whose iteration order is
      observed (a result row, the entity index) is an association list or
      the list of its keys, in insertion order.
    - The completion engine, the data store and the clock are the fields of
      an environment record [Env]; a call that may raise returns a
      [result]. *)

From Stdlib Require Import ZArith Ascii String DecimalString.
From Stdlib Require DecimalPos DecimalZ.
From stdpp Require Import gmap strings list fin_maps.

Local Open Scope Z_scope.

(** ** Python primitives *)

Module Py.

Definition code (c : ascii) : nat := nat_of_ascii c.

(** Every character of the range, by code point. *)
Definition chars : list ascii := ascii_of_nat <$> seq 0 256.

Definition between (lo hi : nat) (c : ascii) : bool :=
  (Nat.leb lo (code c)) && (Nat.leb (code c) hi).

(** The capitals: A-Z and U+00C0-U+00DE without the multiplication sign. *)
Definition is_upper (c : ascii) : bool :=
  between 65 90 c || between 192 214 c || between 216 222 c.

(** The small letters whose capital is one character of the range: a-z and
    U+00E0-U+00FE without the division sign. *)
Definition has_capital (c : ascii) : bool :=
  between 97 122 c || between 224 246 c || between 248 254 c.

(** The small letters: the former, the two ordinal indicators, the micro
    sign, sharp s and y with diaeresis. *)
Definition is_lower (c : ascii) : bool :=
  has_capital c || Nat.eqb (code c) 170 || Nat.eqb (code c) 181
  || Nat.eqb (code c) 186 || Nat.eqb (code c) 223 || Nat.eqb (code c) 255.

Definition is_digit (c : ascii) : bool := between 48 57 c.

(** The superscript digits and the vulgar fractions, numeric for
    [str.isalnum]. *)
Definition is_numeric_sign (c : ascii) : bool :=
  between 178 179 c || Nat.eqb (code c) 185 || between 188 190 c.

Definition is_cased (c : ascii) : bool := is_upper c || is_lower c.

(** [str.isspace] on one character, which is also what [str.strip] and
    [str.split] take off and what [\s] matches: the ASCII white space, the
    four separators U+001C-U+001F, NEXT LINE (U+0085) and NO-BREAK SPACE
    (U+00A0). *)
Definition is_space (c : ascii) : bool :=
  between 9 13 c || between 28 32 c
  || Nat.eqb (code c) 133 || Nat.eqb (code c) 160.

(** What [\w] matches: an alphanumeric character or the underscore. *)
Definition is_word (c : ascii) : bool :=
  is_cased c || is_digit c || is_numeric_sign c || Nat.eqb (code c) 95.

Definition lower_char (c : ascii) : ascii :=
  if is_upper c then ascii_of_nat (code c + 32) else c.

Definition upper_char (c : ascii) : ascii :=
  if has_capital c then ascii_of_nat (code c - 32) else c.

Fixpoint map_chars (f : ascii → ascii) (s : string) : string :=
  match s with
  | EmptyString => EmptyString
  | String c s' => String (f c) (map_chars f s')
  end.

(** [s.lower()] and [s.upper()] *)
Definition lower (s : string) : string := map_chars lower_char s.
Definition upper (s : string) : string := map_chars upper_char s.

Fixpoint lstrip (s : string) : string :=
  match s with
  | EmptyString => EmptyString
  | String c s' => if is_space c then lstrip s' else s
  end.

Definition rstrip (s : string) : string :=
  String.rev (lstrip (String.rev s)).

(** [s.strip()] *)
Definition strip (s : string) : string := rstrip (lstrip s).

(** [needle in hay] *)
Fixpoint contains (needle hay : string) : bool :=
  String.prefix needle hay ||
  match hay with
  | EmptyString => false
  | String _ hay' => contains needle hay'
  end.

(** [s[:n]] *)
Definition str_take (n : nat) (s : string) : string :=
  String.substring 0 n s.

Fixpoint str_drop (n : nat) (s : string) : string :=
  match n, s with
  | O, _ => s
  | S n', String _ s' => str_drop n' s'
  | S _, EmptyString => EmptyString
  end.

(** [sep.join(l)] *)
Fixpoint join (sep : string) (l : list string) : string :=
  match l with
  | [] => ""
  | [x] => x
  | x :: l' => x +:+ sep +:+ join sep l'
  end.

(** [str(n)] for an [int] *)
Definition str_of_Z (z : Z) : string :=
  NilZero.string_of_int (Z.to_int z).

Definition str_of_nat (n : nat) : string := str_of_Z (Z.of_nat n).

(** [s.replace('_', ' ')] *)
Definition underscores_to_spaces (s : string) : string :=
  map_chars (fun c => if Nat.eqb (code c) 95 then " "%char else c) s.

Fixpoint title_go (previous_is_cased : bool) (s : string) : string :=
  match s with
  | EmptyString => EmptyString
  | String c s' =>
      String (if previous_is_cased then lower_char c else upper_char c)
             (title_go (is_cased c) s')
  end.

(** [s.title()] *)
Definition title (s : string) : string := title_go false s.

(** [bool(s)] for a [str] *)
Definition nonempty (s : string) : bool :=
  match s with EmptyString => false | _ => true end.

(** [l[-n:]] for [n > 0] *)
Definition last_n {A} (n : nat) (l : list A) : list A :=
  drop (length l - n) l.

(** *** [re.search(r'FROM\s+(\w+)', s, re.IGNORECASE)]

    The greedy [\s+] either takes the whole run of white space or the
    match fails at this position, since a white-space character is not a
    word character; [group(1)] is the maximal run of word characters
    that follows. *)

Fixpoint word_run (s : string) : string :=
  match s with
  | EmptyString => EmptyString
  | String c s' => if is_word c then String c (word_run s') else EmptyString
  end.

Definition from_match_here (s : string) : option string :=
  if String.eqb (lower (str_take 4 s)) "from" then
    match str_drop 4 s with
    | String c rest =>
        if is_space c then
          match word_run (lstrip rest) with
          | EmptyString => None
          | w => Some w
          end
        else None
    | EmptyString => None
    end
  else None.

Fixpoint from_table_search (s : string) : option string :=
  match from_match_here s with
  | Some w => Some w
  | None =>
      match s with
      | EmptyString => None
      | String _ s' => from_table_search s'
      end
  end.

End Py.

(** ** Data model *)

(** A raising call: [Raise msg] carries [str(e)]. *)
Inductive result (A : Type) : Type :=
  | Ok (a : A)
  | Raise (msg : string).
Arguments Ok {A} a.
Arguments Raise {A} msg.

Global Instance result_ret : MRet result := fun A a => Ok a.

Global Instance result_bind : MBind result := fun A B k r =>
  match r with
  | Ok a => k a
  | Raise msg => Raise msg
  end.

(** A field value of a result row.  Text, integers, booleans and NULL are
    covered; numeric types with a fractional part are not. *)
Inductive value : Type :=
  | VNone
  | VStr (s : string)
  | VInt (z : Z)
  | VBool (b : bool).

Global Instance value_eq_dec : EqDecision value.
Proof. solve_decision. Defined.

(** [bool(v)] *)
Definition truthy (v : value) : bool :=
  match v with
  | VNone => false
  | VStr s => Py.nonempty s
  | VInt z => negb (z =? 0)
  | VBool b => b
  end.

(** [str(v)], as an f-string formats it *)
Definition str_of_value (v : value) : string :=
  match v with
  | VNone => "None"
  | VStr s => s
  | VInt z => Py.str_of_Z z
  | VBool true => "True"
  | VBool false => "False"
  end.

(** A row is the [dict] that [dict(r)] builds from a [RealDictCursor]
    record: its fields in column order. *)
Abbreviation Row := (list (string * value)).

Definition keys (row : Row) : list string := row.*1.

(** [row.get(field)] *)
Fixpoint row_get (field : string) (row : Row) : value :=
  match row with
  | [] => VNone
  | (k, v) :: row' => if String.eqb k field then v else row_get field row'
  end.

(** One entry of [query_history]. *)
Record QueryRecord := {
  qr_turn : Z;
  qr_query : string;
  qr_sql : option string;
  qr_row_count : Z;
  qr_timestamp : string;
  qr_response_summary : string
}.

(** One entry of [result_cache]. *)
Record CachedResult := {
  cr_sql : string;
  cr_rows : list Row;
  cr_full_count : Z
}.

(** [session_memory].  [entity_references] only ever stores [True], so it
    is the list of its keys in insertion order; [last_table] is [None]
    while the key is absent. *)
Record Memory := {
  conversation_context : string;
  query_history : list QueryRecord;
  result_cache : gmap string CachedResult;
  entity_references : list string;
  last_topic : option string;
  turn_count : Z;
  last_table : option string
}.

(** [session_context] *)
Record SessionContext := {
  current_table : option string;
  last_query_type : option string;
  active_request_id : option Z;
  last_results_summary : string;
  mentioned_tables : list string;
  last_sql_query : option string;
  last_result_count : Z
}.

(** [Message] of [state.py] *)
Record Message := {
  role : string;
  content : string;
  msg_query_type : option string
}.

(** [most_dynamic] *)
Record MostDynamic := {
  md_version_number : value;
  md_total : Z
}.

(** One entry of [comparisons]. *)
Record Comparison := {
  from_version : value;
  to_version : value;
  added : Z;
  removed : Z;
  cmp_total : Z
}.

(** [AgentState].  The [TypedDict] is declared with [total=False]: an
    optional field is [None] while its key is absent.  For [request_id],
    [query_type], [generated_sql], [versions] and [session_memory] a key
    that holds Python's [None] behaves in the source exactly as an absent
    one ([state.get] gives [None] for both, or a default that the tests
    made on the value do not tell from [None]), and [None] stands for it
    as well.  For [rows], [response] and
    [session_context] the source tells the two apart ([len(rows)] on the
    value read with a default, the answer returned as read, the context
    subscripted), so there [None] is the absent key only: a state in which
    one of these three keys holds [None] has no counterpart here.  No node
    stores [None] under them, and [chat_query] starts a run with a dict
    under [session_context] and without the other two keys; they hold a
    list, a text and a dict whenever they are present.
    [user_query], [needs_sql] and [is_clarification] are read with
    [state.get] and a falsy default, which is the value they have here when
    absent. *)
Record AgentState := {
  user_query : string;
  request_id : option Z;
  query_type : option string;
  generated_sql : option string;
  versions : option (list Row);
  comparisons : option (list Comparison);
  most_dynamic : option MostDynamic;
  rows : option (list Row);
  response : option string;
  conversation_history : list Message;
  context_summary : string;
  session_context : option SessionContext;
  session_memory : option Memory;
  needs_sql : bool;
  is_clarification : bool
}.

(** *** Field updates *)

Definition set_memory (m : Memory) (st : AgentState) : AgentState :=
  {| user_query := user_query st; request_id := request_id st;
     query_type := query_type st; generated_sql := generated_sql st;
     versions := versions st; comparisons := comparisons st;
     most_dynamic := most_dynamic st; rows := rows st;
     response := response st; conversation_history := conversation_history st;
     context_summary := context_summary st;
     session_context := session_context st; session_memory := Some m;
     needs_sql := needs_sql st; is_clarification := is_clarification st |}.

Definition set_context (c : SessionContext) (st : AgentState) : AgentState :=
  {| user_query := user_query st; request_id := request_id st;
     query_type := query_type st; generated_sql := generated_sql st;
     versions := versions st; comparisons := comparisons st;
     most_dynamic := most_dynamic st; rows := rows st;
     response := response st; conversation_history := conversation_history st;
     context_summary := context_summary st;
     session_context := Some c; session_memory := session_memory st;
     needs_sql := needs_sql st; is_clarification := is_clarification st |}.

Definition set_query_type (q : option string) (st : AgentState) : AgentState :=
  {| user_query := user_query st; request_id := request_id st;
     query_type := q; generated_sql := generated_sql st;
     versions := versions st; comparisons := comparisons st;
     most_dynamic := most_dynamic st; rows := rows st;
     response := response st; conversation_history := conversation_history st;
     context_summary := context_summary st;
     session_context := session_context st; session_memory := session_memory st;
     needs_sql := needs_sql st; is_clarification := is_clarification st |}.

Definition set_generated_sql (q : option string) (st : AgentState) : AgentState :=
  {| user_query := user_query st; request_id := request_id st;
     query_type := query_type st; generated_sql := q;
     versions := versions st; comparisons := comparisons st;
     most_dynamic := most_dynamic st; rows := rows st;
     response := response st; conversation_history := conversation_history st;
     context_summary := context_summary st;
     session_context := session_context st; session_memory := session_memory st;
     needs_sql := needs_sql st; is_clarification := is_clarification st |}.

Definition set_rows (r : list Row) (st : AgentState) : AgentState :=
  {| user_query := user_query st; request_id := request_id st;
     query_type := query_type st; generated_sql := generated_sql st;
     versions := versions st; comparisons := comparisons st;
     most_dynamic := most_dynamic st; rows := Some r;
     response := response st; conversation_history := conversation_history st;
     context_summary := context_summary st;
     session_context := session_context st; session_memory := session_memory st;
     needs_sql := needs_sql st; is_clarification := is_clarification st |}.

Definition set_response (r : string) (st : AgentState) : AgentState :=
  {| user_query := user_query st; request_id := request_id st;
     query_type := query_type st; generated_sql := generated_sql st;
     versions := versions st; comparisons := comparisons st;
     most_dynamic := most_dynamic st; rows := rows st;
     response := Some r; conversation_history := conversation_history st;
     context_summary := context_summary st;
     session_context := session_context st; session_memory := session_memory st;
     needs_sql := needs_sql st; is_clarification := is_clarification st |}.

Definition set_routing (needs clar : bool) (st : AgentState) : AgentState :=
  {| user_query := user_query st; request_id := request_id st;
     query_type := query_type st; generated_sql := generated_sql st;
     versions := versions st; comparisons := comparisons st;
     most_dynamic := most_dynamic st; rows := rows st;
     response := response st; conversation_history := conversation_history st;
     context_summary := context_summary st;
     session_context := session_context st; session_memory := session_memory st;
     needs_sql := needs; is_clarification := clar |}.

Definition set_versions (v : list Row) (st : AgentState) : AgentState :=
  {| user_query := user_query st; request_id := request_id st;
     query_type := query_type st; generated_sql := generated_sql st;
     versions := Some v; comparisons := comparisons st;
     most_dynamic := most_dynamic st; rows := rows st;
     response := response st; conversation_history := conversation_history st;
     context_summary := context_summary st;
     session_context := session_context st; session_memory := session_memory st;
     needs_sql := needs_sql st; is_clarification := is_clarification st |}.

Definition set_analysis (c : option (list Comparison)) (m : MostDynamic)
    (st : AgentState) : AgentState :=
  {| user_query := user_query st; request_id := request_id st;
     query_type := query_type st; generated_sql := generated_sql st;
     versions := versions st; comparisons := c;
     most_dynamic := Some m; rows := rows st;
     response := response st; conversation_history := conversation_history st;
     context_summary := context_summary st;
     session_context := session_context st; session_memory := session_memory st;
     needs_sql := needs_sql st; is_clarification := is_clarification st |}.

Definition with_current_table (t : option string) (c : SessionContext) : SessionContext :=
  {| current_table := t; last_query_type := last_query_type c;
     active_request_id := active_request_id c;
     last_results_summary := last_results_summary c;
     mentioned_tables := mentioned_tables c;
     last_sql_query := last_sql_query c;
     last_result_count := last_result_count c |}.

Definition with_mentioned_tables (l : list string) (c : SessionContext) : SessionContext :=
  {| current_table := current_table c; last_query_type := last_query_type c;
     active_request_id := active_request_id c;
     last_results_summary := last_results_summary c;
     mentioned_tables := l;
     last_sql_query := last_sql_query c;
     last_result_count := last_result_count c |}.

Definition with_last_query_type (q : option string) (c : SessionContext) : SessionContext :=
  {| current_table := current_table c; last_query_type := q;
     active_request_id := active_request_id c;
     last_results_summary := last_results_summary c;
     mentioned_tables := mentioned_tables c;
     last_sql_query := last_sql_query c;
     last_result_count := last_result_count c |}.

Definition with_last_sql_query (q : option string) (c : SessionContext) : SessionContext :=
  {| current_table := current_table c; last_query_type := last_query_type c;
     active_request_id := active_request_id c;
     last_results_summary := last_results_summary c;
     mentioned_tables := mentioned_tables c;
     last_sql_query := q;
     last_result_count := last_result_count c |}.

Definition with_results (summary : string) (count : option Z) (c : SessionContext)
    : SessionContext :=
  {| current_table := current_table c; last_query_type := last_query_type c;
     active_request_id := active_request_id c;
     last_results_summary := summary;
     mentioned_tables := mentioned_tables c;
     last_sql_query := last_sql_query c;
     last_result_count := default (last_result_count c) count |}.

(** [state["session_context"]], which raises [KeyError] on a missing key. *)
Definition the_context (st : AgentState) : result SessionContext :=
  match session_context st with
  | Some c => Ok c
  | None => Raise "'session_context'"
  end.

(** ** External collaborators *)

(** What [classify_query_node] interpolates into its prompt. *)
Record ClassifyPrompt := {
  cp_current_context : string;
  cp_recent_context : string;
  cp_query : string
}.

(** What [generate_sql_node] interpolates into its prompt (the schema
    description is a constant of the prompt). *)
Record SqlPrompt := {
  sp_context_info : string;
  sp_conversation_summary : string;
  sp_user_question : string;
  sp_most_recent_table : string;
  sp_most_recent_sql : string;
  sp_last_table : string
}.

(** - [classify_completion], [sql_completion]: the text
      [client.chat.completions.create(...).choices[0].message.content], or
      the exception of the call;
    - [db_connect]: [psycopg2.connect(SUPABASE_DB_URL)];
    - [db_execute sql]: [cur.execute(sql)] then [cur.fetchall()];
    - [db_execute_params sql p]: [cur.execute(sql, (p,))] then
      [cur.fetchall()];
    - [now]: [datetime.now().isoformat()]. *)
Record Env := {
  classify_completion : ClassifyPrompt → result string;
  sql_completion : SqlPrompt → result string;
  db_connect : result unit;
  db_execute : string → result (list Row);
  db_execute_params : string → value → result (list Row);
  now : string
}.

(** ** Memory management utilities *)

Definition nl : string := String (ascii_of_nat 10) "".
Definition dquote : string := String (ascii_of_nat 34) "".

Definition fresh_memory : Memory :=
  {| conversation_context := "";
     query_history := [];
     result_cache := ∅;
     entity_references := [];
     last_topic := None;
     turn_count := 0;
     last_table := None |}.

Definition initialize_memory (state : AgentState) : AgentState :=
  match session_memory state with
  | Some _ => state
  | None => set_memory fresh_memory state
  end.

(** [state.get("session_memory", {})] read through [memory.get(key, default)] *)
Definition memory_of (state : AgentState) : Memory :=
  default fresh_memory (session_memory state).

(** [d[k] = True] on a [dict] kept as its key list *)
Definition dict_add (k : string) (d : list string) : list string :=
  if bool_decide (k ∈ d) then d else d ++ [k].

(** [d.update(e)] *)
Definition dict_update (d e : list string) : list string :=
  foldl (fun acc k => dict_add k acc) d e.

Definition entity_tables : list string :=
  ["list_versions"; "target_list_entries"; "hcp"; "version"].

Definition name_entities_of_row (row : Row) : list string :=
  omap (fun kv =>
          match kv with
          | (key, VStr value) =>
              if Py.contains "name" (Py.lower key)
              then Some ("name_" +:+ value) else None
          | _ => None
          end) row.

Definition extract_entities (query : string) (rows : list Row) : list string :=
  let from_query :=
    foldl (fun entities table =>
             if Py.contains table (Py.lower query)
             then dict_add ("table_" +:+ table) entities else entities)
          [] entity_tables in
  foldl (fun entities key => dict_add key entities)
        from_query (concat (name_entities_of_row <$> take 5 rows)).

Definition summary_line (record : QueryRecord) : string :=
  "Turn " +:+ Py.str_of_Z (qr_turn record) +:+ ": Asked about '"
  +:+ Py.str_take 60 (qr_query record) +:+ "...' "
  +:+ "→ " +:+ Py.str_of_Z (qr_row_count record) +:+ " results".

Definition summarize_conversation_context (history : list QueryRecord) : string :=
  match history with
  | [] => "No previous conversation."
  | _ => Py.join nl (summary_line <$> Py.last_n 5 history)
  end.

(** [bool(x)] for an optional [str] *)
Definition truthy_str (o : option string) : bool :=
  match o with
  | Some s => Py.nonempty s
  | None => false
  end.

Definition query_record_of (env : Env) (turn : Z) (state : AgentState) : QueryRecord :=
  {| qr_turn := turn;
     qr_query := user_query state;
     qr_sql := generated_sql state;
     qr_row_count := Z.of_nat (length (default [] (rows state)));
     qr_timestamp := now env;
     qr_response_summary := Py.str_take 200 (default "" (response state)) |}.

(** The history after [append] and the trim to the last ten. *)
Definition push_history (record : QueryRecord) (history : list QueryRecord)
    : list QueryRecord :=
  let appended := history ++ [record] in
  if Nat.ltb 10 (length appended) then Py.last_n 10 appended else appended.

Definition cache_key (turn : Z) : string := "turn_" +:+ Py.str_of_Z turn.

Definition update_memory (env : Env) (state0 : AgentState) : result AgentState :=
  let state := initialize_memory state0 in
  let memory := memory_of state in
  (* Increment turn counter *)
  let turn := turn_count memory + 1 in
  (* Store query in history *)
  let query := user_query state in
  let sql := generated_sql state in
  let rows_ := default [] (rows state) in
  let history := push_history (query_record_of env turn state) (query_history memory) in
  (* Cache results for potential reference *)
  cached ←
    match sql, rows_ with
    | Some sql_text, _ :: _ =>
        if Py.nonempty sql_text then
          let cache :=
            <[cache_key turn :=
                {| cr_sql := sql_text;
                   cr_rows := take 50 rows_;
                   cr_full_count := Z.of_nat (length rows_) |}]>
              (result_cache memory) in
          if Py.contains "FROM" (Py.upper sql_text) then
            match Py.from_table_search sql_text with
            | Some table =>
                ctx ← the_context state;
                Ok (cache, Some table,
                    set_context (with_current_table (Some table) ctx) state)
            | None => Ok (cache, last_table memory, state)
            end
          else Ok (cache, last_table memory, state)
        else Ok (result_cache memory, last_table memory, state)
    | _, _ => Ok (result_cache memory, last_table memory, state)
    end;
  let '(cache, table, state) := cached in
  (* Track entity references *)
  let entities := dict_update (entity_references memory) (extract_entities query rows_) in
  (* Update last topic *)
  let topic :=
    if truthy_str (query_type state) then query_type state else last_topic memory in
  (* Generate conversation context summary every 3 turns *)
  let context :=
    if turn mod 3 =? 0 then summarize_conversation_context history
    else conversation_context memory in
  Ok (set_memory
        {| conversation_context := context;
           query_history := history;
           result_cache := cache;
           entity_references := entities;
           last_topic := topic;
           turn_count := turn;
           last_table := table |}
        state).

(** ** Router *)

Definition pure_greetings : list string :=
  ["hello"; "hi"; "hey"; "thanks"; "thank you"; "bye"; "good morning"; "good evening"].

Definition meta_questions : list string :=
  ["how do you work"; "what can you do"; "help me"; "how does this work"].

Definition router_tables : list string :=
  ["list_versions"; "target_list_entries"; "version"; "entry"; "hcp"; "list"].

(** [any(p in text for p in phrases)] *)
Definition any_in (phrases : list string) (text : string) : bool :=
  existsb (fun p => Py.contains p text) phrases.

Definition is_pure_greeting (query : string) : bool :=
  bool_decide (Py.lower (Py.strip query) ∈ pure_greetings).

Definition is_meta (query : string) : bool := any_in meta_questions query.

Definition default_context (state : AgentState) : SessionContext :=
  {| current_table := None;
     last_query_type := None;
     active_request_id := request_id state;
     last_results_summary := "";
     mentioned_tables := [];
     last_sql_query := None;
     last_result_count := 0 |}.

Definition track_table (query : string) (ctx : SessionContext) (table : string)
    : SessionContext :=
  if Py.contains table query then
    with_current_table (Some table)
      (if bool_decide (table ∈ mentioned_tables ctx) then ctx
       else with_mentioned_tables (mentioned_tables ctx ++ [table]) ctx)
  else ctx.

(** The indicator lists for new queries, clarifications, references, SQL
    keywords and entity references are evaluated by the source into local
    flags that no later statement reads; the decision below is all that
    reaches the state. *)
Definition router_node (state0 : AgentState) : AgentState :=
  let state := initialize_memory state0 in
  let query := Py.lower (user_query state) in
  let ctx := default (default_context state) (session_context state) in
  let needs :=
    if is_pure_greeting query || is_meta query then false else true in
  let ctx := foldl (track_table query) ctx router_tables in
  set_routing needs false (set_context ctx state).

(** ** Classification *)

(** [str(d.get(key, default))] for a key that holds an optional [str] *)
Definition show_opt (o : option string) : string := default "None" o.

Definition classify_prompt (state : AgentState) : ClassifyPrompt :=
  let memory := memory_of state in
  {| cp_current_context :=
       match session_context state with
       | Some ctx => show_opt (current_table ctx)
       | None => "unknown"
       end;
     cp_recent_context :=
       match query_history memory with
       | [] => ""
       | history =>
           "Recent queries: "
           +:+ Py.join ", " ((fun q => Py.str_take 40 (qr_query q)) <$> Py.last_n 3 history)
       end;
     cp_query := user_query state |}.

Definition classify_query_node (env : Env) (state0 : AgentState) : result AgentState :=
  if negb (needs_sql state0) then
    Ok (set_query_type (Some "conversation") state0)
  else
    let state := initialize_memory state0 in
    text ← classify_completion env (classify_prompt state);
    let category := Py.lower (Py.strip text) in
    let state := set_query_type (Some category) state in
    ctx ← the_context state;
    Ok (set_context (with_last_query_type (Some category) ctx) state).

(** ** Query generation *)

(** The loop of [generate_sql_node] over the recent records: the context
    text, [last_sql], [last_query_text] and [last_table]. *)
Definition recent_step
    (acc : string * option string * option string * option string)
    (record : QueryRecord)
    : string * option string * option string * option string :=
  let '(info, last_sql, last_query_text, last_tbl) := acc in
  let info := info +:+ "- Turn " +:+ Py.str_of_Z (qr_turn record) +:+ ": "
              +:+ Py.str_take 80 (qr_query record) +:+ nl in
  match qr_sql record with
  | Some sql =>
      if Py.nonempty sql then
        let info := info +:+ "  SQL: " +:+ Py.str_take 100 sql +:+ nl in
        let tbl :=
          if Py.contains "FROM" (Py.upper sql) then
            match Py.from_table_search sql with
            | Some t => Some t
            | None => last_tbl
            end
          else last_tbl in
        (info, Some sql, Some (qr_query record), tbl)
      else (info, last_sql, last_query_text, last_tbl)
  | None => (info, last_sql, last_query_text, last_tbl)
  end.

Definition most_recent_block (text sql tbl : string) : string :=
  nl +:+ "    " +:+ nl
  +:+ "    ⚠️ MOST RECENT QUERY (use this as primary context):" +:+ nl
  +:+ "    User asked: " +:+ dquote +:+ text +:+ dquote +:+ nl
  +:+ "    SQL executed: " +:+ sql +:+ nl
  +:+ "    Table used: " +:+ tbl +:+ nl
  +:+ "    " +:+ nl
  +:+ "    If the current question refers to " +:+ dquote +:+ "them" +:+ dquote
  +:+ ", " +:+ dquote +:+ "those entries" +:+ dquote
  +:+ ", " +:+ dquote +:+ "full entry" +:+ dquote
  +:+ ", " +:+ dquote +:+ "more details" +:+ dquote +:+ "," +:+ nl
  +:+ "    it likely means the results from the above query." +:+ nl
  +:+ "    ".

(** [x or y] for optional strings *)
Definition or_else (o : option string) (d : string) : string :=
  if truthy_str o then default d o else d.

Definition sql_prompt (state : AgentState) : SqlPrompt :=
  let memory := memory_of state in
  let info :=
    nl +:+ "    Current table/topic: "
    +:+ match session_context state with
        | Some ctx => show_opt (current_table ctx)
        | None => "unknown"
        end +:+ nl
    +:+ "    Last table queried: " +:+ default "unknown" (last_table memory) +:+ nl
    +:+ "    Previously mentioned tables: "
    +:+ Py.join ", " (from_option mentioned_tables [] (session_context state)) +:+ nl
    +:+ "    " in
  let '(info, last_sql, last_query_text, last_tbl) :=
    match query_history memory with
    | [] => (info, None, None, None)
    | history =>
        let '(info, last_sql, last_query_text, last_tbl) :=
          foldl recent_step
                (info +:+ nl +:+ nl +:+ "Recent queries in this conversation:" +:+ nl,
                 None, None, None)
                (Py.last_n 5 history) in
        let info :=
          if truthy_str last_sql && truthy_str last_query_text then
            info +:+ most_recent_block (default "" last_query_text)
                       (default "" last_sql) (or_else last_tbl "unknown")
          else info in
        (info, last_sql, last_query_text, last_tbl)
    end in
  let info :=
    match entity_references memory with
    | [] => info
    | entities =>
        info +:+ nl +:+ "Mentioned entities: " +:+ Py.join ", " (take 10 entities) +:+ nl
    end in
  {| sp_context_info := info;
     sp_conversation_summary := conversation_context memory;
     sp_user_question := user_query state;
     sp_most_recent_table :=
       if truthy_str last_tbl then default "" last_tbl
       else default "N/A" (last_table memory);
     sp_most_recent_sql := or_else last_sql "N/A";
     sp_last_table := show_opt last_tbl |}.

Definition generate_sql_node (env : Env) (state0 : AgentState) : result AgentState :=
  if negb (needs_sql state0) then
    Ok (set_generated_sql None state0)
  else
    let state := initialize_memory state0 in
    text ← sql_completion env (sql_prompt state);
    let sql_query := Py.strip text in
    let state := set_generated_sql (Some sql_query) state in
    ctx ← the_context state;
    Ok (set_context (with_last_sql_query (Some sql_query) ctx) state).

(** ** Query execution *)

(** What a node does to the outside world: the statements it hands to
    [cur.execute]. *)
Inductive Event : Type :=
  | Executed (sql : string) (params : list value).

(** The [except] clause of [execute_sql_node]. *)
Definition execution_failed (e : string) (state : AgentState) : result AgentState :=
  let state := set_rows [] state in
  ctx ← the_context state;
  Ok (set_context (with_results ("Error: " +:+ e) None ctx) state).

Definition execute_sql_node (env : Env) (state : AgentState)
    : list Event * result AgentState :=
  if negb (needs_sql state) || negb (truthy_str (generated_sql state)) then
    ([], Ok (set_rows [] state))
  else
    let sql := default "" (generated_sql state) in
    match db_connect env with
    | Raise e => ([], execution_failed e state)
    | Ok _ =>
        ([Executed sql []],
         match db_execute env sql with
         | Raise e => execution_failed e state
         | Ok fetched =>
             let state := set_rows fetched state in
             let count := Z.of_nat (length fetched) in
             match session_context state with
             | Some ctx =>
                 Ok (set_context
                       (with_results ("Retrieved " +:+ Py.str_of_Z count +:+ " rows")
                                     (Some count) ctx)
                       state)
             | None => execution_failed "'session_context'" state
             end
         end)
    end.

(** ** Response composition *)

Definition field_labels : list (string * string) :=
  [("hcp_name", "Name"); ("name", "Name"); ("system_name", "System");
   ("title", "Title"); ("specialty", "Specialty"); ("contact_name", "Contact");
   ("system_id", "ID"); ("hcp_id", "HCP ID"); ("tier", "Tier");
   ("importance", "Importance"); ("contact_email", "Email");
   ("phone", "Phone"); ("address", "Address"); ("city", "City");
   ("state", "State"); ("npi", "NPI"); ("revenue", "Revenue");
   ("prescriber_type", "Type")].

Definition sample_field_labels : list (string * string) :=
  [("hcp_name", "Name"); ("name", "Name"); ("system_name", "System");
   ("title", "Title"); ("specialty", "Specialty"); ("contact_name", "Contact");
   ("system_id", "ID"); ("tier", "Tier"); ("importance", "Importance");
   ("contact_email", "Email"); ("revenue", "Revenue")].

Definition list_priority_fields : list string :=
  ["hcp_name"; "name"; "system_name"; "title"; "specialty";
   "contact_name"; "system_id"; "hcp_id"; "tier"; "importance"].

Definition sample_priority_fields : list string :=
  ["hcp_name"; "name"; "system_name"; "title"; "specialty";
   "contact_name"; "system_id"; "tier"].

Definition other_priority_fields : list string :=
  ["hcp_name"; "name"; "system_name"; "title"; "specialty";
   "contact_name"; "system_id"; "hcp_id"; "tier"; "importance";
   "contact_email"; "revenue"; "phone"; "address"].

Definition sample_size : nat := 20.

Fixpoint assoc (k : string) (l : list (string * string)) : option string :=
  match l with
  | [] => None
  | (k', v) :: l' => if String.eqb k' k then Some v else assoc k l'
  end.

(** [labels.get(field, field.replace('_', ' ').title())] *)
Definition label_of (labels : list (string * string)) (field : string) : string :=
  default (Py.title (Py.underscores_to_spaces field)) (assoc field labels).

(** The priority fields present among the keys or, when there is none, the
    first [n] keys that are not housekeeping fields. *)
Definition display_fields_of (priority housekeeping : list string) (n : nat)
    (row_keys : list string) : list string :=
  match filter (fun field => field ∈ row_keys) priority with
  | [] => take n (filter (fun k => k ∉ housekeeping) row_keys)
  | fields => fields
  end.

Definition row_parts (labels : list (string * string)) (fields : list string)
    (row : Row) : list string :=
  omap (fun field =>
          let value := row_get field row in
          if truthy value
          then Some (label_of labels field +:+ ": " +:+ str_of_value value)
          else None) fields.

Definition numbered (i : nat) (text : string) : string :=
  Py.str_of_nat (S i) +:+ ". " +:+ text.

(** A row with some non-empty selected field: its line. *)
Definition row_line (labels : list (string * string)) (fields : list string)
    (i : nat) (row : Row) : option string :=
  match row_parts labels fields row with
  | [] => None
  | parts => Some (numbered i (Py.join " | " parts))
  end.

(** The fallback of the direct display: every non-empty field of the row. *)
Definition all_fields_line (labels : list (string * string)) (i : nat) (row : Row)
    : string :=
  numbered i
    (Py.join ", "
       (omap (fun kv : string * value =>
                if truthy kv.2
                then Some (label_of labels kv.1 +:+ ": " +:+ str_of_value kv.2)
                else None) row)).

(** [results_list] of the direct display (at most 100 rows). *)
Definition results_list (rows_ : list Row) : list string :=
  let fields :=
    display_fields_of list_priority_fields
      ["id"; "created_at"; "updated_at"; "version_id"] 5
      (from_option keys [] (head rows_)) in
  imap (fun i row =>
          default (all_fields_line field_labels i row)
                  (row_line field_labels fields i row)) rows_.

(** [sample_list] of the display for large result sets. *)
Definition sample_list (rows_ : list Row) : list string :=
  let fields :=
    display_fields_of sample_priority_fields
      ["id"; "created_at"; "updated_at"] 4
      (from_option keys [] (head rows_)) in
  omap id (imap (row_line sample_field_labels fields) (take sample_size rows_)).

(** [results_list] of the display for the other query types. *)
Definition other_results_list (rows_ : list Row) : list string :=
  let fields :=
    display_fields_of other_priority_fields
      ["id"; "created_at"; "updated_at"; "version_id"] 5
      (from_option keys [] (head rows_)) in
  omap id (imap (row_line field_labels fields) rows_).

Definition no_results : string := "No results found for your query.".

Definition all_entries_response (rows_ : list Row) : string :=
  "Here are all " +:+ Py.str_of_nat (length rows_) +:+ " entries:" +:+ nl +:+ nl
  +:+ Py.join nl (results_list rows_).

Definition sample_response (rows_ : list Row) : string :=
  "Found " +:+ Py.str_of_nat (length rows_) +:+ " entries in total." +:+ nl +:+ nl
  +:+ "Here are the first " +:+ Py.str_of_nat sample_size +:+ ":" +:+ nl +:+ nl
  +:+ Py.join nl (sample_list rows_) +:+ nl +:+ nl
  +:+ "... and " +:+ Py.str_of_Z (Z.of_nat (length rows_) - Z.of_nat sample_size)
  +:+ " more entries." +:+ nl +:+ nl
  +:+ "Would you like me to show a specific range or filter these results?".

Definition other_response (rows_ : list Row) : string :=
  "Here are the results:" +:+ nl +:+ nl +:+ Py.join nl (other_results_list rows_).

Definition is_list_query (query_type_ : string) : bool :=
  bool_decide (query_type_ ∈ ["list_all"; "ad_hoc_select"]).

(** The answer text chosen by [summarizer_node].  Every row is a [dict]
    (they are built by [dict(r)]), so the [isinstance] tests succeed.  The
    conversation text that the source assembles first is not read
    afterwards. *)
Definition compose_response (state : AgentState) : string :=
  let query_type_ := default "conversation" (query_type state) in
  let rows_ := default [] (rows state) in
  if is_list_query query_type_ && bool_decide (rows_ ≠ []) then
    if Nat.leb (length rows_) 100 then all_entries_response rows_
    else sample_response rows_
  else
    match rows_ with
    | [] => no_results
    | _ => other_response rows_
    end.

Definition summarizer_node (env : Env) (state0 : AgentState) : result AgentState :=
  let state := initialize_memory state0 in
  update_memory env (set_response (compose_response state) state).

(** ** Effects of a node *)

(** A computation that hands statements to the data store and may raise:
    the statements handed over so far, and the outcome. *)
Definition Eff (A : Type) : Type := list Event * result A.

Global Instance eff_ret : MRet Eff := fun A a => ([], Ok a).

Global Instance eff_bind : MBind Eff := fun A B k m =>
  match m with
  | (events, Ok a) => let '(events', r) := k a in (events ++ events', r)
  | (events, Raise e) => (events, Raise e)
  end.

Definition lift {A} (r : result A) : Eff A := ([], r).

(** [cur.execute(sql, (p,))] followed by [cur.fetchall()] *)
Definition execute_with (env : Env) (sql : string) (p : value) : Eff (list Row) :=
  ([Executed sql [p]], db_execute_params env sql p).

(** [row[key]], which raises [KeyError] on a missing key *)
Fixpoint row_item (key : string) (row : Row) : result value :=
  match row with
  | [] => Raise ("'" +:+ key +:+ "'")
  | (k, v) :: row' => if String.eqb k key then Ok v else row_item key row'
  end.

(** ** Version nodes *)

Definition versions_sql : string :=
  nl +:+ "    SELECT id AS version_id, version_number, created_at" +:+ nl
  +:+ "    FROM list_versions" +:+ nl
  +:+ "    WHERE request_id = %s" +:+ nl
  +:+ "    ORDER BY version_number ASC;" +:+ nl
  +:+ "    ".

Definition fetch_versions_node (env : Env) (state : AgentState) : Eff AgentState :=
  match request_id state with
  | None => mret (set_versions [] state)
  | Some rid =>
      match db_connect env with
      | Raise _ => mret (set_versions [] state)
      | Ok _ =>
          ([Executed versions_sql [VInt rid]],
           match db_execute_params env versions_sql (VInt rid) with
           | Ok fetched => Ok (set_versions fetched state)
           | Raise _ => Ok (set_versions [] state)
           end)
      end
  end.

Definition hcp_sql : string :=
  "SELECT hcp_id FROM target_list_entries WHERE version_id = %s".

(** The representative of a value among those equal to it in Python
    ([True == 1] and [False == 0]). *)
Definition set_key (v : value) : value :=
  match v with
  | VBool true => VInt 1
  | VBool false => VInt 0
  | _ => v
  end.

(** [{r["hcp_id"] for r in fetched}], as a duplicate-free list *)
Definition hcp_set (fetched : list Row) : result (list value) :=
  ids ← mapM (row_item "hcp_id") fetched;
  Ok (remove_dups (set_key <$> ids)).

(** One iteration of the loop of [analyze_changes_node]. *)
Definition analyze_pair (env : Env) (acc : list Comparison * MostDynamic)
    (step : Row * Row) : Eff (list Comparison * MostDynamic) :=
  let '(prev, curr) := step in
  prev_id ← lift (row_item "version_id" prev);
  curr_id ← lift (row_item "version_id" curr);
  prev_rows ← execute_with env hcp_sql prev_id;
  prev_hcps ← lift (hcp_set prev_rows);
  curr_rows ← execute_with env hcp_sql curr_id;
  curr_hcps ← lift (hcp_set curr_rows);
  let n_added := Z.of_nat (length (list_difference curr_hcps prev_hcps)) in
  let n_removed := Z.of_nat (length (list_difference prev_hcps curr_hcps)) in
  let total := n_added + n_removed in
  from_number ← lift (row_item "version_number" prev);
  to_number ← lift (row_item "version_number" curr);
  let comparison :=
    {| from_version := from_number; to_version := to_number;
       added := n_added; removed := n_removed; cmp_total := total |} in
  mret (acc.1 ++ [comparison],
        if md_total acc.2 <? total
        then {| md_version_number := to_number; md_total := total |}
        else acc.2).

(** The loop: an exception ends it and keeps what was accumulated. *)
Fixpoint analyze_pairs (env : Env) (acc : list Comparison * MostDynamic)
    (pairs : list (Row * Row)) : list Event * (list Comparison * MostDynamic) :=
  match pairs with
  | [] => ([], acc)
  | step :: rest =>
      match analyze_pair env acc step with
      | (events, Ok acc') =>
          let '(events', final) := analyze_pairs env acc' rest in
          (events ++ events', final)
      | (events, Raise _) => (events, acc)
      end
  end.

Definition analyze_changes_node (env : Env) (state : AgentState) : Eff AgentState :=
  match default [] (versions state) with
  | [] =>
      mret (set_analysis (comparisons state)
              {| md_version_number := VNone; md_total := 0 |} state)
  | first :: others =>
      let start := ([], {| md_version_number := VNone; md_total := -1 |}) in
      match db_connect env with
      | Raise _ => mret (set_analysis (Some start.1) start.2 state)
      | Ok _ =>
          let '(events, final) :=
            analyze_pairs env start (zip (first :: others) others) in
          (events, Ok (set_analysis (Some final.1) final.2 state))
      end
  end.

(** ** The agent graph *)

Inductive Node : Type :=
  | START
  | ROUTER
  | CLASSIFY
  | GENERATE_SQL
  | EXECUTE_SQL
  | FETCH_VERSIONS
  | ANALYZE_CHANGES
  | SUMMARIZE
  | END.

Global Instance Node_eq_dec : EqDecision Node.
Proof. solve_decision. Defined.

(** A [StateGraph]: the registered nodes, the static edges and the
    conditional edges (a selector and the map from its labels to nodes). *)
Record StateGraph := {
  nodes : list (Node * (Env → AgentState → Eff AgentState));
  edges : list (Node * Node);
  conditional_edges : list (Node * ((AgentState → string) * list (string * Node)))
}.

Definition should_execute_sql (state : AgentState) : string :=
  if needs_sql state then "SQL_PATH" else "CONVERSATION".

Definition build_agent_graph : StateGraph :=
  {| nodes :=
       [(ROUTER, fun _ state => mret (router_node state));
        (CLASSIFY, fun env state => lift (classify_query_node env state));
        (GENERATE_SQL, fun env state => lift (generate_sql_node env state));
        (EXECUTE_SQL, execute_sql_node);
        (FETCH_VERSIONS, fetch_versions_node);
        (ANALYZE_CHANGES, analyze_changes_node);
        (SUMMARIZE, fun env state => lift (summarizer_node env state))];
     edges :=
       [(START, ROUTER);
        (ROUTER, CLASSIFY);
        (GENERATE_SQL, EXECUTE_SQL);
        (EXECUTE_SQL, SUMMARIZE);
        (SUMMARIZE, END)];
     conditional_edges :=
       [(CLASSIFY,
         (should_execute_sql,
          [("SQL_PATH", GENERATE_SQL); ("CONVERSATION", SUMMARIZE)]))] |}.

Fixpoint find {K V} `{EqDecision K} (k : K) (l : list (K * V)) : option V :=
  match l with
  | [] => None
  | (k', v) :: l' => if decide (k' = k) then Some v else find k l'
  end.

(** The node that runs after [node] has left the state [state]. *)
Definition successor (graph : StateGraph) (node : Node) (state : AgentState)
    : option Node :=
  match find node (conditional_edges graph) with
  | Some (selector, targets) => find (selector state) targets
  | None => find node (edges graph)
  end.

(** The edge relation of the graph, whatever the state. *)
Inductive edge (graph : StateGraph) : Node → Node → Prop :=
  | edge_static source target :
      (source, target) ∈ edges graph → edge graph source target
  | edge_conditional source selector targets label target :
      (source, (selector, targets)) ∈ conditional_edges graph →
      (label, target) ∈ targets →
      edge graph source target.

Definition reachable (graph : StateGraph) (node : Node) : Prop :=
  rtc (edge graph) START node.

(** A run records, besides the statements sent to the data store, the
    nodes whose function was called. *)
Inductive Step : Type :=
  | Entered (node : Node)
  | Sent (event : Event).

Definition recursion_limit : nat := 25.

(** The nodes run one after the other from [node] on, each on the state its
    predecessor returned, until [END]; [fuel] is the number of steps left
    before the recursion limit. *)
Fixpoint run (graph : StateGraph) (env : Env) (fuel : nat) (node : Node)
    (state : AgentState) : list Step * result AgentState :=
  match node with
  | END => ([], Ok state)
  | _ =>
      match fuel with
      | O => ([], Raise "Recursion limit of 25 reached without hitting a stop condition.")
      | S fuel' =>
          match find node (nodes graph) with
          | None => ([], Raise "unknown node")
          | Some action =>
              match action env state with
              | (events, Raise e) => (Entered node :: (Sent <$> events), Raise e)
              | (events, Ok state') =>
                  match successor graph node state' with
                  | None => (Entered node :: (Sent <$> events), Ok state')
                  | Some next =>
                      let '(steps, r) := run graph env fuel' next state' in
                      (Entered node :: (Sent <$> events) ++ steps, r)
                  end
              end
          end
      end
  end.

(** [graph.compile().invoke(state)] *)
Definition invoke (graph : StateGraph) (env : Env) (state : AgentState)
    : list Step * result AgentState :=
  match successor graph START state with
  | Some first => run graph env recursion_limit first state
  | None => ([], Raise "Graph must have an entrypoint")
  end.

Definition visited (steps : list Step) : list Node :=
  omap (fun s => match s with Entered n => Some n | Sent _ => None end) steps.

Definition dispatched (steps : list Step) : list string :=
  omap (fun s => match s with Sent (Executed sql _) => Some sql | Entered _ => None end)
       steps.

(** ** The turn entry point *)

Record ChatbotRequest := {
  question : string;
  chat_history : list (string * string);
  req_request_id : option Z;
  session_id : option string
}.

Record ChatbotResponse := {
  answer : string;
  resp_generated_sql : option string;
  row_count : Z;
  resp_query_type : option string
}.

(** What the caller of the endpoint receives. *)
Inductive Reply : Type :=
  | Answered (r : ChatbotResponse)
  | HTTPException (status_code : Z) (detail : string).

(** [conversation_sessions] *)
Abbreviation Sessions := (gmap string (list Message)).

Definition format_conversation_context (history : list Message) : string :=
  match history with
  | [] => "No previous conversation."
  | _ =>
      foldl (fun context msg =>
               context +:+ nl
               +:+ (if String.eqb (role msg) "user" then "User" else "Assistant")
               +:+ ": " +:+ Py.str_take 150 (content msg) +:+ "..." +:+ nl)
            ("Recent conversation:" +:+ nl) (Py.last_n 6 history)
  end.

Definition session_key (request : ChatbotRequest) : string :=
  or_else (session_id request) "default".

(** The sessions once the key of the request has its (possibly empty)
    transcript. *)
Definition open_session (sessions : Sessions) (request : ChatbotRequest) : Sessions :=
  match sessions !! session_key request with
  | Some _ => sessions
  | None => <[session_key request := []]> sessions
  end.

(** The transcript of the session of the request. *)
Definition transcript (sessions : Sessions) (request : ChatbotRequest) : list Message :=
  default [] (sessions !! session_key request).

Definition initial_state (history : list Message) (request : ChatbotRequest) : AgentState :=
  {| user_query := question request;
     request_id := req_request_id request;
     query_type := None;
     generated_sql := None;
     versions := None;
     comparisons := None;
     most_dynamic := None;
     rows := None;
     response := None;
     conversation_history := history;
     context_summary := format_conversation_context history;
     session_context :=
       Some {| current_table := None;
               last_query_type := None;
               active_request_id := req_request_id request;
               last_results_summary := "";
               mentioned_tables := [];
               last_sql_query := None;
               last_result_count := 0 |};
     session_memory := None;
     needs_sql := false;
     is_clarification := false |}.

(** The graph run of one request: [agent_graph.invoke(initial_state)]. *)
Definition turn (env : Env) (sessions : Sessions) (request : ChatbotRequest)
    : list Step * result AgentState :=
  invoke build_agent_graph env
    (initial_state (transcript (open_session sessions request) request) request).

Definition record_exchange (request : ChatbotRequest) (final_state : AgentState)
    (response_text : string) (history : list Message) : list Message :=
  let history :=
    history
    ++ [{| role := "user"; content := question request;
           msg_query_type := query_type final_state |};
        {| role := "assistant"; content := response_text;
           msg_query_type := query_type final_state |}] in
  if Nat.ltb 20 (length history) then Py.last_n 20 history else history.

(** [chat_query]: the sessions it leaves, and its reply. *)
Definition chat_query (env : Env) (sessions : Sessions) (request : ChatbotRequest)
    : Sessions * Reply :=
  let opened := open_session sessions request in
  let history := transcript opened request in
  match (turn env sessions request).2 with
  | Raise e =>
      (opened, HTTPException 500 ("Error processing query: " +:+ e))
  | Ok final_state =>
      let response_text :=
        default "Sorry, I couldn't generate a response." (response final_state) in
      (<[session_key request := record_exchange request final_state response_text history]>
         opened,
       Answered
         {| answer := response_text;
            resp_generated_sql := generated_sql final_state;
            row_count := Z.of_nat (length (default [] (rows final_state)));
            resp_query_type := query_type final_state |})
  end.

(** The two paths of the graph, written as one composition of the node
    functions. *)
Definition pipeline (env : Env) (state : AgentState) : result AgentState :=
  let routed := router_node state in
  classified ← classify_query_node env routed;
  if needs_sql classified then
    generated ← generate_sql_node env classified;
    executed ← (execute_sql_node env generated).2;
    summarizer_node env executed
  else summarizer_node env classified.

(** The same run with its steps: what [invoke] does on this graph, node by
    node. *)
Definition agent_run (env : Env) (state : AgentState) : list Step * result AgentState :=
  match classify_query_node env (router_node state) with
  | Raise e => ([Entered ROUTER; Entered CLASSIFY], Raise e)
  | Ok classified =>
      if needs_sql classified then
        match generate_sql_node env classified with
        | Raise e => ([Entered ROUTER; Entered CLASSIFY; Entered GENERATE_SQL], Raise e)
        | Ok generated =>
            match execute_sql_node env generated with
            | (events, Raise e) =>
                ([Entered ROUTER; Entered CLASSIFY; Entered GENERATE_SQL;
                  Entered EXECUTE_SQL] ++ (Sent <$> events), Raise e)
            | (events, Ok executed) =>
                ([Entered ROUTER; Entered CLASSIFY; Entered GENERATE_SQL;
                  Entered EXECUTE_SQL] ++ (Sent <$> events) ++ [Entered SUMMARIZE],
                 summarizer_node env executed)
            end
        end
      else
        ([Entered ROUTER; Entered CLASSIFY; Entered SUMMARIZE],
         summarizer_node env classified)
  end.

(** The sequences of nodes that a run can enter. *)
Definition run_paths : list (list Node) :=
  [[ROUTER; CLASSIFY];
   [ROUTER; CLASSIFY; SUMMARIZE];
   [ROUTER; CLASSIFY; GENERATE_SQL];
   [ROUTER; CLASSIFY; GENERATE_SQL; EXECUTE_SQL];
   [ROUTER; CLASSIFY; GENERATE_SQL; EXECUTE_SQL; SUMMARIZE]].

(** ** Observing a session *)

(** The [turn_count] that the memory holds when the turn of [request] ends. *)
Definition turn_count_after (env : Env) (sessions : Sessions) (request : ChatbotRequest)
    : option Z :=
  match (turn env sessions request).2 with
  | Ok final_state => turn_count <$> session_memory final_state
  | Raise _ => None
  end.

(** The counts after each request of a sequence handled by [chat_query]. *)
Fixpoint session_turn_counts (env : Env) (sessions : Sessions)
    (requests : list ChatbotRequest) : list (option Z) :=
  match requests with
  | [] => []
  | request :: later =>
      turn_count_after env sessions request
      :: session_turn_counts env (chat_query env sessions request).1 later
  end.

(** ** Session maintenance *)

(** [clear_session]: the sessions it leaves and the message it returns. *)
Definition clear_session (sessions : Sessions) (session : string) : Sessions * string :=
  (match sessions !! session with
   | Some _ => delete session sessions
   | None => sessions
   end,
   "Session " +:+ session +:+ " cleared").

Record Health := {
  status : string;
  active_sessions : nat;
  timestamp : string
}.

Definition health_check (env : Env) (sessions : Sessions) : Health :=
  {| status := "healthy";
     active_sessions := size sessions;
     timestamp := now env |}.

(** ** Similarity of two queries *)

(** [s.split()]: the maximal runs of characters that are not white space;
    [cur] is the run being read, last character first. *)
Fixpoint split_go (cur : option string) (s : string) : list string :=
  match s with
  | EmptyString => option_list (String.rev <$> cur)
  | String c s' =>
      if Py.is_space c
      then option_list (String.rev <$> cur) ++ split_go None s'
      else split_go (Some (String c (default "" cur))) s'
  end.

Definition py_split (s : string) : list string := split_go None s.

Definition stop_words : gset string :=
  list_to_set ["the"; "a"; "an"; "and"; "or"; "but"; "in"; "on"; "at"; "to"; "for"].

(** [set(query.lower().split()) - stop_words] *)
Definition content_words (query : string) : gset string :=
  list_to_set (py_split (Py.lower query)) ∖ stop_words.

Definition _queries_are_related (query1 query2 : string) : bool :=
  let words1 := content_words query1 in
  let words2 := content_words query2 in
  if bool_decide (words1 = ∅) || bool_decide (words2 = ∅) then false
  else bool_decide (2 ≤ size (words1 ∩ words2))%nat.

(** ** Invariants of the session memory *)

(** The records of the history carry consecutive turn numbers that end at
    [turn_count]. *)
Definition turns_consecutive (memory : Memory) : Prop :=
  ∀ i record,
    query_history memory !! i = Some record →
    qr_turn record
    = turn_count memory - Z.of_nat (length (query_history memory)) + 1 + Z.of_nat i.

(** The transcript fields of a state, which only [chat_query] fills. *)
Definition with_transcript (history : list Message) (summary : string)
    (st : AgentState) : AgentState :=
  {| user_query := user_query st; request_id := request_id st;
     query_type := query_type st; generated_sql := generated_sql st;
     versions := versions st; comparisons := comparisons st;
     most_dynamic := most_dynamic st; rows := rows st;
     response := response st; conversation_history := history;
     context_summary := summary;
     session_context := session_context st; session_memory := session_memory st;
     needs_sql := needs_sql st; is_clarification := is_clarification st |}.

(** What the loop of [analyze_changes_node] keeps true of what it has
    accumulated. *)
Definition analysis_sound (acc : list Comparison * MostDynamic) : Prop :=
  Forall (λ c, cmp_total c = added c + removed c
               ∧ 0 ≤ added c ∧ 0 ≤ removed c
               ∧ cmp_total c ≤ md_total acc.2) acc.1
  ∧ -1 ≤ md_total acc.2.

(** [f] on the outcome of a computation that did not raise. *)
Definition on_ok {A B} (f : A → B) (r : result A) : result B :=
  match r with
  | Ok a => Ok (f a)
  | Raise e => Raise e
  end.

(** ** Test doubles *)

Module Doubles.

Definition hcp_row (name : string) (tier : Z) : Row :=
  [("id", VInt 7); ("hcp_name", VStr name); ("tier", VInt tier)].

(** An engine and a data store that answer every call. *)
Definition env_ok (fetched : list Row) : Env :=
  {| classify_completion := fun _ => Ok " List_All ";
     sql_completion := fun _ => Ok "SELECT * FROM hcp";
     db_connect := Ok ();
     db_execute := fun _ => Ok fetched;
     db_execute_params := fun _ _ => Ok [];
     now := "2025-01-01T00:00:00" |}.

(** The completion engine times out. *)
Definition env_engine_down : Env :=
  {| classify_completion := fun _ => Raise "Request timed out.";
     sql_completion := fun _ => Raise "Request timed out.";
     db_connect := Ok ();
     db_execute := fun _ => Ok [];
     db_execute_params := fun _ _ => Ok [];
     now := "2025-01-01T00:00:00" |}.

(** The completion engine classifies the request and then times out while
    composing the query. *)
Definition env_composer_down : Env :=
  {| classify_completion := fun _ => Ok "list_all";
     sql_completion := fun _ => Raise "Request timed out.";
     db_connect := Ok ();
     db_execute := fun _ => Ok [];
     db_execute_params := fun _ _ => Ok [];
     now := "2025-01-01T00:00:00" |}.

(** The engine returns a statement that is not a single SELECT. *)
Definition env_unsafe_sql : Env :=
  {| classify_completion := fun _ => Ok "ad_hoc_select";
     sql_completion := fun _ => Ok "DELETE FROM hcp; SELECT 1";
     db_connect := Ok ();
     db_execute := fun _ => Ok [];
     db_execute_params := fun _ _ => Ok [];
     now := "2025-01-01T00:00:00" |}.

Definition ask (session text : string) : ChatbotRequest :=
  {| question := text; chat_history := []; req_request_id := None;
     session_id := Some session |}.

Definition blank_state (text : string) : AgentState :=
  initial_state [] (ask "s1" text).

Definition record_n (n : nat) : QueryRecord :=
  {| qr_turn := Z.of_nat n;
     qr_query := "show me version " +:+ Py.str_of_nat n;
     qr_sql := Some "SELECT * FROM list_versions";
     qr_row_count := 3;
     qr_timestamp := "2025-01-01T00:00:00";
     qr_response_summary := "Here are all 3 entries:" |}.

(** The memory of a session after [n] data turns. *)
Definition memory_after (n : nat) : Memory :=
  {| conversation_context := "";
     query_history := Py.last_n 10 (record_n <$> seq 1 n);
     result_cache := ∅;
     entity_references := ["table_version"];
     last_topic := Some "list_all";
     turn_count := Z.of_nat n;
     last_table := Some "list_versions" |}.

(** A state about to be summarized, [n] turns into a session. *)
Definition state_after (n : nat) (text : string) : AgentState :=
  set_memory (memory_after n) (blank_state text).

(** 101 rows of one column, the second of which is NULL. *)
Definition sparse_rows : list Row :=
  [("hcp_name", VStr "Dr A")] :: [("hcp_name", VNone)]
  :: replicate 99 [("hcp_name", VStr "Dr A")].

Definition listing (fetched : list Row) : AgentState :=
  set_rows fetched
    (set_generated_sql (Some "SELECT hcp_name FROM hcp")
       (set_query_type (Some "list_all")
          (set_routing true false (blank_state "list all hcp names")))).

End Doubles.

(** ** Sanity checks of the embedding *)

Example lower_mixed : Py.lower "  Hi There_9 " = "  hi there_9 ".
Proof. reflexivity. Qed.

Example strip_padded : Py.strip "  thank you 	" = "thank you".
Proof. reflexivity. Qed.

Example title_field : Py.title (Py.underscores_to_spaces "contact_email") = "Contact Email".
Proof. reflexivity. Qed.

Example str_of_Z_101 : Py.str_of_Z 101 = "101".
Proof. reflexivity. Qed.

(** The character classes over the whole range: the code points for which
    Python answers [True] to [c.isspace()], matches [\w], and changes
    under [c.lower()] and [c.upper()]. *)
Example white_space_codes :
  Py.code <$> List.filter Py.is_space Py.chars
  = [9; 10; 11; 12; 13; 28; 29; 30; 31; 32; 133; 160]%nat.
Proof. vm_compute. reflexivity. Qed.

Example word_codes :
  Py.code <$> List.filter Py.is_word Py.chars
  = (seq 48 10 ++ seq 65 26 ++ [95] ++ seq 97 26
     ++ [170; 178; 179; 181; 185; 186; 188; 189; 190]
     ++ seq 192 23 ++ seq 216 31 ++ seq 248 8)%nat.
Proof. vm_compute. reflexivity. Qed.

Example cased_codes :
  Py.code <$> List.filter Py.is_cased Py.chars
  = (seq 65 26 ++ seq 97 26 ++ [170; 181; 186]
     ++ seq 192 23 ++ seq 216 31 ++ seq 248 8)%nat.
Proof. vm_compute. reflexivity. Qed.

Example lower_char_codes :
  (λ c, (Py.code c, Py.code (Py.lower_char c)))
    <$> List.filter (λ c, negb (Ascii.eqb (Py.lower_char c) c)) Py.chars
  = (λ n, (n, n + 32)%nat) <$> (seq 65 26 ++ seq 192 23 ++ seq 216 7).
Proof. vm_compute. reflexivity. Qed.

Example upper_char_codes :
  (λ c, (Py.code c, Py.code (Py.upper_char c)))
    <$> List.filter (λ c, negb (Ascii.eqb (Py.upper_char c) c)) Py.chars
  = (λ n, (n, n - 32)%nat) <$> (seq 97 26 ++ seq 224 23 ++ seq 248 7).
Proof. vm_compute. reflexivity. Qed.

(** A no-break space is trimmed like a blank. *)
Example strip_no_break_space :
  Py.strip (String (ascii_of_nat 160) "Hi" +:+ String (ascii_of_nat 133) " ") = "Hi".
Proof. reflexivity. Qed.

Example from_table_search_select :
  Py.from_table_search "SELECT * from   target_list_entries WHERE tier = 1"
  = Some "target_list_entries".
Proof. reflexivity. Qed.

Example from_table_search_none : Py.from_table_search "SELECT fromage FROM ;" = None.
Proof. reflexivity. Qed.

Example turn_list_all :
  (chat_query (Doubles.env_ok [Doubles.hcp_row "Dr A" 1; Doubles.hcp_row "Dr B" 0]) ∅
     (Doubles.ask "s1" "show me all hcp")).2
  = Answered
      {| answer := "Here are all 2 entries:" +:+ nl +:+ nl
                   +:+ "1. Name: Dr A | Tier: 1" +:+ nl +:+ "2. Name: Dr B";
         resp_generated_sql := Some "SELECT * FROM hcp";
         row_count := 2;
         resp_query_type := Some "list_all" |}.
Proof. vm_compute. reflexivity. Qed.

(** ** The graph run, node by node *)

Global Arguments router_node : simpl never.
Global Arguments classify_query_node : simpl never.
Global Arguments generate_sql_node : simpl never.
Global Arguments execute_sql_node : simpl never.
Global Arguments fetch_versions_node : simpl never.
Global Arguments analyze_changes_node : simpl never.
Global Arguments summarizer_node : simpl never.
Global Arguments update_memory : simpl never.
Global Arguments compose_response : simpl never.

Global Arguments should_execute_sql : simpl never.

Lemma run_step graph env fuel node state :
  node ≠ END →
  run graph env (S fuel) node state =
    match find node (nodes graph) with
    | None => ([], Raise "unknown node")
    | Some action =>
        match action env state with
        | (events, Raise e) => (Entered node :: (Sent <$> events), Raise e)
        | (events, Ok state') =>
            match successor graph node state' with
            | None => (Entered node :: (Sent <$> events), Ok state')
            | Some next =>
                let '(steps, r) := run graph env fuel next state' in
                (Entered node :: (Sent <$> events) ++ steps, r)
            end
        end
    end.
Proof. by destruct node. Qed.

Lemma run_END graph env fuel state : run graph env fuel END state = ([], Ok state).
Proof. by destruct fuel. Qed.

Lemma successor_CLASSIFY state :
  successor build_agent_graph CLASSIFY state
  = Some (if needs_sql state then GENERATE_SQL else SUMMARIZE).
Proof.
  unfold successor. change (find CLASSIFY (conditional_edges build_agent_graph))
    with (Some (should_execute_sql,
                [("SQL_PATH", GENERATE_SQL); ("CONVERSATION", SUMMARIZE)])).
  unfold should_execute_sql. by destruct (needs_sql state).
Qed.

Lemma run_SUMMARIZE env fuel state :
  run build_agent_graph env (S fuel) SUMMARIZE state
  = ([Entered SUMMARIZE], summarizer_node env state).
Proof.
  rewrite run_step by done.
  change (find SUMMARIZE (nodes build_agent_graph))
    with (Some (fun env state => lift (summarizer_node env state))).
  cbv iota beta. unfold lift. destruct (summarizer_node env state) as [final|e]; [|done].
  change (successor build_agent_graph SUMMARIZE final) with (Some END).
  cbv iota beta. by rewrite run_END.
Qed.

Lemma run_EXECUTE_SQL env fuel state :
  run build_agent_graph env (S (S fuel)) EXECUTE_SQL state
  = match execute_sql_node env state with
    | (events, Raise e) => (Entered EXECUTE_SQL :: (Sent <$> events), Raise e)
    | (events, Ok executed) =>
        (Entered EXECUTE_SQL :: (Sent <$> events) ++ [Entered SUMMARIZE],
         summarizer_node env executed)
    end.
Proof.
  rewrite run_step by done.
  change (find EXECUTE_SQL (nodes build_agent_graph)) with (Some execute_sql_node).
  cbv iota beta.
  destruct (execute_sql_node env state) as [events [executed|e]]; [|reflexivity].
  change (successor build_agent_graph EXECUTE_SQL executed) with (Some SUMMARIZE).
  cbv iota beta. rewrite run_SUMMARIZE. reflexivity.
Qed.

Lemma run_GENERATE_SQL env fuel state :
  run build_agent_graph env (S (S (S fuel))) GENERATE_SQL state
  = match generate_sql_node env state with
    | Raise e => ([Entered GENERATE_SQL], Raise e)
    | Ok generated =>
        let '(steps, r) := run build_agent_graph env (S (S fuel)) EXECUTE_SQL generated in
        (Entered GENERATE_SQL :: steps, r)
    end.
Proof.
  rewrite run_step by done.
  change (find GENERATE_SQL (nodes build_agent_graph))
    with (Some (fun env state => lift (generate_sql_node env state))).
  cbv iota beta. unfold lift. by destruct (generate_sql_node env state) as [generated|e].
Qed.

Lemma run_ROUTER env fuel state :
  run build_agent_graph env (S fuel) ROUTER state
  = let '(steps, r) := run build_agent_graph env fuel CLASSIFY (router_node state) in
    (Entered ROUTER :: steps, r).
Proof. by rewrite run_step. Qed.

Lemma run_CLASSIFY env fuel state :
  run build_agent_graph env (S fuel) CLASSIFY state
  = match classify_query_node env state with
    | Raise e => ([Entered CLASSIFY], Raise e)
    | Ok classified =>
        let '(steps, r) :=
          run build_agent_graph env fuel
            (if needs_sql classified then GENERATE_SQL else SUMMARIZE) classified in
        (Entered CLASSIFY :: steps, r)
    end.
Proof.
  rewrite run_step by done.
  change (find CLASSIFY (nodes build_agent_graph))
    with (Some (fun env state => lift (classify_query_node env state))).
  cbv iota beta. unfold lift.
  destruct (classify_query_node env state) as [classified|e]; [|reflexivity].
  by rewrite successor_CLASSIFY.
Qed.

Lemma invoke_agent_run env state :
  invoke build_agent_graph env state = agent_run env state.
Proof.
  unfold invoke, agent_run.
  change (successor build_agent_graph START state) with (Some ROUTER).
  cbv iota beta. unfold recursion_limit.
  rewrite run_ROUTER, run_CLASSIFY.
  destruct (classify_query_node env (router_node state)) as [classified|e]; [|reflexivity].
  destruct (needs_sql classified).
  - rewrite run_GENERATE_SQL.
    destruct (generate_sql_node env classified) as [generated|e]; [|reflexivity].
    rewrite run_EXECUTE_SQL.
    by destruct (execute_sql_node env generated) as [events [executed|e]].
  - by rewrite run_SUMMARIZE.
Qed.

Lemma agent_run_pipeline env state :
  (agent_run env state).2 = pipeline env state.
Proof.
  unfold agent_run, pipeline. cbn.
  destruct (classify_query_node env (router_node state)) as [classified|e]; cbn; [|done].
  destruct (needs_sql classified); cbn; [|done].
  destruct (generate_sql_node env classified) as [generated|e]; cbn; [|done].
  by destruct (execute_sql_node env generated) as [events [executed|e]].
Qed.

(** ** The memory update *)

Lemma memory_of_initialize state :
  memory_of (initialize_memory state) = memory_of state.
Proof.
  unfold initialize_memory, memory_of.
  destruct (session_memory state) eqn:E; [by rewrite E|done].
Qed.

Lemma query_record_of_initialize env turn_ state :
  query_record_of env turn_ (initialize_memory state) = query_record_of env turn_ state.
Proof. unfold initialize_memory. by destruct (session_memory state). Qed.

(** What an update that returns leaves in the state. *)
Lemma update_memory_fields env state state' :
  update_memory env state = Ok state' →
  let memory := memory_of state in
  let turn_ := turn_count memory + 1 in
  ∃ memory',
    session_memory state' = Some memory'
    ∧ turn_count memory' = turn_
    ∧ query_history memory'
      = push_history (query_record_of env turn_ state) (query_history memory)
    ∧ conversation_context memory'
      = (if turn_ mod 3 =? 0
         then summarize_conversation_context (query_history memory')
         else conversation_context memory)
    ∧ rows state' = rows state
    ∧ response state' = response state
    ∧ generated_sql state' = generated_sql state
    ∧ query_type state' = query_type state
    ∧ needs_sql state' = needs_sql state
    ∧ (truthy_str (generated_sql state) && bool_decide (default [] (rows state) ≠ []) = false
       → result_cache memory' = result_cache memory).
Proof.
  unfold update_memory. rewrite memory_of_initialize, query_record_of_initialize.
  assert (Hfields : rows (initialize_memory state) = rows state
                    ∧ response (initialize_memory state) = response state
                    ∧ generated_sql (initialize_memory state) = generated_sql state
                    ∧ query_type (initialize_memory state) = query_type state
                    ∧ needs_sql (initialize_memory state) = needs_sql state
                    ∧ user_query (initialize_memory state) = user_query state).
  { unfold initialize_memory. destruct (session_memory state); repeat split. }
  destruct Hfields as (Hrows & Hresp & Hsql & Hqt & Hneeds & Hq).
  rewrite ?Hrows, ?Hsql, ?Hqt, ?Hq.
  generalize (initialize_memory state) Hrows Hresp Hsql Hqt Hneeds.
  intros st Hrows' Hresp' Hsql' Hqt' Hneeds'.
  destruct (generated_sql state) as [sql_text|] eqn:Esql;
    destruct (default [] (rows state)) as [|row rest] eqn:Erows; cbn.
  1,3,4: intros [= <-]; eexists; cbn; repeat split; try done.
  destruct (Py.nonempty sql_text) eqn:Enonempty; cbn.
  2: { intros [= <-]; eexists; cbn; repeat split; try done. }
  destruct (Py.contains "FROM" (Py.upper sql_text)); cbn.
  2: { intros [= <-]; eexists; cbn; repeat split; try done. }
  destruct (Py.from_table_search sql_text) as [table|]; cbn.
  2: { intros [= <-]; eexists; cbn; repeat split; try done. }
  unfold the_context. destruct (session_context st) as [ctx|]; cbn; [|done].
  intros [= <-]; eexists; cbn; repeat split; try done.
Qed.

Lemma update_memory_total env state :
  is_Some (session_context state) ∨ default [] (rows state) = []
  ∨ truthy_str (generated_sql state) = false →
  ∃ state', update_memory env state = Ok state'.
Proof.
  intros Hsafe. unfold update_memory.
  assert (Hinit : rows (initialize_memory state) = rows state
                  ∧ generated_sql (initialize_memory state) = generated_sql state
                  ∧ session_context (initialize_memory state) = session_context state).
  { unfold initialize_memory. destruct (session_memory state); repeat split. }
  destruct Hinit as (-> & -> & Hctx).
  destruct (generated_sql state) as [sql_text|];
    destruct (default [] (rows state)) as [|row rest]; cbn; eauto.
  destruct (Py.nonempty sql_text) eqn:Enonempty; cbn; eauto.
  destruct (Py.contains "FROM" (Py.upper sql_text)); cbn; eauto.
  destruct (Py.from_table_search sql_text) as [table|]; cbn; eauto.
  unfold the_context. rewrite Hctx.
  destruct Hsafe as [[ctx ->]|[?|?]]; cbn in *; eauto; congruence.
Qed.

(** *** The bounded history *)

Section History.
Context {A : Type}.
Implicit Types (l : list A) (n : nat).

Lemma last_n_length n l : length (Py.last_n n l) = Nat.min n (length l).
Proof. unfold Py.last_n. rewrite length_drop. lia. Qed.

Lemma last_n_split n l : l = take (length l - n) l ++ Py.last_n n l.
Proof. unfold Py.last_n. by rewrite take_drop. Qed.

Lemma last_n_short n l : (length l ≤ n)%nat → Py.last_n n l = l.
Proof.
  intros Hle. unfold Py.last_n.
  replace (length l - n)%nat with 0%nat by lia. done.
Qed.
End History.

Lemma push_history_length record history :
  (length (push_history record history) ≤ 10)%nat.
Proof.
  unfold push_history.
  destruct (Nat.ltb_spec 10 (length (history ++ [record]))).
  - rewrite last_n_length. lia.
  - lia.
Qed.

Lemma push_history_suffix record history :
  history ++ [record]
  = take (length history + 1 - 10) (history ++ [record]) ++ push_history record history.
Proof.
  unfold push_history.
  destruct (Nat.ltb_spec 10 (length (history ++ [record]))) as [Hlt|Hle].
  - rewrite (last_n_split 10 (history ++ [record])) at 1.
    by rewrite length_app, Nat.add_1_r, <- Nat.add_1_r.
  - rewrite length_app in Hle. cbn in Hle.
    replace (length history + 1 - 10)%nat with 0%nat by lia. done.
Qed.

Lemma push_history_nonempty record history : push_history record history ≠ [].
Proof.
  intros Hnil. pose proof (push_history_suffix record history) as Hsplit.
  rewrite Hnil, app_nil_r in Hsplit.
  apply (f_equal length) in Hsplit.
  rewrite length_take, length_app in Hsplit. cbn in Hsplit. lia.
Qed.

(** A full history loses exactly its oldest record. *)
Lemma push_history_full record oldest history :
  length history = 9%nat →
  push_history record (oldest :: history) = history ++ [record].
Proof.
  intros Hlen.
  assert (Hfull : length ((oldest :: history) ++ [record]) = 11%nat).
  { rewrite length_app. cbn. lia. }
  unfold push_history, Py.last_n. rewrite Hfull. reflexivity.
Qed.

(** C4: after any memory update the query history holds at most 10
    records; the update appends the record of the turn and what it drops
    is the front of the list, the oldest records (one record once the
    history is full), so the surviving records keep their order. *)
Theorem history_capped_fifo env state ctx :
  session_context state = Some ctx →
  ∃ state' evicted,
    update_memory env state = Ok state'
    ∧ (length (query_history (memory_of state')) ≤ 10)%nat
    ∧ query_history (memory_of state)
        ++ [query_record_of env (turn_count (memory_of state) + 1) state]
      = evicted ++ query_history (memory_of state')
    ∧ length evicted = (length (query_history (memory_of state)) + 1 - 10)%nat.
Proof.
  intros Hctx.
  destruct (update_memory_total env state) as [state' Hupdate]; [left; eauto|].
  destruct (update_memory_fields _ _ _ Hupdate) as (memory' & Hmem & _ & Hhist & _).
  exists state'.
  exists (take (length (query_history (memory_of state)) + 1 - 10)
               (query_history (memory_of state)
                ++ [query_record_of env (turn_count (memory_of state) + 1) state])).
  assert (Hnew : memory_of state' = memory') by (unfold memory_of; by rewrite Hmem).
  rewrite Hnew, Hhist.
  split; [done|]. split; [apply push_history_length|].
  split; [apply push_history_suffix|].
  rewrite length_take, length_app. cbn. lia.
Qed.

Lemma history_capped_fifo_witness :
  session_context (Doubles.state_after 10 "show me all hcp")
  = Some (default_context (Doubles.blank_state "show me all hcp"))
  ∧ ∃ state' evicted,
      update_memory (Doubles.env_ok []) (Doubles.state_after 10 "show me all hcp")
      = Ok state'
      ∧ (length (query_history (memory_of state')) ≤ 10)%nat
      ∧ query_history (memory_of (Doubles.state_after 10 "show me all hcp"))
          ++ [query_record_of (Doubles.env_ok [])
                (turn_count (memory_of (Doubles.state_after 10 "show me all hcp")) + 1)
                (Doubles.state_after 10 "show me all hcp")]
        = evicted ++ query_history (memory_of state')
      ∧ length evicted
        = (length (query_history (memory_of (Doubles.state_after 10 "show me all hcp")))
           + 1 - 10)%nat.
Proof.
  split; [reflexivity|].
  apply (history_capped_fifo (Doubles.env_ok [])
           (Doubles.state_after 10 "show me all hcp")
           (default_context (Doubles.blank_state "show me all hcp"))).
  reflexivity.
Defined.

Example history_full_evicts_first :
  match update_memory (Doubles.env_ok []) (Doubles.state_after 10 "hi") with
  | Ok state' =>
      take 9 (query_history (memory_of state')) = Doubles.record_n <$> seq 2 9
  | Raise _ => False
  end.
Proof. vm_compute. reflexivity. Qed.

(** *** The rolling summary *)

Lemma summarize_nonempty history :
  history ≠ [] →
  summarize_conversation_context history
  = Py.join nl (summary_line <$> Py.last_n 5 history).
Proof. by destruct history. Qed.

(** C8: the memory update regenerates the rolling summary exactly when the
    incremented turn count is a multiple of 3, from the 5 most recent
    records of the history as updated, one line per record joined by
    newlines, each line reading
    [Turn <n>: Asked about '<first 60 chars>...' → <rowCount> results];
    on every other turn the summary is the one the memory held before. *)
Theorem rolling_summary_every_third_turn env state ctx :
  session_context state = Some ctx →
  ∃ state',
    update_memory env state = Ok state'
    ∧ turn_count (memory_of state') = turn_count (memory_of state) + 1
    ∧ conversation_context (memory_of state')
      = (if decide (turn_count (memory_of state') mod 3 = 0)
         then Py.join nl (summary_line <$> Py.last_n 5 (query_history (memory_of state')))
         else conversation_context (memory_of state))
    ∧ ∀ record,
        summary_line record
        = "Turn " +:+ Py.str_of_Z (qr_turn record) +:+ ": Asked about '"
          +:+ Py.str_take 60 (qr_query record) +:+ "...' → "
          +:+ Py.str_of_Z (qr_row_count record) +:+ " results".
Proof.
  intros Hctx.
  destruct (update_memory_total env state) as [state' Hupdate]; [left; eauto|].
  destruct (update_memory_fields _ _ _ Hupdate)
    as (memory' & Hmem & Hturn & Hhist & Hsummary & _).
  exists state'.
  assert (Hnew : memory_of state' = memory') by (unfold memory_of; by rewrite Hmem).
  rewrite Hnew. split; [done|]. split; [done|]. split.
  - rewrite Hsummary, Hturn.
    destruct (Z.eqb_spec ((turn_count (memory_of state) + 1) mod 3) 0) as [Hz|Hnz].
    + rewrite decide_True by done. apply summarize_nonempty.
      rewrite Hhist. apply push_history_nonempty.
    + by rewrite decide_False.
  - intros record. reflexivity.
Qed.

Lemma rolling_summary_every_third_turn_witness :
  session_context (Doubles.state_after 2 "show me all hcp")
  = Some (default_context (Doubles.blank_state "show me all hcp"))
  ∧ ∃ state',
      update_memory (Doubles.env_ok []) (Doubles.state_after 2 "show me all hcp")
      = Ok state'
      ∧ turn_count (memory_of state')
        = turn_count (memory_of (Doubles.state_after 2 "show me all hcp")) + 1
      ∧ conversation_context (memory_of state')
        = (if decide (turn_count (memory_of state') mod 3 = 0)
           then Py.join nl
                  (summary_line <$> Py.last_n 5 (query_history (memory_of state')))
           else conversation_context
                  (memory_of (Doubles.state_after 2 "show me all hcp")))
      ∧ ∀ record,
          summary_line record
          = "Turn " +:+ Py.str_of_Z (qr_turn record) +:+ ": Asked about '"
            +:+ Py.str_take 60 (qr_query record) +:+ "...' → "
            +:+ Py.str_of_Z (qr_row_count record) +:+ " results".
Proof.
  split; [reflexivity|].
  apply (rolling_summary_every_third_turn (Doubles.env_ok [])
           (Doubles.state_after 2 "show me all hcp")
           (default_context (Doubles.blank_state "show me all hcp"))).
  reflexivity.
Defined.

Example third_turn_summary :
  match update_memory (Doubles.env_ok []) (Doubles.state_after 2 "show me all hcp") with
  | Ok state' =>
      conversation_context (memory_of state')
      = "Turn 1: Asked about 'show me version 1...' → 3 results" +:+ nl
        +:+ "Turn 2: Asked about 'show me version 2...' → 3 results" +:+ nl
        +:+ "Turn 3: Asked about 'show me all hcp...' → 0 results"
  | Raise _ => False
  end.
Proof. vm_compute. reflexivity. Qed.

Example fourth_turn_keeps_summary :
  match update_memory (Doubles.env_ok []) (Doubles.state_after 3 "show me all hcp") with
  | Ok state' => conversation_context (memory_of state') = ""
  | Raise _ => False
  end.
Proof. vm_compute. reflexivity. Qed.

(** ** The response composer *)

Lemma compose_response_initialize state :
  compose_response (initialize_memory state) = compose_response state.
Proof. unfold initialize_memory. by destruct (session_memory state). Qed.

Lemma compose_response_no_rows state :
  default [] (rows state) = [] → compose_response state = no_results.
Proof.
  intros Hrows. unfold compose_response. rewrite Hrows.
  rewrite (bool_decide_false ([] ≠ [])) by (intros Hne; by apply Hne).
  by rewrite andb_false_r.
Qed.

Lemma initialize_memory_fields state :
  rows (initialize_memory state) = rows state
  ∧ generated_sql (initialize_memory state) = generated_sql state
  ∧ query_type (initialize_memory state) = query_type state
  ∧ needs_sql (initialize_memory state) = needs_sql state
  ∧ session_context (initialize_memory state) = session_context state
  ∧ user_query (initialize_memory state) = user_query state.
Proof. unfold initialize_memory. destruct (session_memory state); repeat split. Qed.

(** What the summarizer leaves in the state when it returns. *)
Lemma summarizer_node_fields env state state' :
  summarizer_node env state = Ok state' →
  response state' = Some (compose_response state)
  ∧ rows state' = rows state
  ∧ generated_sql state' = generated_sql state
  ∧ query_type state' = query_type state
  ∧ needs_sql state' = needs_sql state
  ∧ ∃ memory',
      session_memory state' = Some memory'
      ∧ turn_count memory' = turn_count (memory_of state) + 1
      ∧ (truthy_str (generated_sql state) && bool_decide (default [] (rows state) ≠ [])
         = false
         → result_cache memory' = result_cache (memory_of state)).
Proof.
  unfold summarizer_node. rewrite compose_response_initialize. intros Hupdate.
  destruct (initialize_memory_fields state) as (Hrows & Hsql & Hqt & Hneeds & _ & _).
  destruct (update_memory_fields _ _ _ Hupdate)
    as (memory' & Hmem & Hturn & _ & _ & Hrows' & Hresp' & Hsql' & Hqt' & Hneeds' & Hcache).
  assert (Hmemory : memory_of (set_response (compose_response state) (initialize_memory state))
                    = memory_of state).
  { rewrite <- (memory_of_initialize state). reflexivity. }
  rewrite Hmemory in Hturn, Hcache.
  cbn in Hrows', Hresp', Hsql', Hqt', Hneeds', Hcache.
  rewrite Hrows, Hsql in Hcache.
  repeat split; try congruence. eauto.
Qed.

Lemma summarizer_node_total env state :
  is_Some (session_context state) ∨ default [] (rows state) = []
  ∨ truthy_str (generated_sql state) = false →
  ∃ state', summarizer_node env state = Ok state'.
Proof.
  intros Hsafe. unfold summarizer_node. apply update_memory_total.
  destruct (initialize_memory_fields state) as (Hrows & Hsql & _ & _ & Hctx & _).
  cbn. by rewrite Hrows, Hsql, Hctx.
Qed.

(** A summarizer that finds no rows answers with the fixed message. *)
Lemma summarizer_node_no_rows env state :
  default [] (rows state) = [] →
  ∃ state', summarizer_node env state = Ok state'
            ∧ response state' = Some no_results
            ∧ rows state' = rows state.
Proof.
  intros Hrows.
  destruct (summarizer_node_total env state) as [state' Hsum]; [by right; left|].
  exists state'. split; [done|].
  destruct (summarizer_node_fields _ _ _ Hsum) as (-> & -> & _).
  by rewrite compose_response_no_rows.
Qed.

(** ** Whole turns *)

(** Every run that completes ends in the summarizer. *)
Lemma agent_run_final env state final :
  (agent_run env state).2 = Ok final →
  ∃ summarized, summarizer_node env summarized = Ok final.
Proof.
  unfold agent_run.
  destruct (classify_query_node env (router_node state)) as [classified|e]; [|done].
  destruct (needs_sql classified); [|cbn; eauto].
  destruct (generate_sql_node env classified) as [generated|e]; [|done].
  destruct (execute_sql_node env generated) as [events [executed|e]]; [|done].
  cbn; eauto.
Qed.

Lemma chat_query_answered env sessions request reply :
  (chat_query env sessions request).2 = Answered reply →
  ∃ final,
    (agent_run env (initial_state (transcript (open_session sessions request) request)
                                  request)).2 = Ok final
    ∧ answer reply = default "Sorry, I couldn't generate a response." (response final)
    ∧ row_count reply = Z.of_nat (length (default [] (rows final))).
Proof.
  unfold chat_query, turn. rewrite invoke_agent_run.
  destruct (agent_run env _).2 as [final|e]; cbn; [|done].
  intros [= <-]. eauto.
Qed.

(** C6, as the specification states it, fails on a turn for which no query
    was generated because the completion engine raised while composing it:
    nothing is sent to the data store, no row is fetched, and no answer
    text is produced; the error reaches the caller as an HTTP 500
    exception. *)
Lemma generation_failure_has_no_answer :
  visited (turn Doubles.env_composer_down ∅ (Doubles.ask "s1" "show me all hcp")).1
  = [ROUTER; CLASSIFY; GENERATE_SQL]
  ∧ dispatched (turn Doubles.env_composer_down ∅ (Doubles.ask "s1" "show me all hcp")).1
    = []
  ∧ (chat_query Doubles.env_composer_down ∅ (Doubles.ask "s1" "show me all hcp")).2
    = HTTPException 500 "Error processing query: Request timed out."
  ∧ ¬ ∃ reply,
        (chat_query Doubles.env_composer_down ∅ (Doubles.ask "s1" "show me all hcp")).2
        = Answered reply.
Proof.
  assert (Hreply :
    (chat_query Doubles.env_composer_down ∅ (Doubles.ask "s1" "show me all hcp")).2
    = HTTPException 500 "Error processing query: Request timed out.").
  { vm_compute. reflexivity. }
  split; [vm_compute; reflexivity|]. split; [vm_compute; reflexivity|].
  split; [exact Hreply|]. intros [reply Hanswered]. congruence.
Qed.

(** No query is generated, and the turn is not answered, whenever the
    engine raises while composing the query of a data request: the run
    stops in [GENERATE_SQL] and the entry point raises
    [HTTPException(500)]. *)
Lemma generation_failure_is_http_500 env sessions request classified e :
  classify_query_node env
    (router_node
       (initial_state (transcript (open_session sessions request) request) request))
  = Ok classified →
  needs_sql classified = true →
  sql_completion env (sql_prompt (initialize_memory classified)) = Raise e →
  (turn env sessions request).1
  = [Entered ROUTER; Entered CLASSIFY; Entered GENERATE_SQL]
  ∧ (chat_query env sessions request).2
    = HTTPException 500 ("Error processing query: " +:+ e).
Proof.
  intros Hclassify Hneeds Hengine.
  assert (Hgenerate : generate_sql_node env classified = Raise e).
  { unfold generate_sql_node. rewrite Hneeds. cbn. by rewrite Hengine. }
  unfold chat_query, turn. rewrite invoke_agent_run.
  unfold agent_run. by rewrite Hclassify, Hneeds, Hgenerate.
Qed.

Lemma initialize_memory_context state :
  session_context (initialize_memory state) = session_context state.
Proof. unfold initialize_memory. by destruct (session_memory state). Qed.

Lemma classify_query_node_outcome env state :
  is_Some (session_context state) →
  match classify_query_node env state with
  | Ok state' => is_Some (session_context state')
  | Raise e => ∃ prompt, classify_completion env prompt = Raise e
  end.
Proof.
  intros [ctx Hctx]. unfold classify_query_node.
  destruct (needs_sql state); cbn; [|by rewrite Hctx].
  destruct (classify_completion env _) as [text|e] eqn:Hengine; cbn; [|by eexists].
  unfold the_context. cbn. rewrite initialize_memory_context, Hctx. cbn.
  by eexists.
Qed.

Lemma generate_sql_node_outcome env state :
  is_Some (session_context state) →
  match generate_sql_node env state with
  | Ok state' => is_Some (session_context state')
  | Raise e => ∃ prompt, sql_completion env prompt = Raise e
  end.
Proof.
  intros [ctx Hctx]. unfold generate_sql_node.
  destruct (needs_sql state); cbn; [|by rewrite Hctx].
  destruct (sql_completion env _) as [text|e] eqn:Hengine; cbn; [|by eexists].
  unfold the_context. cbn. rewrite initialize_memory_context, Hctx. cbn.
  by eexists.
Qed.

Lemma execute_sql_node_returns env state :
  is_Some (session_context state) →
  ∃ state', (execute_sql_node env state).2 = Ok state'
            ∧ is_Some (session_context state').
Proof.
  intros [ctx Hctx]. unfold execute_sql_node, execution_failed, the_context.
  destruct (negb (needs_sql state) || negb (truthy_str (generated_sql state))); cbn.
  { eexists. split; [done|]. cbn. by rewrite Hctx. }
  destruct (db_connect env) as [[]|e]; cbn.
  - destruct (db_execute env _) as [fetched|e]; cbn; rewrite Hctx; cbn;
      eexists; (split; [done|]); by cbn.
  - rewrite Hctx. cbn. eexists. split; [done|]. by cbn.
Qed.

Lemma router_node_context state : is_Some (session_context (router_node state)).
Proof. unfold router_node. cbn. by eexists. Qed.

(** A run fails in the completion engine or not at all: the exception
    that ends it is one that the engine raised for the classification or
    for the composition of the query, and nothing has been sent to the
    data store by then.  The data store cannot make a run fail, and
    neither can the summarizer. *)
Lemma agent_run_fails_in_the_engine env state e :
  (agent_run env state).2 = Raise e →
  dispatched (agent_run env state).1 = []
  ∧ ((∃ prompt, classify_completion env prompt = Raise e)
     ∨ (∃ prompt, sql_completion env prompt = Raise e)).
Proof.
  unfold agent_run.
  pose proof (classify_query_node_outcome env _ (router_node_context state))
    as Hclassify.
  destruct (classify_query_node env (router_node state)) as [classified|e1].
  2: { cbn. intros [= <-]. split; [done|by left]. }
  destruct (needs_sql classified).
  - pose proof (generate_sql_node_outcome env _ Hclassify) as Hgenerate.
    destruct (generate_sql_node env classified) as [generated|e1].
    2: { cbn. intros [= <-]. split; [done|by right]. }
    destruct (execute_sql_node_returns env _ Hgenerate) as (executed & Hexec & Hctx).
    destruct (execute_sql_node env generated) as [events outcome].
    cbn in Hexec. subst outcome. cbn.
    destruct (summarizer_node_total env executed) as [final ->]; [by left|done].
  - cbn. destruct (summarizer_node_total env classified) as [final ->]; [by left|done].
Qed.

(** C6, amended: whenever a turn is answered and its reply reports zero
    rows (the query returned none, its execution failed, or the turn was
    routed away from the data store and no query was generated), the
    answer text is the fixed message [No results found for your query.]
    verbatim.  A turn that is not answered is one in which the completion
    engine raised, while classifying the request or while composing the
    query: no query was sent, no rows were fetched, and instead of an
    answer text the entry point raises [HTTPException(500)] with the text
    of the engine's exception. *)
Theorem zero_rows_fixed_message env sessions request :
  (∀ reply,
     (chat_query env sessions request).2 = Answered reply →
     row_count reply = 0 →
     answer reply = "No results found for your query.")
  ∧ (∀ code detail,
       (chat_query env sessions request).2 = HTTPException code detail →
       code = 500
       ∧ dispatched (turn env sessions request).1 = []
       ∧ ∃ e,
           detail = "Error processing query: " +:+ e
           ∧ ((∃ prompt, classify_completion env prompt = Raise e)
              ∨ (∃ prompt, sql_completion env prompt = Raise e))).
Proof.
  split.
  - intros reply Hreply Hcount.
    destruct (chat_query_answered _ _ _ _ Hreply) as (final & Hrun & -> & Hrows).
    destruct (agent_run_final _ _ _ Hrun) as (summarized & Hsum).
    destruct (summarizer_node_fields _ _ _ Hsum) as (-> & Hkept & _).
    cbn. apply compose_response_no_rows.
    rewrite <- Hkept. destruct (default [] (rows final)); [done|].
    rewrite Hrows in Hcount. cbn in Hcount. lia.
  - intros code detail. unfold chat_query, turn. rewrite invoke_agent_run.
    pose proof (agent_run_fails_in_the_engine env
                  (initial_state (transcript (open_session sessions request) request)
                     request)) as Hfails.
    destruct (agent_run env _) as [steps [final|e]]; cbn; [done|].
    intros [= <- <-]. destruct (Hfails e eq_refl) as [Hsent Hengine].
    split; [done|]. split; [done|by exists e].
Qed.

Lemma zero_rows_fixed_message_witness :
  (chat_query (Doubles.env_ok []) ∅ (Doubles.ask "s1" "show me all hcp")).2
  = Answered {| answer := "No results found for your query.";
                resp_generated_sql := Some "SELECT * FROM hcp";
                row_count := 0;
                resp_query_type := Some "list_all" |}
  ∧ row_count {| answer := "No results found for your query.";
                 resp_generated_sql := Some "SELECT * FROM hcp";
                 row_count := 0;
                 resp_query_type := Some "list_all" |} = 0
  ∧ answer {| answer := "No results found for your query.";
              resp_generated_sql := Some "SELECT * FROM hcp";
              row_count := 0;
              resp_query_type := Some "list_all" |}
    = "No results found for your query."
  ∧ (chat_query Doubles.env_composer_down ∅ (Doubles.ask "s1" "show me all hcp")).2
    = HTTPException 500 "Error processing query: Request timed out."
  ∧ dispatched (turn Doubles.env_composer_down ∅ (Doubles.ask "s1" "show me all hcp")).1
    = [].
Proof.
  assert (Hreply :
    (chat_query (Doubles.env_ok []) ∅ (Doubles.ask "s1" "show me all hcp")).2
    = Answered {| answer := "No results found for your query.";
                  resp_generated_sql := Some "SELECT * FROM hcp";
                  row_count := 0;
                  resp_query_type := Some "list_all" |}).
  { vm_compute. reflexivity. }
  assert (Hfailed :
    (chat_query Doubles.env_composer_down ∅ (Doubles.ask "s1" "show me all hcp")).2
    = HTTPException 500 "Error processing query: Request timed out.").
  { vm_compute. reflexivity. }
  split; [exact Hreply|]. split; [reflexivity|]. split.
  - apply (proj1 (zero_rows_fixed_message (Doubles.env_ok []) ∅
                    (Doubles.ask "s1" "show me all hcp")) _ Hreply).
    reflexivity.
  - split; [exact Hfailed|].
    apply (proj2 (zero_rows_fixed_message Doubles.env_composer_down ∅
                    (Doubles.ask "s1" "show me all hcp")) _ _ Hfailed).
Defined.

(** ** The router *)

Lemma is_space_lower_char c : Py.is_space (Py.lower_char c) = Py.is_space c.
Proof. by destruct c as [[] [] [] [] [] [] [] []]. Qed.

Lemma lower_char_idemp c : Py.lower_char (Py.lower_char c) = Py.lower_char c.
Proof. by destruct c as [[] [] [] [] [] [] [] []]. Qed.

Lemma lower_idemp s : Py.lower (Py.lower s) = Py.lower s.
Proof.
  unfold Py.lower. induction s as [|c s IH]; [done|].
  cbn. by rewrite lower_char_idemp, IH.
Qed.

Lemma lstrip_lower s : Py.lstrip (Py.lower s) = Py.lower (Py.lstrip s).
Proof.
  unfold Py.lower. induction s as [|c s IH]; [done|].
  cbn. rewrite is_space_lower_char. by destruct (Py.is_space c).
Qed.

Lemma rev_app_map_chars f s1 s2 :
  String.rev_app (Py.map_chars f s1) (Py.map_chars f s2)
  = Py.map_chars f (String.rev_app s1 s2).
Proof.
  revert s2. induction s1 as [|c s1 IH]; intros s2; [done|].
  cbn. by rewrite <- IH.
Qed.

Lemma rev_lower s : String.rev (Py.lower s) = Py.lower (String.rev s).
Proof. unfold String.rev, Py.lower. by rewrite <- rev_app_map_chars. Qed.

(** Trimming and lower-casing commute. *)
Lemma strip_lower s : Py.strip (Py.lower s) = Py.lower (Py.strip s).
Proof.
  unfold Py.strip, Py.rstrip.
  by rewrite lstrip_lower, rev_lower, lstrip_lower, rev_lower.
Qed.

Lemma router_node_needs_sql state :
  needs_sql (router_node state)
  = negb (is_pure_greeting (Py.lower (user_query state))
          || is_meta (Py.lower (user_query state))).
Proof.
  unfold router_node. cbn.
  destruct (initialize_memory_fields state) as (_ & _ & _ & _ & _ & ->).
  by destruct (is_pure_greeting (Py.lower (user_query state))
              || is_meta (Py.lower (user_query state))).
Qed.

Lemma router_node_fields state :
  rows (router_node state) = rows state
  ∧ generated_sql (router_node state) = generated_sql state
  ∧ session_memory (router_node state) = Some (memory_of state)
  ∧ is_Some (session_context (router_node state)).
Proof.
  unfold router_node. cbn.
  destruct (initialize_memory_fields state) as (-> & -> & _).
  repeat split; [|by eexists].
  unfold initialize_memory, memory_of. by destruct (session_memory state) eqn:E.
Qed.

(** A turn routed away from the data store: it is classified as a
    conversation and goes from [CLASSIFY] straight to [SUMMARIZE]. *)
Lemma agent_run_conversation env state :
  needs_sql (router_node state) = false →
  agent_run env state
  = ([Entered ROUTER; Entered CLASSIFY; Entered SUMMARIZE],
     summarizer_node env (set_query_type (Some "conversation") (router_node state))).
Proof.
  intros Hneeds. unfold agent_run, classify_query_node.
  rewrite Hneeds. cbn. by rewrite Hneeds.
Qed.

(** C9: a turn that the router sends away from the data store (a pure
    greeting or a meta question) is answered with the literal
    [No results found for your query.]: the summarizer finds no rows and
    takes its no-results branch; there is no greeting-specific reply. *)
Theorem no_data_turn_answers_no_results env sessions request :
  is_pure_greeting (Py.lower (question request))
  || is_meta (Py.lower (question request)) = true →
  ∃ reply,
    (chat_query env sessions request).2 = Answered reply
    ∧ answer reply = "No results found for your query."
    ∧ resp_generated_sql reply = None
    ∧ resp_query_type reply = Some "conversation".
Proof.
  intros Hrouted.
  set (state := initial_state (transcript (open_session sessions request) request) request).
  assert (Hneeds : needs_sql (router_node state) = false).
  { rewrite router_node_needs_sql.
    change (user_query state) with (question request). by rewrite Hrouted. }
  destruct (router_node_fields state) as (Hrows & Hsql & _ & _).
  destruct (summarizer_node_no_rows env
              (set_query_type (Some "conversation") (router_node state)))
    as (final & Hsum & Hresp & _).
  { cbn. by rewrite Hrows. }
  destruct (summarizer_node_fields _ _ _ Hsum) as (_ & _ & Hsql' & Hqt' & _).
  cbn in Hsql', Hqt'. rewrite Hsql in Hsql'.
  unfold chat_query, turn. rewrite invoke_agent_run.
  fold state. rewrite (agent_run_conversation env state Hneeds). cbn.
  rewrite Hsum. eexists. split; [reflexivity|]. cbn.
  rewrite Hresp, Hsql', Hqt'. done.
Qed.

Lemma no_data_turn_answers_no_results_witness :
  is_pure_greeting (Py.lower (question (Doubles.ask "s1" "  Thank you ")))
  || is_meta (Py.lower (question (Doubles.ask "s1" "  Thank you "))) = true
  ∧ ∃ reply,
      (chat_query Doubles.env_engine_down ∅ (Doubles.ask "s1" "  Thank you ")).2
      = Answered reply
      ∧ answer reply = "No results found for your query."
      ∧ resp_generated_sql reply = None
      ∧ resp_query_type reply = Some "conversation".
Proof.
  split; [reflexivity|].
  apply (no_data_turn_answers_no_results Doubles.env_engine_down ∅
           (Doubles.ask "s1" "  Thank you ")).
  reflexivity.
Defined.

Example greeting_with_no_break_space :
  is_pure_greeting (Py.lower ("Hi" +:+ String (ascii_of_nat 160) "")) = true
  ∧ (chat_query Doubles.env_engine_down ∅
       (Doubles.ask "s1" ("Hi" +:+ String (ascii_of_nat 160) ""))).2
    = Answered {| answer := "No results found for your query.";
                  resp_generated_sql := None;
                  row_count := 0;
                  resp_query_type := Some "conversation" |}.
Proof. vm_compute. done. Qed.

Example meta_question_answer :
  (chat_query Doubles.env_engine_down ∅ (Doubles.ask "s1" "What can you do?")).2
  = Answered {| answer := "No results found for your query.";
                resp_generated_sql := None;
                row_count := 0;
                resp_query_type := Some "conversation" |}.
Proof. vm_compute. reflexivity. Qed.

(** C7: an utterance that, trimmed and lower-cased, is one of the pure
    greeting phrases is routed with [needs_sql = False], and the turn that
    follows ends with the result cache it started with. *)
Theorem pure_greeting_no_data env state :
  Py.lower (Py.strip (user_query state)) ∈ pure_greetings →
  rows state = None →
  needs_sql (router_node state) = false
  ∧ ∃ final,
      (invoke build_agent_graph env state).2 = Ok final
      ∧ needs_sql final = false
      ∧ result_cache (memory_of final) = result_cache (memory_of state).
Proof.
  intros Hgreeting Hrows.
  assert (Hneeds : needs_sql (router_node state) = false).
  { rewrite router_node_needs_sql. unfold is_pure_greeting.
    rewrite strip_lower, lower_idemp. by rewrite bool_decide_true. }
  split; [done|].
  destruct (router_node_fields state) as (Hrows' & _ & Hmem & _).
  set (classified := set_query_type (Some "conversation") (router_node state)).
  destruct (summarizer_node_no_rows env classified) as (final & Hsum & _).
  { cbn. by rewrite Hrows', Hrows. }
  destruct (summarizer_node_fields _ _ _ Hsum)
    as (_ & _ & _ & _ & Hneeds' & memory' & Hmem' & _ & Hcache).
  exists final. rewrite invoke_agent_run, (agent_run_conversation env state Hneeds).
  split; [done|]. split; [by rewrite Hneeds'|].
  assert (Hnew : memory_of final = memory') by (unfold memory_of; by rewrite Hmem').
  assert (Hold : memory_of classified = memory_of state).
  { unfold memory_of at 1.
    change (session_memory classified) with (session_memory (router_node state)).
    by rewrite Hmem. }
  rewrite Hnew, Hcache, Hold; [done|].
  change (rows classified) with (rows (router_node state)).
  rewrite Hrows', Hrows. cbn. by rewrite andb_false_r.
Qed.

Lemma pure_greeting_no_data_witness :
  Py.lower (Py.strip (user_query (Doubles.state_after 4 "  Hi "))) ∈ pure_greetings
  ∧ rows (Doubles.state_after 4 "  Hi ") = None
  ∧ needs_sql (router_node (Doubles.state_after 4 "  Hi ")) = false
  ∧ ∃ final,
      (invoke build_agent_graph Doubles.env_engine_down
         (Doubles.state_after 4 "  Hi ")).2 = Ok final
      ∧ needs_sql final = false
      ∧ result_cache (memory_of final)
        = result_cache (memory_of (Doubles.state_after 4 "  Hi ")).
Proof.
  assert (Hgreeting :
    Py.lower (Py.strip (user_query (Doubles.state_after 4 "  Hi "))) ∈ pure_greetings).
  { change (Py.lower (Py.strip (user_query (Doubles.state_after 4 "  Hi ")))) with "hi".
    unfold pure_greetings. apply list_elem_of_further, list_elem_of_here. }
  split; [exact Hgreeting|]. split; [reflexivity|].
  apply (pure_greeting_no_data Doubles.env_engine_down
           (Doubles.state_after 4 "  Hi ") Hgreeting).
  reflexivity.
Defined.

(** ** Session memory across turns *)

Lemma initialize_memory_id state memory :
  session_memory state = Some memory → initialize_memory state = state.
Proof. unfold initialize_memory. by intros ->. Qed.

Lemma classify_query_node_memory env state state' :
  classify_query_node env state = Ok state' →
  memory_of state' = memory_of state.
Proof.
  unfold classify_query_node.
  destruct (needs_sql state); cbn.
  - destruct (classify_completion env _) as [text|e]; cbn; [|done].
    unfold the_context. cbn.
    destruct (session_context (initialize_memory state)) as [ctx|]; cbn; [|done].
    intros [= <-]. unfold memory_of at 1. cbn. apply memory_of_initialize.
  - by intros [= <-].
Qed.

Lemma generate_sql_node_memory env state state' :
  generate_sql_node env state = Ok state' →
  memory_of state' = memory_of state.
Proof.
  unfold generate_sql_node.
  destruct (needs_sql state); cbn.
  - destruct (sql_completion env _) as [text|e]; cbn; [|done].
    unfold the_context. cbn.
    destruct (session_context (initialize_memory state)) as [ctx|]; cbn; [|done].
    intros [= <-]. unfold memory_of at 1. cbn. apply memory_of_initialize.
  - by intros [= <-].
Qed.

Lemma execute_sql_node_memory env state state' :
  (execute_sql_node env state).2 = Ok state' →
  memory_of state' = memory_of state.
Proof.
  unfold execute_sql_node, execution_failed, the_context.
  destruct (negb (needs_sql state) || negb (truthy_str (generated_sql state))); cbn.
  { by intros [= <-]. }
  destruct (db_connect env) as [[]|e]; cbn.
  - destruct (db_execute env _) as [fetched|e]; cbn;
      destruct (session_context state) as [ctx|]; cbn; try done; by intros [= <-].
  - destruct (session_context state) as [ctx|]; cbn; [|done]. by intros [= <-].
Qed.

(** The memory of the state that reaches the summarizer is the memory the
    run started with. *)
Lemma agent_run_memory env state final :
  (agent_run env state).2 = Ok final →
  turn_count (memory_of final) = turn_count (memory_of state) + 1.
Proof.
  unfold agent_run.
  destruct (router_node_fields state) as (_ & _ & Hrouted & _).
  assert (Hstart : memory_of (router_node state) = memory_of state).
  { unfold memory_of at 1. by rewrite Hrouted. }
  assert (Hsum : ∀ summarized, memory_of summarized = memory_of state →
                 summarizer_node env summarized = Ok final →
                 turn_count (memory_of final) = turn_count (memory_of state) + 1).
  { intros summarized Hsame Hdone.
    destruct (summarizer_node_fields _ _ _ Hdone)
      as (_ & _ & _ & _ & _ & memory' & Hmem' & Hturn & _).
    unfold memory_of at 1. rewrite Hmem'. cbn. by rewrite Hturn, Hsame. }
  destruct (classify_query_node env (router_node state)) as [classified|e] eqn:Hc; [|done].
  apply classify_query_node_memory in Hc.
  destruct (needs_sql classified); [|apply Hsum; congruence].
  destruct (generate_sql_node env classified) as [generated|e] eqn:Hg; [|done].
  apply generate_sql_node_memory in Hg.
  destruct (execute_sql_node env generated) as [events [executed|e]] eqn:He; [|done].
  apply (f_equal snd) in He. apply execute_sql_node_memory in He.
  apply Hsum; congruence.
Qed.

(** The state that [chat_query] hands to the graph never carries a
    [session_memory], so every turn that completes counts from zero. *)
Lemma turn_count_after_one env sessions request final :
  (turn env sessions request).2 = Ok final →
  turn_count (memory_of final) = 1.
Proof.
  unfold turn. rewrite invoke_agent_run. intros Hrun.
  by rewrite (agent_run_memory _ _ _ Hrun).
Qed.

(** C1 (the code departs from it): in session [s1], a data request
    followed by a greeting and a second data request are three processed
    turns, and the memory of each ends with [turn_count = 1]; the count
    after N turns is 1 for every N, not N. *)
Theorem turn_count_stays_at_one :
  session_turn_counts (Doubles.env_ok [Doubles.hcp_row "Dr A" 1]) ∅
    [Doubles.ask "s1" "show me all hcp";
     Doubles.ask "s1" "hi";
     Doubles.ask "s1" "list all versions"]
  = [Some 1; Some 1; Some 1].
Proof. vm_compute. reflexivity. Qed.

(** ** Failures of the stages *)

Lemma router_node_initialized state :
  initialize_memory (router_node state) = router_node state.
Proof.
  destruct (router_node_fields state) as (_ & _ & Hmem & _).
  by apply (initialize_memory_id _ _ Hmem).
Qed.

(** C2, as the specification states it, fails: with a completion engine
    that times out, a data request gets no textual answer; the error
    reaches the caller as an HTTP 500 exception. *)
Lemma classification_failure_escapes :
  (chat_query Doubles.env_engine_down ∅ (Doubles.ask "s1" "show me all hcp")).2
  = HTTPException 500 "Error processing query: Request timed out."
  ∧ ¬ ∃ reply,
        (chat_query Doubles.env_engine_down ∅ (Doubles.ask "s1" "show me all hcp")).2
        = Answered reply.
Proof.
  assert (Hreply :
    (chat_query Doubles.env_engine_down ∅ (Doubles.ask "s1" "show me all hcp")).2
    = HTTPException 500 "Error processing query: Request timed out.").
  { vm_compute. reflexivity. }
  split; [exact Hreply|]. intros [reply Hanswered]. congruence.
Qed.

(** C2, amended: a completion-engine error during the classification of a
    data request is not absorbed.  No category is defaulted and no answer
    is composed: the run stops in [CLASSIFY] and the entry point raises
    [HTTPException(500)] with the detail
    [Error processing query: <text of the error>]. *)
Theorem classification_failure_is_http_500 env sessions request e :
  is_pure_greeting (Py.lower (question request))
  || is_meta (Py.lower (question request)) = false →
  classify_completion env
    (classify_prompt
       (router_node
          (initial_state (transcript (open_session sessions request) request) request)))
  = Raise e →
  (turn env sessions request).1 = [Entered ROUTER; Entered CLASSIFY]
  ∧ (chat_query env sessions request).2
    = HTTPException 500 ("Error processing query: " +:+ e).
Proof.
  intros Hrouted Hengine.
  set (state := initial_state (transcript (open_session sessions request) request) request)
    in *.
  assert (Hneeds : needs_sql (router_node state) = true).
  { rewrite router_node_needs_sql.
    change (user_query state) with (question request). by rewrite Hrouted. }
  assert (Hclassify : classify_query_node env (router_node state) = Raise e).
  { unfold classify_query_node. rewrite Hneeds. cbn.
    by rewrite router_node_initialized, Hengine. }
  unfold chat_query, turn. rewrite invoke_agent_run. fold state.
  unfold agent_run. by rewrite Hclassify.
Qed.

Lemma classification_failure_is_http_500_witness :
  is_pure_greeting (Py.lower (question (Doubles.ask "s1" "show me all hcp")))
  || is_meta (Py.lower (question (Doubles.ask "s1" "show me all hcp"))) = false
  ∧ classify_completion Doubles.env_engine_down
      (classify_prompt
         (router_node
            (initial_state
               (transcript (open_session ∅ (Doubles.ask "s1" "show me all hcp"))
                           (Doubles.ask "s1" "show me all hcp"))
               (Doubles.ask "s1" "show me all hcp"))))
    = Raise "Request timed out."
  ∧ (turn Doubles.env_engine_down ∅ (Doubles.ask "s1" "show me all hcp")).1
    = [Entered ROUTER; Entered CLASSIFY]
  ∧ (chat_query Doubles.env_engine_down ∅ (Doubles.ask "s1" "show me all hcp")).2
    = HTTPException 500 ("Error processing query: " +:+ "Request timed out.").
Proof.
  split; [reflexivity|]. split; [reflexivity|].
  apply (classification_failure_is_http_500 Doubles.env_engine_down ∅
           (Doubles.ask "s1" "show me all hcp") "Request timed out.");
    reflexivity.
Defined.

(** The failures that do not escape are those of the data store: a
    connection or execution error leaves an empty row set and the run goes
    on to the summarizer. *)
Lemma execution_failure_degrades env state ctx e :
  session_context state = Some ctx →
  db_connect env = Raise e ∨ db_execute env (default "" (generated_sql state)) = Raise e →
  ∃ state' e',
    (execute_sql_node env state).2 = Ok state'
    ∧ rows state' = Some []
    ∧ (needs_sql state && truthy_str (generated_sql state) = true →
       last_results_summary <$> session_context state' = Some ("Error: " +:+ e')).
Proof.
  intros Hctx Hfail. unfold execute_sql_node, execution_failed, the_context.
  destruct (needs_sql state); cbn; [|by eexists _, e].
  destruct (truthy_str (generated_sql state)); cbn; [|by eexists _, e].
  destruct (db_connect env) as [[]|e1] eqn:Hconnect; cbn.
  - destruct Hfail as [?|Hexec]; [done|]. rewrite Hexec. cbn. rewrite Hctx. cbn.
    by eexists _, e.
  - rewrite Hctx. cbn. by eexists _, e1.
Qed.

(** ** What reaches the data store *)

(** C3, as the specification states it, fails: a composed text whose
    leading keyword is DELETE and that holds a second statement after a
    semicolon is handed to the data store as it is. *)
Lemma unsafe_query_is_dispatched :
  dispatched (turn Doubles.env_unsafe_sql ∅ (Doubles.ask "s1" "remove every hcp")).1
  = ["DELETE FROM hcp; SELECT 1"].
Proof. vm_compute. reflexivity. Qed.

(** C3, amended: before dispatching, the executor checks only that the
    turn needs data and that the composed text is not empty; once the
    connection is open, every such text is sent for execution exactly as
    composed, whatever its leading keyword and whether or not it holds a
    second statement. *)
Theorem non_empty_query_is_dispatched env state sql :
  needs_sql state = true →
  generated_sql state = Some sql →
  sql ≠ "" →
  db_connect env = Ok () →
  (execute_sql_node env state).1 = [Executed sql []].
Proof.
  intros Hneeds Hsql Hnonempty Hconnect. unfold execute_sql_node.
  rewrite Hneeds, Hsql, Hconnect. cbn.
  by destruct sql.
Qed.

Lemma non_empty_query_is_dispatched_witness :
  needs_sql (set_generated_sql (Some "DROP TABLE hcp")
               (set_routing true false (Doubles.blank_state "drop it"))) = true
  ∧ generated_sql (set_generated_sql (Some "DROP TABLE hcp")
                     (set_routing true false (Doubles.blank_state "drop it")))
    = Some "DROP TABLE hcp"
  ∧ "DROP TABLE hcp" ≠ ""
  ∧ db_connect Doubles.env_unsafe_sql = Ok ()
  ∧ (execute_sql_node Doubles.env_unsafe_sql
       (set_generated_sql (Some "DROP TABLE hcp")
          (set_routing true false (Doubles.blank_state "drop it")))).1
    = [Executed "DROP TABLE hcp" []].
Proof.
  split; [reflexivity|]. split; [reflexivity|]. split; [discriminate|].
  split; [reflexivity|].
  apply (non_empty_query_is_dispatched Doubles.env_unsafe_sql
           (set_generated_sql (Some "DROP TABLE hcp")
              (set_routing true false (Doubles.blank_state "drop it")))
           "DROP TABLE hcp");
    [reflexivity|reflexivity|discriminate|reflexivity].
Defined.

(** The two guards are the only ones: without a data request or without a
    text, nothing is sent. *)
Lemma nothing_dispatched_without_query env state :
  needs_sql state = false ∨ truthy_str (generated_sql state) = false →
  execute_sql_node env state = ([], Ok (set_rows [] state)).
Proof.
  intros Hguard. unfold execute_sql_node.
  destruct Hguard as [-> | ->]; [done|]. by rewrite orb_true_r.
Qed.

(** ** Size tiers of the display *)

Lemma omap_length_le {A B} (f : A → option B) (l : list A) :
  (length (omap f l) ≤ length l)%nat.
Proof.
  induction l as [|x l IH]; [done|].
  cbn. destruct (f x); cbn; lia.
Qed.

Lemma results_list_length rows_ : length (results_list rows_) = length rows_.
Proof. unfold results_list. apply length_imap. Qed.

(** Up to 100 rows of a list query: one numbered line per row, in the
    order returned, under the header and nothing after the last line. *)
Lemma up_to_100_rows_all_rendered state :
  is_list_query (default "conversation" (query_type state)) = true →
  default [] (rows state) ≠ [] →
  (length (default [] (rows state)) ≤ 100)%nat →
  compose_response state
  = "Here are all " +:+ Py.str_of_nat (length (default [] (rows state)))
    +:+ " entries:" +:+ nl +:+ nl
    +:+ Py.join nl (results_list (default [] (rows state)))
  ∧ length (results_list (default [] (rows state))) = length (default [] (rows state))
  ∧ ∀ i row, default [] (rows state) !! i = Some row →
             ∃ text, results_list (default [] (rows state)) !! i = Some (numbered i text).
Proof.
  intros Hlist Hrows Hsize. unfold compose_response.
  rewrite Hlist, bool_decide_true by done. cbn [andb].
  destruct (Nat.leb_spec (length (default [] (rows state))) 100); [|lia].
  split; [done|]. split; [apply results_list_length|].
  intros i row Hrow. unfold results_list. rewrite list_lookup_imap, Hrow. cbn.
  unfold row_line, all_fields_line.
  destruct (row_parts _ _ row); cbn; eauto.
Qed.

(** More than 100 rows of a list query: the sample display. *)
Lemma over_100_rows_sampled state :
  is_list_query (default "conversation" (query_type state)) = true →
  (100 < length (default [] (rows state)))%nat →
  compose_response state = sample_response (default [] (rows state))
  ∧ (length (sample_list (default [] (rows state))) ≤ 20)%nat.
Proof.
  intros Hlist Hsize. unfold compose_response.
  assert (Hrows : default [] (rows state) ≠ []).
  { intros Hnil. rewrite Hnil in Hsize. cbn in Hsize. lia. }
  rewrite Hlist, bool_decide_true by done.
  cbn [andb].
  destruct (Nat.leb_spec (length (default [] (rows state))) 100); [lia|].
  split; [done|]. unfold sample_list.
  etrans; [apply omap_length_le|].
  rewrite length_imap, length_take. unfold sample_size. lia.
Qed.

Example hundred_rows_rendered :
  compose_response (Doubles.listing (replicate 100 [("hcp_name", VStr "Dr A")]))
  = "Here are all 100 entries:" +:+ nl +:+ nl
    +:+ Py.join nl ((λ i, Py.str_of_nat i +:+ ". Name: Dr A") <$> seq 1 100).
Proof. vm_compute. reflexivity. Qed.

(** C5 (the code departs from it): of 101 rows whose second row has no
    non-empty selected field, the answer announces 101 entries, "the first
    20" and 81 more, and renders 19 rows: row 2 is left out, where the
    display of up to 100 rows falls back to the other fields of the row. *)
Theorem sample_display_skips_rows :
  match summarizer_node (Doubles.env_ok []) (Doubles.listing Doubles.sparse_rows) with
  | Ok state' =>
      response state'
      = Some ("Found 101 entries in total." +:+ nl +:+ nl
              +:+ "Here are the first 20:" +:+ nl +:+ nl
              +:+ Py.join nl
                    ("1. Name: Dr A"
                     :: ((λ i, Py.str_of_nat i +:+ ". Name: Dr A") <$> seq 3 18))
              +:+ nl +:+ nl
              +:+ "... and 81 more entries." +:+ nl +:+ nl
              +:+ "Would you like me to show a specific range or filter these results?")
  | Raise _ => False
  end
  ∧ length (sample_list Doubles.sparse_rows) = 19%nat
  ∧ results_list (take 2 Doubles.sparse_rows) = ["1. Name: Dr A"; "2. "].
Proof. vm_compute. repeat split. Qed.

(** ** Nodes visited by a run *)

Lemma visited_app steps1 steps2 :
  visited (steps1 ++ steps2) = visited steps1 ++ visited steps2.
Proof. apply omap_app. Qed.

Lemma visited_sent events : visited (Sent <$> events) = [].
Proof. by induction events. Qed.

Lemma agent_run_visited env state :
  visited (agent_run env state).1 ∈ run_paths
  ∧ (∀ final, (agent_run env state).2 = Ok final →
       visited (agent_run env state).1 = [ROUTER; CLASSIFY; SUMMARIZE]
       ∨ visited (agent_run env state).1
         = [ROUTER; CLASSIFY; GENERATE_SQL; EXECUTE_SQL; SUMMARIZE]).
Proof.
  unfold agent_run, run_paths.
  destruct (classify_query_node env (router_node state)) as [classified|e]; cbn.
  2: { split; [apply list_elem_of_here|done]. }
  destruct (needs_sql classified); cbn.
  2: { split; [|by left]. do 1 apply list_elem_of_further. apply list_elem_of_here. }
  destruct (generate_sql_node env classified) as [generated|e]; cbn.
  2: { split; [|done]. do 2 apply list_elem_of_further. apply list_elem_of_here. }
  destruct (execute_sql_node env generated) as [events [executed|e]]; cbn.
  - rewrite visited_app, visited_sent. cbn.
    split; [|by right]. do 4 apply list_elem_of_further. apply list_elem_of_here.
  - rewrite visited_sent.
    split; [|done]. do 3 apply list_elem_of_further. apply list_elem_of_here.
Qed.

(** The nodes that some chain of edges joins to [START]. *)
Lemma reachable_nodes node :
  reachable build_agent_graph node →
  node ∈ [START; ROUTER; CLASSIFY; GENERATE_SQL; EXECUTE_SQL; SUMMARIZE; END].
Proof.
  unfold reachable. intros Hpath.
  assert (Hclosed : ∀ source target,
            rtc (edge build_agent_graph) source target →
            source ∈ [START; ROUTER; CLASSIFY; GENERATE_SQL; EXECUTE_SQL; SUMMARIZE; END] →
            target ∈ [START; ROUTER; CLASSIFY; GENERATE_SQL; EXECUTE_SQL; SUMMARIZE; END]).
  { induction 1 as [|source middle target Hedge _ IH]; [done|].
    intros _. apply IH. clear IH.
    destruct Hedge as [source middle Hin|source selector targets label middle Hin Htarget].
    - cbn in Hin.
      repeat (apply elem_of_cons in Hin as [[= -> ->]|Hin];
              [solve [repeat constructor]|]).
      by apply not_elem_of_nil in Hin.
    - cbn in Hin. apply elem_of_cons in Hin as [Heq|Hin];
        [|by apply not_elem_of_nil in Hin].
      injection Heq as -> -> ->.
      repeat (apply elem_of_cons in Htarget as [[= -> ->]|Htarget];
              [solve [repeat constructor]|]).
      by apply not_elem_of_nil in Htarget. }
  apply (Hclosed START node Hpath). repeat constructor.
Qed.

(** C10: a run of the compiled graph enters only [ROUTER], [CLASSIFY],
    possibly [GENERATE_SQL] and [EXECUTE_SQL], and [SUMMARIZE], in that
    order; [FETCH_VERSIONS] and [ANALYZE_CHANGES] are registered but no
    edge leads to them, so their functions are never called. *)
Theorem only_five_nodes_run env state :
  visited (invoke build_agent_graph env state).1 ∈ run_paths
  ∧ (FETCH_VERSIONS ∉ visited (invoke build_agent_graph env state).1)
  ∧ (ANALYZE_CHANGES ∉ visited (invoke build_agent_graph env state).1)
  ∧ is_Some (find FETCH_VERSIONS (nodes build_agent_graph))
  ∧ is_Some (find ANALYZE_CHANGES (nodes build_agent_graph))
  ∧ ¬ reachable build_agent_graph FETCH_VERSIONS
  ∧ ¬ reachable build_agent_graph ANALYZE_CHANGES.
Proof.
  rewrite invoke_agent_run.
  destruct (agent_run_visited env state) as [Hpath _].
  split; [done|].
  assert (Hnever : ∀ node path, path ∈ run_paths →
            node = FETCH_VERSIONS ∨ node = ANALYZE_CHANGES → node ∉ path).
  { intros node path Hin Hnode. unfold run_paths in Hin.
    repeat (apply elem_of_cons in Hin as [->|Hin]);
      [..|by apply not_elem_of_nil in Hin];
      destruct Hnode as [-> | ->];
      intros Hmem; repeat (apply elem_of_cons in Hmem as [[=]|Hmem]);
      by apply not_elem_of_nil in Hmem. }
  split; [by apply Hnever; [|left]|].
  split; [by apply Hnever; [|right]|].
  split; [by eexists|]. split; [by eexists|].
  split; intros Hmem%reachable_nodes;
    repeat (apply elem_of_cons in Hmem as [[=]|Hmem]);
    by apply not_elem_of_nil in Hmem.
Qed.

(** A run that completes took one of the two full paths. *)
Lemma completed_run_paths env state final :
  (invoke build_agent_graph env state).2 = Ok final →
  visited (invoke build_agent_graph env state).1 = [ROUTER; CLASSIFY; SUMMARIZE]
  ∨ visited (invoke build_agent_graph env state).1
    = [ROUTER; CLASSIFY; GENERATE_SQL; EXECUTE_SQL; SUMMARIZE].
Proof.
  rewrite invoke_agent_run. apply agent_run_visited.
Qed.

(** * Further properties of the code *)

(** ** The memory update in full *)

Ltac tidy :=
  cbn -[take Py.upper Py.contains Py.from_table_search dict_update extract_entities
        push_history summarize_conversation_context cache_key].

(** What an update that returns writes into the memory and the context.
    The table is read out of the generated query only when a result is
    cached and the text holds FROM. *)
Lemma update_memory_spec env state state' :
  update_memory env state = Ok state' →
  let memory := memory_of state in
  let turn_ := turn_count memory + 1 in
  let rows_ := default [] (rows state) in
  let sql := default "" (generated_sql state) in
  let caching := truthy_str (generated_sql state) && bool_decide (rows_ ≠ []) in
  let table :=
    if caching && Py.contains "FROM" (Py.upper sql)
    then Py.from_table_search sql else None in
  ∃ memory',
    session_memory state' = Some memory'
    ∧ result_cache memory'
      = (if caching
         then <[cache_key turn_ :=
                  {| cr_sql := sql; cr_rows := take 50 rows_;
                     cr_full_count := Z.of_nat (length rows_) |}]>
                (result_cache memory)
         else result_cache memory)
    ∧ entity_references memory'
      = dict_update (entity_references memory)
          (extract_entities (user_query state) rows_)
    ∧ last_topic memory'
      = (if truthy_str (query_type state) then query_type state else last_topic memory)
    ∧ last_table memory' = from_option Some (last_table memory) table
    ∧ session_context state'
      = from_option (λ t, with_current_table (Some t) <$> session_context state)
          (session_context state) table.
Proof.
  unfold update_memory. rewrite memory_of_initialize.
  destruct (initialize_memory_fields state) as (Hrows & Hsql & Hqt & _ & Hctx & Hq).
  rewrite ?Hrows, ?Hsql, ?Hq.
  generalize (initialize_memory state) Hqt Hctx. intros st Hqt' Hctx'.
  destruct (generated_sql state) as [sql_text|] eqn:Esql;
    destruct (default [] (rows state)) as [|row rest] eqn:Erows; tidy.
  1,3,4: intros [= <-]; eexists; tidy;
         rewrite ?Hqt', ?Hctx', ?andb_false_r; repeat split; done.
  destruct (Py.nonempty sql_text) eqn:Enonempty; tidy.
  2: { intros [= <-]; eexists; tidy; rewrite ?Hqt', ?Hctx'; repeat split; done. }
  destruct (Py.contains "FROM" (Py.upper sql_text)); tidy.
  2: { intros [= <-]; eexists; tidy; rewrite ?Hqt', ?Hctx'; repeat split; done. }
  destruct (Py.from_table_search sql_text) as [table|]; tidy.
  2: { intros [= <-]; eexists; tidy; rewrite ?Hqt', ?Hctx'; repeat split; done. }
  unfold the_context. rewrite Hctx'.
  destruct (session_context state) as [ctx|]; tidy; [|done].
  intros [= <-]; eexists; tidy; rewrite ?Hqt'; repeat split; done.
Qed.

(** ** The result cache *)

Lemma str_of_Z_inj a b : Py.str_of_Z a = Py.str_of_Z b → a = b.
Proof.
  unfold Py.str_of_Z. intros Heq.
  assert (Hnonnil : ∀ z, Z.to_int z ≠ Decimal.Pos Decimal.Nil
                         ∧ Z.to_int z ≠ Decimal.Neg Decimal.Nil).
  { intros [|p|p]; cbn; split; try discriminate;
      intros [= Hnil]; by apply DecimalPos.Unsigned.to_uint_nonnil in Hnil. }
  apply DecimalZ.to_int_inj.
  apply (f_equal NilZero.int_of_string) in Heq.
  rewrite !NilZero.isi in Heq by apply Hnonnil.
  by injection Heq.
Qed.

(** Two turns never share a cache key. *)
Theorem cache_key_inj turn1 turn2 :
  cache_key turn1 = cache_key turn2 → turn1 = turn2.
Proof.
  unfold cache_key. intros Heq. apply str_of_Z_inj.
  by apply (inj (String.app "turn_")) in Heq.
Qed.

Lemma cache_key_inj_witness :
  cache_key 7 = cache_key 7 ∧ (7 : Z) = 7.
Proof.
  split; [reflexivity|]. apply (cache_key_inj 7 7). reflexivity.
Defined.

(** A turn with a generated query and rows writes its result under
    [turn_<n>]: the lookup right after the update gives the query text,
    the first 50 rows and the full count, and no other key changes. *)
Theorem result_cache_round_trip env state ctx sql row more :
  session_context state = Some ctx →
  generated_sql state = Some sql →
  sql ≠ "" →
  default [] (rows state) = row :: more →
  ∃ state',
    update_memory env state = Ok state'
    ∧ result_cache (memory_of state') !! cache_key (turn_count (memory_of state) + 1)
      = Some {| cr_sql := sql;
                cr_rows := take 50 (row :: more);
                cr_full_count := Z.of_nat (length (row :: more)) |}
    ∧ (length (take 50 (row :: more)) ≤ 50)%nat
    ∧ ∀ key, key ≠ cache_key (turn_count (memory_of state) + 1) →
             result_cache (memory_of state') !! key
             = result_cache (memory_of state) !! key.
Proof.
  intros Hctx Hsql Hnonempty Hrows.
  destruct (update_memory_total env state) as [state' Hupdate]; [left; eauto|].
  destruct (update_memory_spec _ _ _ Hupdate) as (memory' & Hmem & Hcache & _).
  exists state'. split; [done|].
  assert (Hnew : memory_of state' = memory') by (unfold memory_of; by rewrite Hmem).
  rewrite Hnew, Hcache, Hsql, Hrows.
  assert (Htruthy : truthy_str (Some sql) = true) by (by destruct sql).
  rewrite Htruthy, bool_decide_true by done. cbn [andb default].
  split; [apply lookup_insert_eq|]. split; [rewrite length_take; lia|].
  intros key Hkey. by rewrite lookup_insert_ne.
Qed.

Lemma result_cache_round_trip_witness :
  let state := Doubles.listing (replicate 60 (Doubles.hcp_row "Dr A" 1)) in
  session_context state = Some (default_context (Doubles.blank_state ""))
  ∧ generated_sql state = Some "SELECT hcp_name FROM hcp"
  ∧ "SELECT hcp_name FROM hcp" ≠ ""
  ∧ default [] (rows state)
    = Doubles.hcp_row "Dr A" 1 :: replicate 59 (Doubles.hcp_row "Dr A" 1)
  ∧ ∃ state',
      update_memory (Doubles.env_ok []) state = Ok state'
      ∧ result_cache (memory_of state') !! cache_key (turn_count (memory_of state) + 1)
        = Some {| cr_sql := "SELECT hcp_name FROM hcp";
                  cr_rows := take 50 (Doubles.hcp_row "Dr A" 1
                                      :: replicate 59 (Doubles.hcp_row "Dr A" 1));
                  cr_full_count :=
                    Z.of_nat (length (Doubles.hcp_row "Dr A" 1
                                      :: replicate 59 (Doubles.hcp_row "Dr A" 1))) |}
      ∧ (length (take 50 (Doubles.hcp_row "Dr A" 1
                          :: replicate 59 (Doubles.hcp_row "Dr A" 1))) ≤ 50)%nat
      ∧ ∀ key, key ≠ cache_key (turn_count (memory_of state) + 1) →
               result_cache (memory_of state') !! key
               = result_cache (memory_of state) !! key.
Proof.
  intros state.
  split; [reflexivity|]. split; [reflexivity|]. split; [discriminate|].
  split; [reflexivity|].
  apply (result_cache_round_trip (Doubles.env_ok []) state
           (default_context (Doubles.blank_state "")) "SELECT hcp_name FROM hcp"
           (Doubles.hcp_row "Dr A" 1) (replicate 59 (Doubles.hcp_row "Dr A" 1)));
    [reflexivity|reflexivity|discriminate|reflexivity].
Defined.

(** ** The entity index *)

Lemma dict_add_app key index :
  dict_add key index = index ++ (if bool_decide (key ∈ index) then [] else [key]).
Proof. unfold dict_add. case_bool_decide; by rewrite ?app_nil_r. Qed.

Lemma dict_add_elem key index k : k ∈ dict_add key index ↔ k ∈ index ∨ k = key.
Proof.
  unfold dict_add. case_bool_decide as Hin.
  - split; [by left|]. by intros [?| ->].
  - rewrite elem_of_app, list_elem_of_singleton. done.
Qed.

Lemma dict_add_NoDup key index : NoDup index → NoDup (dict_add key index).
Proof.
  intros Hnodup. unfold dict_add. case_bool_decide as Hin; [done|].
  apply NoDup_app. split; [done|]. split; [|apply NoDup_singleton].
  intros k Hk ->%list_elem_of_singleton. done.
Qed.

Lemma dict_update_prefix index entities :
  ∃ added, dict_update index entities = index ++ added.
Proof.
  unfold dict_update. revert index.
  induction entities as [|key entities IH]; intros index; cbn.
  - exists []. by rewrite app_nil_r.
  - destruct (IH (dict_add key index)) as [added ->].
    rewrite dict_add_app, <- app_assoc. eauto.
Qed.

Lemma dict_update_elem index entities k :
  k ∈ dict_update index entities ↔ k ∈ index ∨ k ∈ entities.
Proof.
  unfold dict_update. revert index.
  induction entities as [|key entities IH]; intros index; cbn.
  - rewrite elem_of_nil. tauto.
  - rewrite IH, dict_add_elem, elem_of_cons. tauto.
Qed.

Lemma dict_update_NoDup index entities :
  NoDup index → NoDup (dict_update index entities).
Proof.
  unfold dict_update. revert index.
  induction entities as [|key entities IH]; intros index Hnodup; cbn; [done|].
  by apply IH, dict_add_NoDup.
Qed.

Lemma dict_update_known index entities :
  (∀ k, k ∈ entities → k ∈ index) → dict_update index entities = index.
Proof.
  unfold dict_update. induction entities as [|key entities IH]; intros Hknown; cbn; [done|].
  unfold dict_add at 2. rewrite bool_decide_true by (apply Hknown; left).
  apply IH. intros k Hk. apply Hknown. by right.
Qed.

(** The entity index only grows: an update keeps every key at its place
    and appends the new ones, keeps the keys distinct, and holds exactly
    the old keys and those extracted from the turn. *)
Theorem entity_index_grows env state state' :
  update_memory env state = Ok state' →
  let old := entity_references (memory_of state) in
  let new := entity_references (memory_of state') in
  (∃ added, new = old ++ added)
  ∧ (NoDup old → NoDup new)
  ∧ ∀ key, key ∈ new
           ↔ key ∈ old
             ∨ key ∈ extract_entities (user_query state) (default [] (rows state)).
Proof.
  intros Hupdate.
  destruct (update_memory_spec _ _ _ Hupdate) as (memory' & Hmem & _ & Hindex & _).
  assert (Hnew : memory_of state' = memory') by (unfold memory_of; by rewrite Hmem).
  cbn zeta. rewrite Hnew, Hindex.
  split; [apply dict_update_prefix|]. split; [apply dict_update_NoDup|].
  intros key. apply dict_update_elem.
Qed.

(** Adding the entities of a turn a second time changes nothing: neither
    the keys nor the size of the index. *)
Theorem entity_update_idempotent index query rows_ :
  dict_update (dict_update index (extract_entities query rows_))
              (extract_entities query rows_)
  = dict_update index (extract_entities query rows_).
Proof.
  apply dict_update_known. intros k Hk. apply dict_update_elem. by right.
Qed.

Lemma entity_index_grows_witness :
  let state := Doubles.state_after 4 "list the hcp versions" in
  let state' :=
    set_memory
      {| conversation_context := "";
         query_history :=
           (Doubles.record_n <$> seq 1 4)
           ++ [query_record_of (Doubles.env_ok []) 5 state];
         result_cache := ∅;
         entity_references := ["table_version"; "table_hcp"];
         last_topic := Some "list_all";
         turn_count := 5;
         last_table := Some "list_versions" |} state in
  update_memory (Doubles.env_ok []) state = Ok state'
  ∧ (∃ added, entity_references (memory_of state')
              = entity_references (memory_of state) ++ added)
  ∧ (NoDup (entity_references (memory_of state))
     → NoDup (entity_references (memory_of state')))
  ∧ ∀ key, key ∈ entity_references (memory_of state')
           ↔ key ∈ entity_references (memory_of state)
             ∨ key ∈ extract_entities (user_query state) (default [] (rows state)).
Proof.
  intros state state'.
  assert (Hupdate : update_memory (Doubles.env_ok []) state = Ok state').
  { vm_compute. reflexivity. }
  split; [exact Hupdate|].
  apply (entity_index_grows (Doubles.env_ok []) state state' Hupdate).
Defined.

Lemma foldl_dict_add_elem (keys_ : list string) index k :
  k ∈ foldl (λ entities key, dict_add key entities) index keys_
  ↔ k ∈ index ∨ k ∈ keys_.
Proof. apply (dict_update_elem index keys_ k). Qed.

Lemma elem_of_concat {A} (x : A) (ls : list (list A)) :
  x ∈ concat ls ↔ ∃ l, x ∈ l ∧ l ∈ ls.
Proof.
  induction ls as [|l ls IH]; cbn.
  - split; [by intros ?%elem_of_nil|]. by intros (l & _ & ?%elem_of_nil).
  - rewrite elem_of_app, IH. split.
    + intros [?|(l' & ? & ?)]; [exists l; split; [done|left]|].
      exists l'. split; [done|by right].
    + intros (l' & Hx & [-> | ?]%elem_of_cons); [by left|]. right. by exists l'.
Qed.

Lemma extract_entities_elem query rows_ key :
  key ∈ extract_entities query rows_
  ↔ (∃ table, table ∈ entity_tables
              ∧ Py.contains table (Py.lower query) = true
              ∧ key = "table_" +:+ table)
    ∨ (∃ row field value,
         row ∈ take 5 rows_ ∧ (field, VStr value) ∈ row
         ∧ Py.contains "name" (Py.lower field) = true
         ∧ key = "name_" +:+ value).
Proof.
  unfold extract_entities. rewrite foldl_dict_add_elem.
  assert (Hfold : ∀ tables init,
    key ∈ foldl (λ entities table,
                   if Py.contains table (Py.lower query)
                   then dict_add ("table_" +:+ table) entities else entities)
                init tables
    ↔ key ∈ init
      ∨ ∃ table, table ∈ tables ∧ Py.contains table (Py.lower query) = true
                 ∧ key = "table_" +:+ table).
  { induction tables as [|table tables IH]; intros init; cbn.
    - split; [by left|]. intros [?|(table & Hin & _)]; [done|].
      by apply elem_of_nil in Hin.
    - rewrite IH. destruct (Py.contains table (Py.lower query)) eqn:Hc.
      + rewrite dict_add_elem. split.
        * intros [[?| ->]|(t & Hin & ? & ?)]; [by left|..].
          -- right. exists table. split; [left|done].
          -- right. exists t. split; [by right|done].
        * intros [?|(t & [-> | Hin]%elem_of_cons & ? & ?)]; [by left; left|..].
          -- by left; right.
          -- right. by exists t.
      + split.
        * intros [?|(t & Hin & ? & ?)]; [by left|].
          right. exists t. split; [by right|done].
        * intros [?|(t & [-> | Hin]%elem_of_cons & ? & ?)]; [by left|congruence|].
          right. by exists t. }
  assert (Hnames :
    key ∈ concat (name_entities_of_row <$> take 5 rows_)
    ↔ ∃ row field value,
        row ∈ take 5 rows_ ∧ (field, VStr value) ∈ row
        ∧ Py.contains "name" (Py.lower field) = true
        ∧ key = "name_" +:+ value).
  { rewrite elem_of_concat. split.
    + intros (names & Hkey & (row & -> & Hrow)%list_elem_of_fmap).
      unfold name_entities_of_row in Hkey.
      apply list_elem_of_omap in Hkey as ([field value] & Hin & Hsome).
      destruct value as [|text| |]; try done.
      destruct (Py.contains "name" (Py.lower field)) eqn:Hname; [|done].
      injection Hsome as <-. by exists row, field, text.
    + intros (row & field & text & Hrow & Hin & Hname & ->).
      exists (name_entities_of_row row). split.
      * unfold name_entities_of_row. apply list_elem_of_omap.
        exists (field, VStr text). split; [done|]. by rewrite Hname.
      * apply list_elem_of_fmap. by exists row. }
  rewrite Hfold, Hnames, elem_of_nil. tauto.
Qed.

(** Every extracted key is namespaced [table_<name>] for one of the four
    known tables named in the query or [name_<value>] for a text value of
    a field whose name holds "name", and only the first five rows are
    read. *)
Theorem extract_entities_namespaced query rows_ :
  extract_entities query rows_ = extract_entities query (take 5 rows_)
  ∧ NoDup (extract_entities query rows_)
  ∧ ∀ key, key ∈ extract_entities query rows_ →
      (∃ table, table ∈ ["list_versions"; "target_list_entries"; "hcp"; "version"]
                ∧ Py.contains table (Py.lower query) = true
                ∧ key = "table_" +:+ table)
      ∨ (∃ row field value,
           row ∈ take 5 rows_ ∧ (field, VStr value) ∈ row
           ∧ Py.contains "name" (Py.lower field) = true
           ∧ key = "name_" +:+ value).
Proof.
  split; [|split].
  - unfold extract_entities. by rewrite take_take.
  - unfold extract_entities.
    apply (dict_update_NoDup _ (concat (name_entities_of_row <$> take 5 rows_))).
    assert (Hfold : ∀ tables init, NoDup init →
      NoDup (foldl (λ entities table,
                      if Py.contains table (Py.lower query)
                      then dict_add ("table_" +:+ table) entities else entities)
                   init tables)).
    { induction tables as [|table tables IH]; intros init Hinit; cbn; [done|].
      apply IH. destruct (Py.contains table (Py.lower query)); [|done].
      by apply dict_add_NoDup. }
    apply Hfold, NoDup_nil_2.
  - intros key. apply extract_entities_elem.
Qed.

(** ** The table read out of a query *)

Lemma upper_lower_char c : Py.upper_char (Py.lower_char c) = Py.upper_char c.
Proof. by destruct c as [[] [] [] [] [] [] [] []]. Qed.

Lemma upper_lower s : Py.upper (Py.lower s) = Py.upper s.
Proof.
  unfold Py.upper, Py.lower. induction s as [|c s IH]; [done|].
  cbn. by rewrite upper_lower_char, IH.
Qed.

Lemma upper_str_take n s : Py.upper (Py.str_take n s) = Py.str_take n (Py.upper s).
Proof.
  unfold Py.upper, Py.str_take. revert n.
  induction s as [|c s IH]; intros [|n]; cbn; try done. by rewrite IH.
Qed.

Lemma prefix_str_take n s : String.prefix (Py.str_take n s) s = true.
Proof.
  unfold Py.str_take. revert n.
  induction s as [|c s IH]; intros [|n]; cbn; try done.
  destruct (ascii_dec c c); [apply IH|done].
Qed.

Lemma contains_prefix needle hay :
  String.prefix needle hay = true → Py.contains needle hay = true.
Proof. intros Hprefix. destruct hay; cbn in *; by rewrite Hprefix. Qed.

Lemma contains_further needle c hay :
  Py.contains needle hay = true → Py.contains needle (String c hay) = true.
Proof. intros Hin. cbn. rewrite Hin. apply orb_true_r. Qed.

Lemma word_run_word s c : c ∈ list_ascii_of_string (Py.word_run s) → Py.is_word c = true.
Proof.
  induction s as [|c' s IH]; cbn; [by intros ?%elem_of_nil|].
  destruct (Py.is_word c') eqn:Hword; cbn; [|by intros ?%elem_of_nil].
  intros [-> | ?]%elem_of_cons; [done|by apply IH].
Qed.

Lemma from_match_here_spec s table :
  Py.from_match_here s = Some table →
  table ≠ ""
  ∧ (∀ c, c ∈ list_ascii_of_string table → Py.is_word c = true)
  ∧ String.prefix "FROM" (Py.upper s) = true.
Proof.
  unfold Py.from_match_here.
  destruct (String.eqb_spec (Py.lower (Py.str_take 4 s)) "from") as [Hfrom|]; [|done].
  destruct (Py.str_drop 4 s) as [|c rest]; [done|].
  destruct (Py.is_space c); [|done].
  destruct (Py.word_run (Py.lstrip rest)) as [|c' run] eqn:Hrun; [done|].
  intros [= <-]. split; [done|]. split.
  - intros c0. rewrite <- Hrun. apply word_run_word.
  - pose proof (prefix_str_take 4 (Py.upper s)) as Hprefix.
    by rewrite <- upper_str_take, <- upper_lower, Hfrom in Hprefix.
Qed.

Lemma from_table_search_contains s table :
  Py.from_table_search s = Some table → Py.contains "FROM" (Py.upper s) = true.
Proof.
  induction s as [|c s IH]; [done|].
  cbn [Py.from_table_search].
  destruct (Py.from_match_here (String c s)) as [found|] eqn:Hhere.
  - intros _. destruct (from_match_here_spec _ _ Hhere) as (_ & _ & Hprefix).
    by apply contains_prefix.
  - intros Hlater. by apply contains_further, IH.
Qed.

(** A table name found by the pattern [FROM\s+(\w+)] is a non-empty run of
    word characters, and a text in which the pattern matches holds FROM
    once upper-cased: the test that the source makes before searching
    never rejects a text that would match. *)
Theorem from_table_search_spec s table :
  Py.from_table_search s = Some table →
  table ≠ ""
  ∧ (∀ c, c ∈ list_ascii_of_string table → Py.is_word c = true)
  ∧ Py.contains "FROM" (Py.upper s) = true.
Proof.
  induction s as [|c s IH].
  - cbn. done.
  - cbn [Py.from_table_search].
    destruct (Py.from_match_here (String c s)) as [found|] eqn:Hhere.
    + intros [= ->]. destruct (from_match_here_spec _ _ Hhere) as (? & ? & Hprefix).
      repeat split; try done. by apply contains_prefix.
    + intros Hlater. destruct (IH Hlater) as (? & ? & Hin).
      repeat split; try done. by apply contains_further.
Qed.

Lemma from_table_search_spec_witness :
  Py.from_table_search "select * FrOm  idn_health_system_entries where tier = 1"
  = Some "idn_health_system_entries"
  ∧ "idn_health_system_entries" ≠ ""
  ∧ (∀ c, c ∈ list_ascii_of_string "idn_health_system_entries" → Py.is_word c = true)
  ∧ Py.contains "FROM"
      (Py.upper "select * FrOm  idn_health_system_entries where tier = 1") = true.
Proof.
  split; [reflexivity|].
  apply (from_table_search_spec
           "select * FrOm  idn_health_system_entries where tier = 1"
           "idn_health_system_entries").
  reflexivity.
Defined.

(** After a turn that cached a result whose query names a table, the
    memory's [last_table] and the context's [current_table] both hold that
    table. *)
Theorem last_table_mirrors_current_table env state state' table :
  update_memory env state = Ok state' →
  truthy_str (generated_sql state) = true →
  default [] (rows state) ≠ [] →
  Py.from_table_search (default "" (generated_sql state)) = Some table →
  last_table (memory_of state') = Some table
  ∧ current_table <$> session_context state' = Some (Some table).
Proof.
  intros Hupdate Hsql Hrows Htable.
  destruct (update_memory_spec _ _ _ Hupdate)
    as (memory' & Hmem & _ & _ & _ & Hlast & Hctx).
  assert (Hnew : memory_of state' = memory') by (unfold memory_of; by rewrite Hmem).
  pose proof (from_table_search_contains _ _ Htable) as Hfrom.
  rewrite Hsql, bool_decide_true, Hfrom, Htable in Hlast, Hctx by done.
  cbn in Hlast, Hctx. rewrite Hnew, Hlast, Hctx. split; [done|].
  destruct (session_context state) as [ctx|] eqn:Ectx; [done|].
  (* without a context the update raises before it returns *)
  exfalso. revert Hupdate. unfold update_memory.
  destruct (initialize_memory_fields state) as (-> & -> & _ & _ & Hc & _).
  destruct (generated_sql state) as [sql|]; [|done].
  destruct (default [] (rows state)); [done|].
  change (default "" (Some sql)) with sql in Htable, Hfrom.
  cbn [truthy_str] in Hsql. rewrite Hsql, Hfrom, Htable.
  unfold the_context. by rewrite Hc, Ectx.
Qed.

Lemma last_table_mirrors_current_table_witness :
  let state := Doubles.listing [Doubles.hcp_row "Dr A" 1] in
  ∃ state',
    update_memory (Doubles.env_ok []) state = Ok state'
    ∧ truthy_str (generated_sql state) = true
    ∧ default [] (rows state) ≠ []
    ∧ Py.from_table_search (default "" (generated_sql state)) = Some "hcp"
    ∧ last_table (memory_of state') = Some "hcp"
    ∧ current_table <$> session_context state' = Some (Some "hcp").
Proof.
  intros state.
  destruct (update_memory_total (Doubles.env_ok []) state) as [state' Hupdate].
  { left. by eexists. }
  exists state'. split; [exact Hupdate|]. split; [reflexivity|].
  split; [discriminate|]. split; [reflexivity|].
  apply (last_table_mirrors_current_table (Doubles.env_ok []) state state' "hcp" Hupdate);
    [reflexivity|discriminate|reflexivity].
Defined.

(** ** When the memory update raises *)

(** On the states of the embedding (those in which [rows], when present,
    is a list and [session_context], when present, is a dict) the update
    raises in one situation only: a result is being cached, its query
    names a table, and the state has no [session_context] to mirror the
    table into; the exception is then the [KeyError] of that key. *)
Theorem update_memory_raises_iff env state e :
  update_memory env state = Raise e
  ↔ e = "'session_context'"
    ∧ session_context state = None
    ∧ truthy_str (generated_sql state) = true
    ∧ default [] (rows state) ≠ []
    ∧ is_Some (Py.from_table_search (default "" (generated_sql state))).
Proof.
  split.
  - intros Hraise.
    destruct (session_context state) as [ctx|] eqn:Ectx.
    { destruct (update_memory_total env state) as [state' Hok]; [left; by eexists|].
      congruence. }
    destruct (truthy_str (generated_sql state)) eqn:Esql.
    2: { destruct (update_memory_total env state) as [state' Hok]; [by right; right|].
         congruence. }
    destruct (default [] (rows state)) as [|row rest] eqn:Erows.
    { destruct (update_memory_total env state) as [state' Hok]; [by right; left|].
      congruence. }
    revert Hraise. unfold update_memory.
    destruct (initialize_memory_fields state) as (-> & -> & _ & _ & Hc & _).
    rewrite Erows. destruct (generated_sql state) as [sql|]; [|done].
    cbn [truthy_str] in Esql. rewrite Esql.
    change (default "" (Some sql)) with sql.
    destruct (Py.contains "FROM" (Py.upper sql)); [|done].
    destruct (Py.from_table_search sql) as [table|]; [|done].
    unfold the_context. rewrite Hc, Ectx. cbn. intros [= <-].
    repeat split; first [done | by eexists].
  - intros (-> & Hctx & Hsql & Hrows & [table Htable]).
    pose proof (from_table_search_contains _ _ Htable) as Hfrom.
    unfold update_memory.
    destruct (initialize_memory_fields state) as (-> & -> & _ & _ & Hc & _).
    destruct (generated_sql state) as [sql|]; [|done].
    destruct (default [] (rows state)); [done|].
    change (default "" (Some sql)) with sql in Htable, Hfrom.
    cbn [truthy_str] in Hsql. rewrite Hsql, Hfrom, Htable.
    unfold the_context. by rewrite Hc, Hctx.
Qed.

(** ** The record of the turn *)

Lemma str_take_length n s : (String.length (Py.str_take n s) ≤ n)%nat.
Proof.
  unfold Py.str_take. revert n.
  induction s as [|c s IH]; intros [|n]; cbn; try lia.
  specialize (IH n). lia.
Qed.

Lemma push_history_drop record history :
  push_history record history
  = drop (length history + 1 - 10) (history ++ [record]).
Proof.
  unfold push_history, Py.last_n. rewrite length_app. cbn [length].
  destruct (Nat.ltb_spec 10 (length history + 1)) as [Hlt|Hle]; [done|].
  by replace (length history + 1 - 10)%nat with 0%nat by lia.
Qed.

Lemma push_history_last record history :
  last (push_history record history) = Some record.
Proof.
  rewrite push_history_drop, last_lookup, length_drop, length_app. cbn [length].
  rewrite lookup_drop.
  replace (length history + 1 - 10
           + Nat.pred (length history + 1 - (length history + 1 - 10)))%nat
    with (length history + 0)%nat by lia.
  by rewrite lookup_app_r, Nat.add_0_r, Nat.sub_diag by lia.
Qed.

(** The newest record of the history is that of the turn: its number is
    the new [turn_count], it holds the question, the generated query, the
    number of rows, and the first 200 characters of the answer. *)
Theorem newest_record_is_the_turn env state state' :
  update_memory env state = Ok state' →
  ∃ record,
    last (query_history (memory_of state')) = Some record
    ∧ qr_turn record = turn_count (memory_of state')
    ∧ qr_query record = user_query state
    ∧ qr_sql record = generated_sql state
    ∧ qr_row_count record = Z.of_nat (length (default [] (rows state)))
    ∧ qr_response_summary record = Py.str_take 200 (default "" (response state))
    ∧ (String.length (qr_response_summary record) ≤ 200)%nat.
Proof.
  intros Hupdate.
  destruct (update_memory_fields _ _ _ Hupdate) as (memory' & Hmem & Hturn & Hhist & _).
  assert (Hnew : memory_of state' = memory') by (unfold memory_of; by rewrite Hmem).
  exists (query_record_of env (turn_count (memory_of state) + 1) state).
  rewrite Hnew, Hhist, Hturn. split; [apply push_history_last|].
  repeat split. apply str_take_length.
Qed.

Lemma newest_record_is_the_turn_witness :
  let state :=
    set_response "Here are all 1 entries:" (Doubles.listing [Doubles.hcp_row "Dr A" 1]) in
  ∃ state',
    update_memory (Doubles.env_ok []) state = Ok state'
    ∧ ∃ record,
        last (query_history (memory_of state')) = Some record
        ∧ qr_turn record = turn_count (memory_of state')
        ∧ qr_query record = user_query state
        ∧ qr_sql record = generated_sql state
        ∧ qr_row_count record = Z.of_nat (length (default [] (rows state)))
        ∧ qr_response_summary record = Py.str_take 200 (default "" (response state))
        ∧ (String.length (qr_response_summary record) ≤ 200)%nat.
Proof.
  intros state.
  destruct (update_memory_total (Doubles.env_ok []) state) as [state' Hupdate].
  { left. by eexists. }
  exists state'. split; [exact Hupdate|].
  apply (newest_record_is_the_turn (Doubles.env_ok []) state state' Hupdate).
Defined.

(** Turn numbers in the history stay consecutive and end at [turn_count]:
    an update keeps this, and the fresh memory has it, so no turn number
    is missing or repeated among the records kept. *)
Theorem turns_stay_consecutive env state state' :
  update_memory env state = Ok state' →
  turns_consecutive (memory_of state) →
  turns_consecutive fresh_memory ∧ turns_consecutive (memory_of state').
Proof.
  intros Hupdate Hold. split.
  { intros i record. cbn. by rewrite lookup_nil. }
  destruct (update_memory_fields _ _ _ Hupdate) as (memory' & Hmem & Hturn & Hhist & _).
  assert (Hnew : memory_of state' = memory') by (unfold memory_of; by rewrite Hmem).
  rewrite Hnew. unfold turns_consecutive in *.
  rewrite Hhist, Hturn, push_history_drop.
  set (history := query_history (memory_of state)) in *.
  set (dropped := (length history + 1 - 10)%nat).
  intros i record. rewrite lookup_drop, length_drop, length_app. cbn [length].
  intros Hlookup.
  destruct (decide (dropped + i < length history)%nat) as [Hin|Hout].
  - rewrite lookup_app_l in Hlookup by done.
    rewrite (Hold _ _ Hlookup). unfold dropped in *. lia.
  - rewrite lookup_app_r in Hlookup by lia.
    destruct (dropped + i - length history)%nat eqn:Hpos; [|by destruct n].
    injection Hlookup as <-. cbn. unfold dropped in *. lia.
Qed.

Lemma turns_stay_consecutive_witness :
  let state := Doubles.state_after 12 "show me all hcp" in
  ∃ state',
    update_memory (Doubles.env_ok []) state = Ok state'
    ∧ turns_consecutive (memory_of state)
    ∧ turns_consecutive fresh_memory ∧ turns_consecutive (memory_of state').
Proof.
  intros state.
  destruct (update_memory_total (Doubles.env_ok []) state) as [state' Hupdate].
  { left. by eexists. }
  assert (Hold : turns_consecutive (memory_of state)).
  { intros i record. cbn.
    do 10 (destruct i as [|i]; [by intros [= <-]|]). rewrite ?lookup_nil. done. }
  exists state'. split; [exact Hupdate|]. split; [exact Hold|].
  apply (turns_stay_consecutive (Doubles.env_ok []) state state' Hupdate Hold).
Defined.

(** ** Tables tracked by the router *)

Lemma prefix_app_l a b hay :
  String.prefix (a +:+ b) hay = true → String.prefix a hay = true.
Proof.
  revert hay. induction a as [|c a IH]; intros hay; [by destruct hay|].
  change (String c a +:+ b) with (String c (a +:+ b)).
  destruct hay as [|c' hay]; cbn; [done|].
  destruct (ascii_dec c c'); [apply IH|done].
Qed.

Lemma prefix_app_contains a b hay :
  String.prefix (a +:+ b) hay = true → Py.contains b hay = true.
Proof.
  revert hay. induction a as [|c a IH]; intros hay.
  - apply contains_prefix.
  - change (String c a +:+ b) with (String c (a +:+ b)).
    destruct hay as [|c' hay]; cbn; [done|].
    destruct (ascii_dec c c'); [|done]. intros Hrest.
    change (Py.contains b (String c' hay) = true). apply contains_further. by apply IH.
Qed.

(** A text that holds [a ++ b] holds [a] and holds [b]. *)
Lemma contains_app a b hay :
  Py.contains (a +:+ b) hay = true →
  Py.contains a hay = true ∧ Py.contains b hay = true.
Proof.
  induction hay as [|c hay IH].
  - change (Py.contains (a +:+ b) "") with (String.prefix (a +:+ b) "" || false).
    rewrite orb_false_r. intros Hprefix. split.
    + apply contains_prefix. by apply (prefix_app_l a b).
    + by apply (prefix_app_contains a b).
  - change (Py.contains (a +:+ b) (String c hay))
      with (String.prefix (a +:+ b) (String c hay) || Py.contains (a +:+ b) hay).
    intros [Hprefix|Hrest]%orb_true_iff.
    + split; [|by apply (prefix_app_contains a b)].
      apply contains_prefix. by apply (prefix_app_l a b).
    + destruct (IH Hrest). split; by apply contains_further.
Qed.


Lemma track_table_current query ctx table :
  current_table (track_table query ctx table)
  = (if Py.contains table query then Some table else current_table ctx).
Proof. unfold track_table. by destruct (Py.contains table query). Qed.



(** Last match wins, and "list" is the last name tried: whenever the
    lower-cased question contains "list" (as it does when it names
    [list_versions] or [target_list_entries]) the router leaves
    [current_table = "list"]. *)
Theorem router_list_shadows state :
  Py.contains "list_versions" (Py.lower (user_query state)) = true
  ∨ Py.contains "target_list_entries" (Py.lower (user_query state)) = true
  ∨ Py.contains "list" (Py.lower (user_query state)) = true →
  current_table <$> session_context (router_node state) = Some (Some "list").
Proof.
  intros Hnamed.
  assert (Hlist : Py.contains "list" (Py.lower (user_query state)) = true).
  { destruct Hnamed as [H|[H|H]]; [| |done].
    - by apply (contains_app "list" "_versions") in H as [? _].
    - apply (contains_app "target_" "list_entries") in H as [_ H].
      by apply (contains_app "list" "_entries") in H as [? _]. }
  unfold router_node.
  destruct (initialize_memory_fields state) as (_ & _ & _ & _ & _ & Hq).
  cbn [session_context set_routing set_context fmap option_fmap option_map].
  f_equal. rewrite Hq.
  change router_tables
    with (["list_versions"; "target_list_entries"; "version"; "entry"; "hcp"] ++ ["list"]).
  rewrite foldl_app. cbn [foldl]. by rewrite track_table_current, Hlist.
Qed.

Lemma router_list_shadows_witness :
  let state := Doubles.blank_state "Show me the target_list_entries for version 3" in
  (Py.contains "list_versions" (Py.lower (user_query state)) = true
   ∨ Py.contains "target_list_entries" (Py.lower (user_query state)) = true
   ∨ Py.contains "list" (Py.lower (user_query state)) = true)
  ∧ current_table <$> session_context (router_node state) = Some (Some "list").
Proof.
  intros state.
  assert (Hnamed :
    Py.contains "list_versions" (Py.lower (user_query state)) = true
    ∨ Py.contains "target_list_entries" (Py.lower (user_query state)) = true
    ∨ Py.contains "list" (Py.lower (user_query state)) = true).
  { right. left. reflexivity. }
  split; [exact Hnamed|]. apply (router_list_shadows state Hnamed).
Defined.

(** The routing decision reads the question only: neither the memory (its
    entity index included) nor the session context can change it. *)
Theorem router_decision_reads_question_only state1 state2 :
  user_query state1 = user_query state2 →
  needs_sql (router_node state1) = needs_sql (router_node state2)
  ∧ is_clarification (router_node state1) = false.
Proof.
  intros Hsame. by rewrite !router_node_needs_sql, Hsame.
Qed.

Lemma router_decision_reads_question_only_witness :
  user_query (Doubles.state_after 4 "tell me about version") = user_query
    (Doubles.blank_state "tell me about version")
  ∧ needs_sql (router_node (Doubles.state_after 4 "tell me about version"))
    = needs_sql (router_node (Doubles.blank_state "tell me about version"))
  ∧ is_clarification (router_node (Doubles.state_after 4 "tell me about version")) = false.
Proof.
  split; [reflexivity|].
  apply (router_decision_reads_question_only
           (Doubles.state_after 4 "tell me about version")
           (Doubles.blank_state "tell me about version")).
  reflexivity.
Defined.

(** ** What a turn asks of its collaborators *)

Lemma update_memory_clock env env' state :
  now env = now env' → update_memory env state = update_memory env' state.
Proof. intros Hnow. unfold update_memory, query_record_of. by rewrite Hnow. Qed.

Lemma summarizer_node_clock env env' state :
  now env = now env' → summarizer_node env state = summarizer_node env' state.
Proof. intros Hnow. unfold summarizer_node. by apply update_memory_clock. Qed.

(** A greeting or a meta question is handled without the completion engine
    and without the data store: nothing is sent for execution, and with
    the same clock any two environments leave the same sessions and give
    the same reply. *)
Theorem conversation_turn_calls_nothing env env' sessions request :
  is_pure_greeting (Py.lower (question request))
  || is_meta (Py.lower (question request)) = true →
  now env = now env' →
  dispatched (turn env sessions request).1 = []
  ∧ chat_query env sessions request = chat_query env' sessions request.
Proof.
  intros Hrouted Hnow.
  set (state := initial_state (transcript (open_session sessions request) request) request).
  assert (Hneeds : needs_sql (router_node state) = false).
  { rewrite router_node_needs_sql.
    change (user_query state) with (question request). by rewrite Hrouted. }
  assert (Hrun : ∀ e, (turn e sessions request)
                      = ([Entered ROUTER; Entered CLASSIFY; Entered SUMMARIZE],
                         summarizer_node e
                           (set_query_type (Some "conversation") (router_node state)))).
  { intros e. unfold turn. rewrite invoke_agent_run.
    by apply agent_run_conversation. }
  split; [by rewrite Hrun|].
  unfold chat_query. rewrite !Hrun. cbn [snd].
  by rewrite (summarizer_node_clock env env').
Qed.

Lemma conversation_turn_calls_nothing_witness :
  is_pure_greeting (Py.lower (question (Doubles.ask "s1" "Good Morning")))
  || is_meta (Py.lower (question (Doubles.ask "s1" "Good Morning"))) = true
  ∧ now (Doubles.env_ok []) = now Doubles.env_engine_down
  ∧ dispatched (turn (Doubles.env_ok []) ∅ (Doubles.ask "s1" "Good Morning")).1 = []
  ∧ chat_query (Doubles.env_ok []) ∅ (Doubles.ask "s1" "Good Morning")
    = chat_query Doubles.env_engine_down ∅ (Doubles.ask "s1" "Good Morning").
Proof.
  split; [reflexivity|]. split; [reflexivity|].
  apply (conversation_turn_calls_nothing (Doubles.env_ok []) Doubles.env_engine_down ∅
           (Doubles.ask "s1" "Good Morning")); reflexivity.
Defined.

Lemma dispatched_entered node steps :
  dispatched (Entered node :: steps) = dispatched steps.
Proof. reflexivity. Qed.

Lemma dispatched_app steps1 steps2 :
  dispatched (steps1 ++ steps2) = dispatched steps1 ++ dispatched steps2.
Proof. apply omap_app. Qed.

Lemma execute_sql_node_events env state :
  (execute_sql_node env state).1 = []
  ∨ ∃ sql, (execute_sql_node env state).1 = [Executed sql []]
           ∧ generated_sql state = Some sql ∧ sql ≠ "".
Proof.
  unfold execute_sql_node.
  destruct (needs_sql state); cbn; [|by left].
  destruct (generated_sql state) as [sql|] eqn:Esql; cbn; [|by left].
  destruct sql as [|c sql]; cbn; [by left|].
  destruct (db_connect env) as [[]|e]; cbn; [|by left].
  right. by eexists.
Qed.

Lemma execute_sql_node_sql env state state' :
  (execute_sql_node env state).2 = Ok state' →
  generated_sql state' = generated_sql state.
Proof.
  unfold execute_sql_node, execution_failed, the_context.
  destruct (negb (needs_sql state) || negb (truthy_str (generated_sql state))); cbn.
  { by intros [= <-]. }
  destruct (db_connect env) as [[]|e]; cbn.
  - destruct (db_execute env _) as [fetched|e]; cbn;
      destruct (session_context state) as [ctx|]; cbn; try done; by intros [= <-].
  - destruct (session_context state) as [ctx|]; cbn; [|done]. by intros [= <-].
Qed.

(** A turn sends at most one statement to the data store, and the one it
    sends is the non-empty text that [generate_sql_node] produced, which
    is also the generated query of the final state. *)
Theorem one_statement_per_turn env sessions request :
  dispatched (turn env sessions request).1 = []
  ∨ ∃ sql,
      dispatched (turn env sessions request).1 = [sql]
      ∧ sql ≠ ""
      ∧ ∀ final, (turn env sessions request).2 = Ok final →
                 generated_sql final = Some sql.
Proof.
  unfold turn. rewrite invoke_agent_run. unfold agent_run.
  destruct (classify_query_node env _) as [classified|e]; [|by left].
  destruct (needs_sql classified); [|by left].
  destruct (generate_sql_node env classified) as [generated|e]; [|by left].
  destruct (execute_sql_node_events env generated) as [Hnone|(sql & Hone & Hsql & Hne)];
    destruct (execute_sql_node env generated) as [events [executed|e]] eqn:Hexec;
    cbn [fst snd] in *; subst events.
  1,2: by left.
  - right. exists sql. split; [done|]. split; [done|].
    intros final Hsum.
    destruct (summarizer_node_fields _ _ _ Hsum) as (_ & _ & -> & _).
    apply (f_equal snd) in Hexec. cbn in Hexec.
    by rewrite (execute_sql_node_sql _ _ _ Hexec).
  - right. exists sql. split; [done|]. split; [done|]. done.
Qed.

(** ** Outcome of the execution node *)

(** With a session context, a data request and a non-empty query the
    execution node never raises.  When the store answers, the state holds
    the fetched rows and the context their count; when the connection or
    the statement fails, the rows are empty, the context records the error
    text and keeps the result count of the previous execution. *)
Theorem execute_sql_node_outcome env state ctx sql :
  session_context state = Some ctx →
  needs_sql state = true →
  generated_sql state = Some sql →
  sql ≠ "" →
  ∃ state' ctx',
    (execute_sql_node env state).2 = Ok state'
    ∧ session_context state' = Some ctx'
    ∧ match db_connect env, db_execute env sql with
      | Ok _, Ok fetched =>
          rows state' = Some fetched
          ∧ last_result_count ctx' = Z.of_nat (length fetched)
          ∧ last_results_summary ctx'
            = "Retrieved " +:+ Py.str_of_Z (Z.of_nat (length fetched)) +:+ " rows"
      | Ok _, Raise e | Raise e, _ =>
          rows state' = Some []
          ∧ last_result_count ctx' = last_result_count ctx
          ∧ last_results_summary ctx' = "Error: " +:+ e
      end.
Proof.
  intros Hctx Hneeds Hsql Hnonempty.
  unfold execute_sql_node, execution_failed, the_context.
  rewrite Hneeds, Hsql. destruct sql as [|c sql]; [done|]. cbn.
  destruct (db_connect env) as [[]|e]; cbn.
  - destruct (db_execute env (String c sql)) as [fetched|e]; cbn; rewrite Hctx; cbn;
      by eexists _, _.
  - rewrite Hctx. cbn. by eexists _, _.
Qed.

Lemma execute_sql_node_outcome_witness :
  let state :=
    set_generated_sql (Some "SELECT * FROM hcp")
      (set_routing true false (Doubles.blank_state "show me all hcp")) in
  session_context state = Some (default_context (Doubles.blank_state ""))
  ∧ needs_sql state = true
  ∧ generated_sql state = Some "SELECT * FROM hcp"
  ∧ "SELECT * FROM hcp" ≠ ""
  ∧ ∃ state' ctx',
      (execute_sql_node (Doubles.env_ok [Doubles.hcp_row "Dr A" 1]) state).2 = Ok state'
      ∧ session_context state' = Some ctx'
      ∧ match db_connect (Doubles.env_ok [Doubles.hcp_row "Dr A" 1]),
              db_execute (Doubles.env_ok [Doubles.hcp_row "Dr A" 1]) "SELECT * FROM hcp" with
        | Ok _, Ok fetched =>
            rows state' = Some fetched
            ∧ last_result_count ctx' = Z.of_nat (length fetched)
            ∧ last_results_summary ctx'
              = "Retrieved " +:+ Py.str_of_Z (Z.of_nat (length fetched)) +:+ " rows"
        | Ok _, Raise e | Raise e, _ =>
            rows state' = Some []
            ∧ last_result_count ctx'
              = last_result_count (default_context (Doubles.blank_state ""))
            ∧ last_results_summary ctx' = "Error: " +:+ e
        end.
Proof.
  intros state.
  split; [reflexivity|]. split; [reflexivity|]. split; [reflexivity|].
  split; [discriminate|].
  apply (execute_sql_node_outcome (Doubles.env_ok [Doubles.hcp_row "Dr A" 1]) state
           (default_context (Doubles.blank_state "")) "SELECT * FROM hcp");
    [reflexivity|reflexivity|reflexivity|discriminate].
Defined.

(** ** Fields and labels of the display *)


Lemma up_to_100_rows_all_rendered_witness :
  let state := Doubles.listing [Doubles.hcp_row "Dr A" 1; [("id", VInt 3)]] in
  is_list_query (default "conversation" (query_type state)) = true
  ∧ default [] (rows state) ≠ []
  ∧ (length (default [] (rows state)) ≤ 100)%nat
  ∧ compose_response state
    = "Here are all " +:+ Py.str_of_nat (length (default [] (rows state)))
      +:+ " entries:" +:+ nl +:+ nl
      +:+ Py.join nl (results_list (default [] (rows state)))
  ∧ length (results_list (default [] (rows state))) = length (default [] (rows state))
  ∧ ∀ i row, default [] (rows state) !! i = Some row →
             ∃ text, results_list (default [] (rows state)) !! i = Some (numbered i text).
Proof.
  intros state.
  split; [reflexivity|]. split; [discriminate|]. split; [cbn; lia|].
  apply (up_to_100_rows_all_rendered state); [reflexivity|discriminate|cbn; lia].
Defined.

Lemma truthy_row_get_key field row :
  truthy (row_get field row) = true → field ∈ keys row.
Proof.
  induction row as [|[k v] row IH]; cbn; [done|].
  destruct (String.eqb_spec k field) as [->|_]; intros Htruthy.
  - apply list_elem_of_here.
  - apply list_elem_of_further. by apply IH.
Qed.

Lemma row_parts_elem labels fields row part :
  part ∈ row_parts labels fields row
  ↔ ∃ field,
      field ∈ fields
      ∧ truthy (row_get field row) = true
      ∧ part = label_of labels field +:+ ": " +:+ str_of_value (row_get field row).
Proof.
  unfold row_parts. rewrite list_elem_of_omap. split.
  - intros (field & Hin & Hpart). cbv zeta in Hpart.
    destruct (truthy (row_get field row)) eqn:Htruthy; [|done].
    injection Hpart as <-. by exists field.
  - intros (field & Hin & Htruthy & ->). exists field. split; [done|].
    cbv zeta. by rewrite Htruthy.
Qed.

Lemma row_lines_elem labels fields rows_ line :
  line ∈ omap id (imap (row_line labels fields) rows_)
  ↔ ∃ i row,
      rows_ !! i = Some row
      ∧ row_parts labels fields row ≠ []
      ∧ line = numbered i (Py.join " | " (row_parts labels fields row)).
Proof.
  rewrite list_elem_of_omap. split.
  - intros (option_line & Hin & Hsome). cbn in Hsome. subst option_line.
    apply list_elem_of_lookup in Hin as (i & Hi).
    rewrite list_lookup_imap in Hi.
    destruct (rows_ !! i) as [row|] eqn:Hrow; [|done].
    cbn in Hi. injection Hi as Hi. unfold row_line in Hi.
    destruct (row_parts labels fields row) as [|part parts] eqn:Hparts; [done|].
    injection Hi as <-. exists i, row. by rewrite Hparts.
  - intros (i & row & Hrow & Hparts & ->). exists (Some (numbered i
      (Py.join " | " (row_parts labels fields row)))). split; [|done].
    apply list_elem_of_lookup. exists i.
    rewrite list_lookup_imap, Hrow. cbn. unfold row_line.
    by destruct (row_parts labels fields row).
Qed.

(** For a category other than [list_all] and [ad_hoc_select] (an
    unexpected text from the classifier included) the rows are shown under
    the generic header.  The lines are exactly those of the rows with a
    non-empty selected field: the line of such a row carries its position
    and its parts joined by a bar, and each part is the label and the
    value of a selected field that is a key of that row with a value that
    is not empty.  A row without such a field gets no line. *)
Theorem other_categories_generic_display state :
  is_list_query (default "conversation" (query_type state)) = false →
  default [] (rows state) ≠ [] →
  compose_response state
  = "Here are the results:" +:+ nl +:+ nl
    +:+ Py.join nl (other_results_list (default [] (rows state)))
  ∧ (length (other_results_list (default [] (rows state)))
     ≤ length (default [] (rows state)))%nat
  ∧ ∃ fields,
      fields
      = display_fields_of other_priority_fields
          ["id"; "created_at"; "updated_at"; "version_id"] 5
          (from_option keys [] (head (default [] (rows state))))
      ∧ (∀ line,
           line ∈ other_results_list (default [] (rows state))
           ↔ ∃ i row,
               default [] (rows state) !! i = Some row
               ∧ row_parts field_labels fields row ≠ []
               ∧ line = numbered i (Py.join " | " (row_parts field_labels fields row)))
      ∧ ∀ row part,
          part ∈ row_parts field_labels fields row
          ↔ ∃ field,
              field ∈ fields
              ∧ field ∈ keys row
              ∧ truthy (row_get field row) = true
              ∧ part = label_of field_labels field +:+ ": "
                       +:+ str_of_value (row_get field row).
Proof.
  intros Hother Hrows. unfold compose_response. rewrite Hother. cbn [andb].
  destruct (default [] (rows state)) as [|first others] eqn:Erows; [done|].
  split; [done|]. unfold other_results_list. split.
  { etrans; [apply omap_length_le|]. by rewrite length_imap. }
  eexists. split; [reflexivity|]. split.
  - intros line. apply row_lines_elem.
  - intros row part. rewrite row_parts_elem. split.
    + intros (field & Hin & Htruthy & ->). exists field.
      repeat split; try done. by apply truthy_row_get_key.
    + intros (field & Hin & _ & Htruthy & ->). by exists field.
Qed.

Lemma other_categories_generic_display_witness :
  let state :=
    set_query_type (Some "i think this is history")
      (Doubles.listing [Doubles.hcp_row "Dr A" 1; [("id", VInt 3)]]) in
  is_list_query (default "conversation" (query_type state)) = false
  ∧ default [] (rows state) ≠ []
  ∧ compose_response state = "Here are the results:" +:+ nl +:+ nl +:+ "1. Name: Dr A | Tier: 1"
  ∧ compose_response state
    = "Here are the results:" +:+ nl +:+ nl
      +:+ Py.join nl (other_results_list (default [] (rows state)))
  ∧ (length (other_results_list (default [] (rows state)))
     ≤ length (default [] (rows state)))%nat
  ∧ ∃ fields,
      fields
      = display_fields_of other_priority_fields
          ["id"; "created_at"; "updated_at"; "version_id"] 5
          (from_option keys [] (head (default [] (rows state))))
      ∧ (∀ line,
           line ∈ other_results_list (default [] (rows state))
           ↔ ∃ i row,
               default [] (rows state) !! i = Some row
               ∧ row_parts field_labels fields row ≠ []
               ∧ line = numbered i (Py.join " | " (row_parts field_labels fields row)))
      ∧ ∀ row part,
          part ∈ row_parts field_labels fields row
          ↔ ∃ field,
              field ∈ fields
              ∧ field ∈ keys row
              ∧ truthy (row_get field row) = true
              ∧ part = label_of field_labels field +:+ ": "
                       +:+ str_of_value (row_get field row).
Proof.
  intros state.
  split; [reflexivity|]. split; [discriminate|]. split; [reflexivity|].
  apply (other_categories_generic_display state); [reflexivity|discriminate].
Defined.








(** ** Transcripts and sessions of the entry point *)

Lemma last_n_last_n {A} n (l : list A) : Py.last_n n (Py.last_n n l) = Py.last_n n l.
Proof. apply last_n_short. rewrite last_n_length. lia. Qed.

(** The context text is built from the last six messages alone; without
    messages it is the fixed text. *)
Theorem conversation_context_last_six history :
  format_conversation_context history
  = format_conversation_context (Py.last_n 6 history)
  ∧ format_conversation_context [] = "No previous conversation.".
Proof.
  split; [|done]. unfold format_conversation_context.
  destruct history as [|msg history]; [done|].
  destruct (Py.last_n 6 (msg :: history)) as [|msg' recent] eqn:Hrecent.
  - apply (f_equal length) in Hrecent. rewrite last_n_length in Hrecent.
    cbn in Hrecent. lia.
  - by rewrite <- Hrecent, last_n_last_n.
Qed.

Lemma transcript_open_session sessions request :
  transcript (open_session sessions request) request = transcript sessions request.
Proof.
  unfold transcript, open_session.
  destruct (sessions !! session_key request) eqn:Hkey; [by rewrite Hkey|].
  by rewrite lookup_insert_eq.
Qed.

Lemma record_exchange_spec request final text history :
  let exchange :=
    [{| role := "user"; content := question request;
        msg_query_type := query_type final |};
     {| role := "assistant"; content := text;
        msg_query_type := query_type final |}] in
  record_exchange request final text history
  = drop (length history + 2 - 20) history ++ exchange.
Proof.
  intros exchange. unfold record_exchange, Py.last_n. fold exchange.
  rewrite length_app. change (length exchange) with 2%nat.
  destruct (Nat.ltb_spec 20 (length history + 2)) as [Hlt|Hle].
  - apply drop_app_le. lia.
  - by replace (length history + 2 - 20)%nat with 0%nat by lia.
Qed.

(** An answered turn leaves in its session the previous transcript minus
    its oldest messages beyond the cap, followed by the question and the
    answer, both tagged with the category of the turn; the transcript
    never holds more than 20 messages. *)
Theorem answered_turn_extends_transcript env sessions request reply :
  (chat_query env sessions request).2 = Answered reply →
  ∃ kept,
    transcript (chat_query env sessions request).1 request
    = kept ++ [{| role := "user"; content := question request;
                  msg_query_type := resp_query_type reply |};
               {| role := "assistant"; content := answer reply;
                  msg_query_type := resp_query_type reply |}]
    ∧ kept `suffix_of` transcript sessions request
    ∧ (length (transcript (chat_query env sessions request).1 request) ≤ 20)%nat.
Proof.
  unfold chat_query.
  destruct (turn env sessions request).2 as [final|e]; [|done].
  cbn [fst snd]. intros [= <-]. cbn [resp_query_type answer].
  unfold transcript at 1 4. rewrite !lookup_insert_eq. cbn [default from_option id].
  rewrite record_exchange_spec, transcript_open_session.
  eexists. split; [reflexivity|]. split; [apply suffix_drop|].
  rewrite length_app, length_drop. cbn. lia.
Qed.

Lemma answered_turn_extends_transcript_witness :
  ∃ reply,
    (chat_query (Doubles.env_ok []) ∅ (Doubles.ask "s1" "show me all hcp")).2
    = Answered reply
    ∧ ∃ kept,
        transcript (chat_query (Doubles.env_ok []) ∅
                      (Doubles.ask "s1" "show me all hcp")).1
                   (Doubles.ask "s1" "show me all hcp")
        = kept ++ [{| role := "user";
                      content := question (Doubles.ask "s1" "show me all hcp");
                      msg_query_type := resp_query_type reply |};
                   {| role := "assistant"; content := answer reply;
                      msg_query_type := resp_query_type reply |}]
        ∧ kept `suffix_of` transcript ∅ (Doubles.ask "s1" "show me all hcp")
        ∧ (length (transcript (chat_query (Doubles.env_ok []) ∅
                                 (Doubles.ask "s1" "show me all hcp")).1
                              (Doubles.ask "s1" "show me all hcp")) ≤ 20)%nat.
Proof.
  eexists. split; [vm_compute; reflexivity|].
  apply (answered_turn_extends_transcript (Doubles.env_ok []) ∅
           (Doubles.ask "s1" "show me all hcp")).
  vm_compute. reflexivity.
Defined.

Lemma chat_query_sessions env sessions request :
  ∃ history,
    (chat_query env sessions request).1
    = <[session_key request := history]> sessions.
Proof.
  unfold chat_query.
  destruct (turn env sessions request).2 as [final|e]; cbn [fst].
  - unfold open_session.
    destruct (sessions !! session_key request) eqn:Hkey; [by eexists|].
    eexists. by rewrite insert_insert_eq.
  - unfold open_session.
    destruct (sessions !! session_key request) as [history|] eqn:Hkey; [|by eexists].
    exists history. by rewrite insert_id.
Qed.

(** Whatever its outcome, a request touches its own session only: the key
    of the request is registered, every other session keeps its
    transcript, and the health check counts one session more exactly when
    the key was new. *)
Theorem chat_query_touches_own_session env sessions request :
  is_Some ((chat_query env sessions request).1 !! session_key request)
  ∧ (∀ other, other ≠ session_key request →
              (chat_query env sessions request).1 !! other = sessions !! other)
  ∧ active_sessions (health_check env (chat_query env sessions request).1)
    = match sessions !! session_key request with
      | Some _ => active_sessions (health_check env sessions)
      | None => S (active_sessions (health_check env sessions))
      end.
Proof.
  destruct (chat_query_sessions env sessions request) as [history ->].
  split; [by rewrite lookup_insert_eq|]. split.
  - intros other Hother. by rewrite lookup_insert_ne.
  - cbn [health_check active_sessions].
    destruct (sessions !! session_key request) eqn:Hkey.
    + by rewrite map_size_insert_Some.
    + by rewrite map_size_insert_None.
Qed.

(** A turn that fails answers HTTP 500 with the text of the exception and
    leaves the transcript of its session as it was (empty for a session
    seen for the first time). *)
Theorem failed_turn_keeps_transcript env sessions request code detail :
  (chat_query env sessions request).2 = HTTPException code detail →
  code = 500
  ∧ (∃ e, (turn env sessions request).2 = Raise e
          ∧ detail = "Error processing query: " +:+ e)
  ∧ transcript (chat_query env sessions request).1 request
    = transcript sessions request.
Proof.
  unfold chat_query.
  destruct (turn env sessions request).2 as [final|e]; [done|].
  cbn [fst snd]. intros [= <- <-].
  split; [done|]. split; [by eexists|]. apply transcript_open_session.
Qed.

Lemma failed_turn_keeps_transcript_witness :
  (chat_query Doubles.env_engine_down ∅ (Doubles.ask "s1" "show me all hcp")).2
  = HTTPException 500 "Error processing query: Request timed out."
  ∧ (500 : Z) = 500
  ∧ (∃ e, (turn Doubles.env_engine_down ∅ (Doubles.ask "s1" "show me all hcp")).2
          = Raise e
          ∧ "Error processing query: Request timed out."
            = "Error processing query: " +:+ e)
  ∧ transcript (chat_query Doubles.env_engine_down ∅
                  (Doubles.ask "s1" "show me all hcp")).1
               (Doubles.ask "s1" "show me all hcp")
    = transcript ∅ (Doubles.ask "s1" "show me all hcp").
Proof.
  assert (Hreply :
    (chat_query Doubles.env_engine_down ∅ (Doubles.ask "s1" "show me all hcp")).2
    = HTTPException 500 "Error processing query: Request timed out.").
  { vm_compute. reflexivity. }
  split; [exact Hreply|].
  apply (failed_turn_keeps_transcript Doubles.env_engine_down ∅
           (Doubles.ask "s1" "show me all hcp") 500
           "Error processing query: Request timed out." Hreply).
Defined.

(** Clearing a session removes its transcript and nothing else, clearing
    twice is clearing once (an unknown key is no error), and clearing the
    session of a request that came first to a key undoes its
    registration. *)
Theorem clear_session_forgets env sessions request session :
  (clear_session sessions session).1 !! session = None
  ∧ (∀ other, other ≠ session →
              (clear_session sessions session).1 !! other = sessions !! other)
  ∧ clear_session (clear_session sessions session).1 session
    = clear_session sessions session
  ∧ (clear_session sessions session).2 = "Session " +:+ session +:+ " cleared"
  ∧ (clear_session (chat_query env sessions request).1 (session_key request)).1
    = delete (session_key request) sessions.
Proof.
  assert (Hclear : ∀ s k, (clear_session s k).1 = delete k s).
  { intros s k. unfold clear_session. cbn [fst].
    destruct (s !! k) eqn:Hk; [done|]. by rewrite delete_id. }
  split; [by rewrite Hclear, lookup_delete_eq|]. split.
  { intros other Hother. by rewrite Hclear, lookup_delete_ne. }
  split.
  { unfold clear_session at 1 3. cbn [fst snd]. f_equal.
    rewrite Hclear, lookup_delete_eq.
    destruct (sessions !! session) eqn:Hk; [done|]. by rewrite delete_id. }
  split; [done|].
  destruct (chat_query_sessions env sessions request) as [history ->].
  by rewrite Hclear, delete_insert_eq.
Qed.

(** ** The version nodes *)

(** Fetching the versions never raises: the state always ends with a
    version list, which is empty without a request id (then nothing is
    sent), without a connection, or when the statement fails; at most one
    statement is sent, the fixed one with the request id as parameter. *)
Theorem fetch_versions_never_raises env state :
  ∃ state' fetched,
    (fetch_versions_node env state).2 = Ok state'
    ∧ versions state' = Some fetched
    ∧ rows state' = rows state
    ∧ match request_id state, db_connect env with
      | Some rid, Ok _ =>
          (fetch_versions_node env state).1 = [Executed versions_sql [VInt rid]]
          ∧ fetched = match db_execute_params env versions_sql (VInt rid) with
                      | Ok found => found
                      | Raise _ => []
                      end
      | _, _ => (fetch_versions_node env state).1 = [] ∧ fetched = []
      end.
Proof.
  unfold fetch_versions_node.
  destruct (request_id state) as [rid|]; [|by eexists _, _].
  destruct (db_connect env) as [[]|e]; [|by eexists _, _].
  cbn [fst snd].
  destruct (db_execute_params env versions_sql (VInt rid)); by eexists _, _.
Qed.

Lemma analyze_pair_sound env acc step :
  (length (analyze_pair env acc step).1 ≤ 2)%nat
  ∧ ∀ acc', (analyze_pair env acc step).2 = Ok acc' →
            analysis_sound acc →
            analysis_sound acc' ∧ length acc'.1 = S (length acc.1).
Proof.
  unfold analyze_pair, execute_with, lift. destruct step as [prev curr].
  destruct (row_item "version_id" prev) as [prev_id|]; cbn; [|split; [lia|done]].
  destruct (row_item "version_id" curr) as [curr_id|]; cbn; [|split; [lia|done]].
  destruct (db_execute_params env hcp_sql prev_id) as [prev_rows|]; cbn;
    [|split; [lia|done]].
  destruct (hcp_set prev_rows) as [prev_hcps|]; cbn; [|split; [lia|done]].
  destruct (db_execute_params env hcp_sql curr_id) as [curr_rows|]; cbn;
    [|split; [lia|done]].
  destruct (hcp_set curr_rows) as [curr_hcps|]; cbn; [|split; [lia|done]].
  destruct (row_item "version_number" prev) as [from_number|]; cbn; [|split; [lia|done]].
  destruct (row_item "version_number" curr) as [to_number|]; cbn; [|split; [lia|done]].
  split; [lia|]. intros acc' [= <-] [Hall Hbound]. cbn [fst snd].
  set (total := Z.of_nat (length (list_difference curr_hcps prev_hcps))
                + Z.of_nat (length (list_difference prev_hcps curr_hcps))).
  split; [|rewrite length_app; cbn; lia].
  assert (Htotal : 0 ≤ total) by (unfold total; lia).
  destruct (Z.ltb_spec (md_total acc.2) total) as [Hlt|Hge];
    unfold analysis_sound; cbn [fst snd md_total].
  - split; [|lia]. apply Forall_app. split.
    + eapply Forall_impl; [exact Hall|]. cbn beta. intros c (? & ? & ? & ?).
      repeat split; try done. lia.
    + apply Forall_singleton. cbn. fold total. lia.
  - split; [|done]. apply Forall_app. split; [done|].
    apply Forall_singleton. cbn. fold total. lia.
Qed.

Lemma analyze_pairs_sound env pairs acc :
  analysis_sound acc →
  analysis_sound (analyze_pairs env acc pairs).2
  ∧ (length (analyze_pairs env acc pairs).2.1 ≤ length acc.1 + length pairs)%nat
  ∧ (length (analyze_pairs env acc pairs).1 ≤ 2 * length pairs)%nat.
Proof.
  revert acc. induction pairs as [|step pairs IH]; intros acc Hacc.
  { cbn. split; [done|]. split; lia. }
  cbn [analyze_pairs].
  destruct (analyze_pair_sound env acc step) as [Hevents Hstep].
  destruct (analyze_pair env acc step) as [events [acc'|e]]; cbn [fst snd] in *.
  - destruct (Hstep acc' eq_refl Hacc) as [Hacc' Hlen].
    destruct (IH acc' Hacc') as (Hfinal & Hcount & Hsent).
    destruct (analyze_pairs env acc' pairs) as [events' final]. cbn [fst snd] in *.
    cbn [length]. split; [done|]. split; [lia|]. rewrite length_app. lia.
  - cbn [length]. split; [done|]. split; lia.
Qed.

(** Analysing the changes never raises: the state always ends with a most
    dynamic version.  Without versions nothing is sent and the total is 0.
    Otherwise each comparison has non-negative counts whose sum is its
    total, no total exceeds that of the most dynamic version, there is at
    most one comparison per pair of successive versions and at most two
    statements are sent per pair. *)
Theorem analyze_changes_never_raises env state :
  ∃ state' dynamic,
    (analyze_changes_node env state).2 = Ok state'
    ∧ most_dynamic state' = Some dynamic
    ∧ match default [] (versions state) with
      | [] =>
          (analyze_changes_node env state).1 = []
          ∧ dynamic = {| md_version_number := VNone; md_total := 0 |}
          ∧ comparisons state' = comparisons state
      | _ :: later =>
          ∃ compared,
            comparisons state' = Some compared
            ∧ Forall (λ c, cmp_total c = added c + removed c
                           ∧ 0 ≤ added c ∧ 0 ≤ removed c
                           ∧ cmp_total c ≤ md_total dynamic) compared
            ∧ (length compared ≤ length later)%nat
            ∧ (length (analyze_changes_node env state).1 ≤ 2 * length later)%nat
      end.
Proof.
  unfold analyze_changes_node.
  destruct (default [] (versions state)) as [|first later]; [by eexists _, _|].
  destruct (db_connect env) as [[]|e].
  - assert (Hstart : analysis_sound
                       ([], {| md_version_number := VNone; md_total := -1 |})).
    { split; [apply Forall_nil_2|done]. }
    destruct (analyze_pairs_sound env (zip (first :: later) later) _ Hstart)
      as ([Hall _] & Hcount & Hsent).
    destruct (analyze_pairs env _ (zip (first :: later) later)) as [events final].
    cbn [fst snd] in *. eexists _, _. split; [reflexivity|]. split; [reflexivity|].
    eexists. split; [reflexivity|]. split; [done|].
    rewrite length_zip in Hcount, Hsent. cbn [length] in Hcount, Hsent. split; lia.
  - eexists _, _. split; [reflexivity|]. split; [reflexivity|].
    eexists. split; [reflexivity|]. split; [apply Forall_nil_2|]. cbn. split; lia.
Qed.

(** ** What the transcripts reach *)

Section Transcript.

Variables (history : list Message) (summary : string).

Local Abbreviation wt := (with_transcript history summary).

Local Ltac fields :=
  cbn [with_transcript user_query request_id query_type generated_sql versions
       comparisons most_dynamic rows response conversation_history
       context_summary session_context session_memory needs_sql
       is_clarification set_memory set_context set_query_type set_generated_sql
       set_rows set_response set_routing].

Lemma initialize_memory_transcript st :
  initialize_memory (wt st) = wt (initialize_memory st).
Proof. unfold initialize_memory. fields. by destruct (session_memory st). Qed.

Lemma router_node_transcript st : router_node (wt st) = wt (router_node st).
Proof.
  unfold router_node. rewrite initialize_memory_transcript.
  generalize (initialize_memory st). intros st'. reflexivity.
Qed.

Lemma classify_query_node_transcript env st :
  classify_query_node env (wt st) = on_ok wt (classify_query_node env st).
Proof.
  unfold classify_query_node. fields. destruct (needs_sql st); [|reflexivity].
  cbv iota beta. unfold negb. cbv iota. rewrite initialize_memory_transcript.
  generalize (initialize_memory st). intros st'.
  change (classify_prompt (wt st')) with (classify_prompt st').
  destruct (classify_completion env (classify_prompt st')) as [text|e]; [|reflexivity].
  cbn [mbind result_bind]. unfold the_context. fields.
  by destruct (session_context st').
Qed.

Lemma generate_sql_node_transcript env st :
  generate_sql_node env (wt st) = on_ok wt (generate_sql_node env st).
Proof.
  unfold generate_sql_node. fields. destruct (needs_sql st); [|reflexivity].
  cbv iota beta. unfold negb. cbv iota. rewrite initialize_memory_transcript.
  generalize (initialize_memory st). intros st'.
  change (sql_prompt (wt st')) with (sql_prompt st').
  destruct (sql_completion env (sql_prompt st')) as [text|e]; [|reflexivity].
  cbn [mbind result_bind]. unfold the_context. fields.
  by destruct (session_context st').
Qed.

Lemma execute_sql_node_transcript env st :
  execute_sql_node env (wt st)
  = ((execute_sql_node env st).1, on_ok wt (execute_sql_node env st).2).
Proof.
  unfold execute_sql_node, execution_failed, the_context. fields.
  destruct (negb (needs_sql st) || negb (truthy_str (generated_sql st)));
    [reflexivity|].
  destruct (db_connect env) as [[]|e]; cbn [fst snd].
  - f_equal. destruct (db_execute env _) as [fetched|e]; fields;
      by destruct (session_context st).
  - f_equal. by destruct (session_context st).
Qed.

Lemma update_memory_transcript env st :
  update_memory env (wt st) = on_ok wt (update_memory env st).
Proof.
  unfold update_memory. rewrite initialize_memory_transcript.
  generalize (initialize_memory st). intros st'.
  change (memory_of (wt st')) with (memory_of st').
  change (query_record_of env ?t (wt st')) with (query_record_of env t st').
  unfold the_context. fields.
  destruct (generated_sql st') as [sql|]; [|reflexivity].
  destruct (default [] (rows st')) as [|row rows_]; [reflexivity|].
  destruct (Py.nonempty sql); [|reflexivity].
  destruct (Py.contains "FROM" (Py.upper sql)); [|reflexivity].
  destruct (Py.from_table_search sql); [|reflexivity].
  by destruct (session_context st').
Qed.

Lemma summarizer_node_transcript env st :
  summarizer_node env (wt st) = on_ok wt (summarizer_node env st).
Proof.
  unfold summarizer_node. rewrite initialize_memory_transcript.
  generalize (initialize_memory st). intros st'.
  change (compose_response (wt st')) with (compose_response st').
  apply (update_memory_transcript env (set_response _ st')).
Qed.

Lemma agent_run_transcript env st :
  agent_run env (wt st) = ((agent_run env st).1, on_ok wt (agent_run env st).2).
Proof.
  unfold agent_run.
  rewrite router_node_transcript, classify_query_node_transcript.
  destruct (classify_query_node env (router_node st)) as [classified|e];
    [|reflexivity].
  cbn [on_ok]. fields. destruct (needs_sql classified).
  - rewrite generate_sql_node_transcript.
    destruct (generate_sql_node env classified) as [generated|e]; [|reflexivity].
    cbn [on_ok]. rewrite execute_sql_node_transcript.
    destruct (execute_sql_node env generated) as [events [executed|e]];
      [|reflexivity].
    cbn [on_ok fst snd]. by rewrite summarizer_node_transcript.
  - cbn [fst snd]. by rewrite summarizer_node_transcript.
Qed.

End Transcript.

Lemma turn_transcript env sessions request :
  turn env sessions request
  = let stored := transcript (open_session sessions request) request in
    let bare := agent_run env (initial_state [] request) in
    (bare.1,
     on_ok (with_transcript stored (format_conversation_context stored)) bare.2).
Proof.
  unfold turn. rewrite invoke_agent_run. cbv zeta.
  rewrite <- agent_run_transcript. reflexivity.
Qed.

(** The stored transcript of a session reaches the state of a run and
    nothing else: the steps of the run (the nodes entered, the statements
    sent) and the reply of [chat_query] (answer, SQL, row count, category,
    or the HTTP 500) are the same whatever the sessions store holds. *)
Theorem reply_ignores_transcripts env sessions1 sessions2 request :
  (turn env sessions1 request).1 = (turn env sessions2 request).1
  ∧ (chat_query env sessions1 request).2 = (chat_query env sessions2 request).2.
Proof.
  unfold chat_query. rewrite !turn_transcript. cbv zeta. cbn [fst snd].
  split; [reflexivity|].
  by destruct (agent_run env (initial_state [] request)).2.
Qed.

(** ** Similarity of two queries *)

Example related_queries :
  py_split "  Show  the HCP list " = ["Show"; "the"; "HCP"; "list"]
  ∧ _queries_are_related "show the hcp list" "HCP list for cardiology" = true
  ∧ _queries_are_related "show the list" "list the requests" = false
  ∧ _queries_are_related "hcp" "hcp" = false.
Proof. vm_compute. done. Qed.

(** [_queries_are_related] is symmetric but not reflexive: two queries are
    related only if each has at least two words that are not stop words,
    and a query is related to itself exactly when it has two such words. *)
Theorem queries_related_symmetric_not_reflexive query1 query2 :
  _queries_are_related query1 query2 = _queries_are_related query2 query1
  ∧ (_queries_are_related query1 query2 = true →
     (2 ≤ size (content_words query1))%nat ∧ (2 ≤ size (content_words query2))%nat)
  ∧ _queries_are_related query1 query1
    = bool_decide (2 ≤ size (content_words query1))%nat.
Proof.
  unfold _queries_are_related. cbv zeta.
  generalize (content_words query1) (content_words query2). intros words1 words2.
  split; [|split].
  - rewrite orb_comm. by rewrite (comm_L (∩) words1 words2).
  - destruct (bool_decide (words1 = ∅) || bool_decide (words2 = ∅)); [done|].
    intros Hrelated%bool_decide_eq_true.
    pose proof (subseteq_size (words1 ∩ words2) words1) as H1.
    pose proof (subseteq_size (words1 ∩ words2) words2) as H2.
    split.
    + etrans; [exact Hrelated|]. apply H1, intersection_subseteq_l.
    + etrans; [exact Hrelated|]. apply H2, intersection_subseteq_r.
  - rewrite orb_diag, (idemp_L (∩) words1).
    destruct (bool_decide_reflect (words1 = ∅)) as [->|]; [|done].
    rewrite size_empty. symmetry. apply bool_decide_eq_false. lia.
Qed.
